(** * ntag424_read.c: EV2 secure messaging, CMAC, padding, SDM helpers

    A shallow embedding of the core of [src/ntag424_read.c] and the
    properties of its specification.

    Conventions of the embedding.
    - A [uint8_t], [uint16_t] or [uint32_t] value is a [Z]; the casts of the
      source are written out as masks ([u8], [u16], [u32]).
    - A byte buffer is a [list Z].  A [size_t] length or index is a [nat]
      (no buffer of the program comes near [2^64] bytes, so [size_t]
      arithmetic never wraps).
    - A function that fills an output buffer returns the bytes it wrote; a
      function that updates an object in place ([ssm_session_t], [*out_len],
      [*sw_out]) takes the old value and returns the new one.
    - The system libraries (CommonCrypto's [CCCrypt], PC/SC's
      [SCardTransmit]) are the fields of the [Platform] class. *)

From Stdlib Require Import String Ascii.
From Stdlib Require Import ZArith List Lia Bool.
Import ListNotations.
Local Open Scope Z_scope.

(* ================================================================== *)
(** * Part I: definitions                                              *)
(* ================================================================== *)

(** ** Machine integers and buffers *)

Definition u8 (x : Z) : Z := Z.land x 0xFF.
Definition u16 (x : Z) : Z := Z.land x 0xFFFF.
Definition u32 (x : Z) : Z := Z.land x 0xFFFFFFFF.

Definition is_byte (x : Z) : Prop := 0 <= x < 256.
Definition bytes (l : list Z) : Prop := Forall is_byte l.

(** [buf[i]] *)
Definition rd (buf : list Z) (i : nat) : Z := nth i buf 0.

(** the [n] bytes at [buf + off] *)
Definition bytes_at (buf : list Z) (off n : nat) : list Z :=
  map (rd buf) (seq off n).

(** [buf[i] = v] *)
Fixpoint upd (i : nat) (v : Z) (buf : list Z) : list Z :=
  match buf, i with
  | [], _ => []
  | _ :: t, O => v :: t
  | h :: t, S j => h :: upd j v t
  end.

(** [memcpy(dst + off, src, |src|)] inside the bounds of [dst] *)
Definition memcpy (dst : list Z) (off : nat) (src : list Z) : list Z :=
  firstn off dst ++ src ++ skipn (off + length src) dst.

(** a zero-filled array of [n] bytes ([uint8_t a[n] = {0}], [calloc],
    [memset(a, 0, n)]); also stands for an array the source leaves
    uninitialised and then overwrites before it reads it *)
Definition zeros (n : nat) : list Z := repeat 0 n.

(** ** Component A: padding (source lines 172-189) *)

(** [pad_iso9797_m2]: the bytes written to [out]; the C function returns
    their number, [in_len + pad_len]. *)
Definition pad_iso9797_m2 (inp : list Z) : list Z :=
  let in_len := length inp in
  let pad_len := (16 - in_len mod 16)%nat in
  let pad_len := if (pad_len =? 0)%nat then 16%nat else pad_len in
  inp ++ [0x80] ++ zeros (pad_len - 1).

(** The loop [while (i >= 0 && buf[i] == 0x00) i--] of [unpad_iso9797_m2],
    on [k = i + 1] so that the signed index [i = -1] is [k = 0]. *)
Fixpoint unpad_scan (buf : list Z) (k : nat) : nat :=
  match k with
  | O => O
  | S i => if rd buf i =? 0x00 then unpad_scan buf i else S i
  end.

(** [unpad_iso9797_m2(buf, len)]: the new length; the buffer is not
    changed. *)
Definition unpad_iso9797_m2 (buf : list Z) (len : nat) : nat :=
  if (len =? 0)%nat then O
  else
    match unpad_scan buf len with
    | S i => if rd buf i =? 0x80 then i else len
    | O => len
    end.

(** ** The platform: CommonCrypto and PC/SC *)

(** The two system calls the program is written against.
    - [SCardTransmit c apdu cap]: the call
      [SCardTransmit(card, pio, apdu, apdu_len, NULL, resp, &rlen)] with
      [rlen = cap] on entry, in state [c] of the reader and card: the state
      afterwards, the return code and the [rlen] bytes received.
    - [CCCrypt enc options key iv inp]: the call
      [CCCrypt(enc ? kCCEncrypt : kCCDecrypt, kCCAlgorithmAES128, options,
      key, 16, iv, inp, |inp|, out, avail, &out_len)]: the status and the
      [out_len] bytes left in [out]. *)
Class Platform : Type := {
  Card : Type;
  SCardTransmit : Card -> list Z -> nat -> Card * (Z * list Z);
  CCCrypt : bool -> Z -> list Z -> option (list Z) -> list Z -> Z * list Z
}.

Definition MAX_APDU : nat := 512.
Definition SCARD_S_SUCCESS : Z := 0.
Definition SCARD_E_PROTO_MISMATCH : Z := 0x8010000F.
Definition kCCSuccess : Z := 0.
Definition kCCOptionECBMode : Z := 2.

(** The reader and card together with the APDUs put on the wire so far (a
    ghost log: the program does not keep it). *)
Record wire `{Platform} : Type := {
  card : Card;
  sent : list (list Z)
}.

(** ** Component B: transport (source lines 72-87, 498-521) *)

(** [transmit]: return code, response body ([resp], [*resp_len] bytes) and
    [*sw]; [sw] is the value [*sw] had before the call, which an
    unsuccessful call leaves in place. *)
Definition transmit `{Platform} (w : wire) (apdu : list Z) (cap : nat) (sw : Z)
  : wire * (Z * list Z * Z) :=
  let '(c', (rc, resp)) := SCardTransmit (card w) apdu cap in
  let w' := {| card := c'; sent := sent w ++ [apdu] |} in
  let rlen := length resp in
  if negb (rc =? SCARD_S_SUCCESS) then (w', (rc, [], sw))
  else if (rlen <? 2)%nat then (w', (SCARD_E_PROTO_MISMATCH, [], sw))
  else
    let sw' := u16 (Z.lor (Z.shiftl (rd resp (rlen - 2)) 8) (rd resp (rlen - 1))) in
    (w', (SCARD_S_SUCCESS, firstn (rlen - 2) resp, sw')).

Definition sw_ok (sw : Z) : bool := (sw =? 0x9000) || (sw =? 0x9100).

(** [read_binary]: return value, bytes copied to [out], [*out_len] and
    [*sw_out] ([out_len] and [sw_out] are their values before the call). *)
Definition read_binary `{Platform} (w : wire) (offset le : Z)
    (out_len : nat) (sw_out : Z) : wire * (Z * list Z * nat * Z) :=
  let apdu := [0x00; 0xB0; u8 (Z.land (Z.shiftr offset 8) 0xFF);
               u8 (Z.land offset 0xFF); le] in
  let sw := 0 in
  let '(w1, (rc, resp, sw)) := transmit w apdu MAX_APDU sw in
  if negb (rc =? SCARD_S_SUCCESS) then (w1, (0, [], out_len, sw_out))
  else
    let finish (w2 : wire) (resp : list Z) (sw : Z) :=
      if negb (sw_ok sw) then (w2, (0, [], out_len, sw))
      else (w2, (1, resp, length resp, sw)) in
    if Z.land sw 0xFF00 =? 0x6C00 then
      let apdu := upd 4 (u8 (Z.land sw 0x00FF)) apdu in
      let '(w2, (rc, resp, sw)) := transmit w1 apdu MAX_APDU sw in
      if negb (rc =? SCARD_S_SUCCESS) then (w2, (0, [], out_len, sw_out))
      else finish w2 resp sw
    else finish w1 resp sw.

(** ** Component A: AES wrappers and CMAC (source lines 89-170) *)

(** [aes_ecb_encrypt]: the return value and the contents of [out]. *)
Definition aes_ecb_encrypt `{Platform} (key inp : list Z) : bool * list Z :=
  let '(st, out) := CCCrypt true kCCOptionECBMode key None inp in
  ((st =? kCCSuccess) && (length out =? 16)%nat, out).

(** [aes_cbc_crypt]: the return value and the contents of [out]. *)
Definition aes_cbc_crypt `{Platform} (encrypt : bool) (key iv inp : list Z)
  : bool * list Z :=
  let '(st, out) := CCCrypt encrypt 0 key (Some iv) inp in
  ((st =? kCCSuccess) && (length out =? length inp)%nat, out).

Definition xor_block (a b : list Z) (len : nat) : list Z :=
  map (fun i => Z.lxor (rd a i) (rd b i)) (seq 0 len).

(** [left_shift_1bit]: the loop runs [i = 15 .. 0] with the carry. *)
Definition left_shift_1bit (inp : list Z) : list Z :=
  fst (fold_left
         (fun (st : list Z * Z) (i : nat) =>
            let '(out, carry) := st in
            let new_carry := if Z.land (rd inp i) 0x80 =? 0 then 0 else 1 in
            (upd i (u8 (Z.lor (Z.shiftl (rd inp i) 1) carry)) out, new_carry))
         (rev (seq 0 16)) (zeros 16, 0)).

(** [generate_cmac_subkeys]: [(k1, k2)].  The source drops the status of
    [aes_ecb_encrypt] here. *)
Definition generate_cmac_subkeys `{Platform} (key : list Z) : list Z * list Z :=
  let L := snd (aes_ecb_encrypt key (zeros 16)) in
  let k1 := left_shift_1bit L in
  let k1 := if Z.land (rd L 0) 0x80 =? 0 then k1
            else upd 15 (Z.lxor (rd k1 15) 0x87) k1 in
  let k2 := left_shift_1bit k1 in
  let k2 := if Z.land (rd k1 0) 0x80 =? 0 then k2
            else upd 15 (Z.lxor (rd k2 15) 0x87) k2 in
  (k1, k2).

(** The loop [for (i = 0; i + 1 < n; i++)] of [aes_cmac], [cnt] iterations
    from index [i] with chaining value [x]; [None] is the [return 0]. *)
Fixpoint cmac_chain `{Platform} (key msg : list Z) (cnt i : nat) (x : list Z)
  : option (list Z) :=
  match cnt with
  | O => Some x
  | S cnt' =>
      let y := xor_block x (bytes_at msg (16 * i) 16) 16 in
      let '(ok, x') := aes_ecb_encrypt key y in
      if ok then cmac_chain key msg cnt' (S i) x' else None
  end.

(** [aes_cmac]: the return value and the contents of [out]; [out] is what
    the buffer held before the call. *)
Definition aes_cmac `{Platform} (key msg out : list Z) : bool * list Z :=
  let '(k1, k2) := generate_cmac_subkeys key in
  let msg_len := length msg in
  let n := ((msg_len + 15) / 16)%nat in
  let n := if (n =? 0)%nat then 1%nat else n in
  let last_complete := negb (msg_len =? 0)%nat && (msg_len mod 16 =? 0)%nat in
  let last_block := zeros 16 in
  let last_block :=
    if last_complete then
      xor_block (bytes_at msg (16 * (n - 1)) 16) k1 16
    else
      let last_len := (msg_len - 16 * (n - 1))%nat in
      let last_len := if (msg_len =? 0)%nat then O else last_len in
      let last_block :=
        if (0 <? last_len)%nat
        then memcpy last_block 0 (bytes_at msg (16 * (n - 1)) last_len)
        else last_block in
      let last_block := upd last_len 0x80 last_block in
      xor_block last_block k2 16 in
  match cmac_chain key msg (n - 1) 0 (zeros 16) with
  | None => (false, out)
  | Some x =>
      let y := xor_block x last_block 16 in
      aes_ecb_encrypt key y
  end.

(** [cmac_truncate_8]: the odd-indexed bytes 1, 3, ..., 15. *)
Definition cmac_truncate_8 (cmac : list Z) : list Z :=
  map (fun i => rd cmac (1 + i * 2)) (seq 0 8).

(** [memcmp(a, b, n) == 0] *)
Definition memcmp_eq (a b : list Z) (n : nat) : bool :=
  forallb (fun i => rd a i =? rd b i) (seq 0 n).

Definition rotate_left_1 (inp : list Z) (len : nat) : list Z :=
  if (len =? 0)%nat then []
  else bytes_at inp 1 (len - 1) ++ [rd inp 0].

Definition rotate_right_1 (inp : list Z) (len : nat) : list Z :=
  if (len =? 0)%nat then []
  else rd inp (len - 1) :: bytes_at inp 0 (len - 1).

(** ** Component C: the session (source lines 24-31) *)

Record ssm_session_t : Type := {
  kenc : list Z;
  kmac : list Z;
  ti : list Z;
  cmd_ctr : Z;
  key_no : Z;
  authenticated : Z
}.

Definition set_kenc (s : ssm_session_t) (v : list Z) : ssm_session_t :=
  {| kenc := v; kmac := kmac s; ti := ti s; cmd_ctr := cmd_ctr s;
     key_no := key_no s; authenticated := authenticated s |}.
Definition set_kmac (s : ssm_session_t) (v : list Z) : ssm_session_t :=
  {| kenc := kenc s; kmac := v; ti := ti s; cmd_ctr := cmd_ctr s;
     key_no := key_no s; authenticated := authenticated s |}.
Definition set_cmd_ctr (s : ssm_session_t) (v : Z) : ssm_session_t :=
  {| kenc := kenc s; kmac := kmac s; ti := ti s; cmd_ctr := v;
     key_no := key_no s; authenticated := authenticated s |}.

(** [memset(&sess, 0, sizeof(sess))] as [main] does before a handshake *)
Definition sess_zero : ssm_session_t :=
  {| kenc := zeros 16; kmac := zeros 16; ti := zeros 4; cmd_ctr := 0;
     key_no := 0; authenticated := 0 |}.

(** ** Component D: EV2-First (source lines 523-647) *)

Definition sv_prefix1 : list Z := [0xA5; 0x5A; 0x00; 0x01; 0x00; 0x80].
Definition sv_prefix2 : list Z := [0x5A; 0xA5; 0x00; 0x01; 0x00; 0x80].

(** The 32-byte array [sv1] (or [sv2]) after lines 603-623. *)
Definition build_sv (prefix rndA rndB : list Z) : list Z :=
  let sv := zeros 32 in
  let sv := memcpy sv 0 (bytes_at prefix 0 6) in
  let sv := memcpy sv 6 (bytes_at rndA 0 2) in
  let xor_part := map (fun i => Z.lxor (rd rndA (2 + i)) (rd rndB i)) (seq 0 6) in
  let sv := memcpy sv 8 (bytes_at xor_part 0 6) in
  let sv := memcpy sv 14 (bytes_at rndB 6 10) in
  let sv := memcpy sv 24 (bytes_at rndA 8 8) in
  sv.

(** [authenticate_ev2_first]: the return value and [*sess].  [rndA] is the
    16-byte array [rndA] after lines 551-559 (the value of [NTAG_RNDA] or
    the draw of [random_bytes]); the debug printing of lines 632-645 is left
    out. *)
Definition authenticate_ev2_first `{Platform} (w : wire) (key : list Z)
    (key_no : Z) (rndA : list Z) (sess : ssm_session_t)
  : wire * (Z * ssm_session_t) :=
  let sw := 0 in
  let apdu := [0x90; 0x71; 0x00; 0x00; 0x02; key_no; 0x00; 0x00] in
  let '(w1, (rc, resp, sw)) := transmit w apdu MAX_APDU sw in
  if negb (rc =? SCARD_S_SUCCESS) then (w1, (0, sess)) else
  if negb (sw =? 0x91AF) || negb (length resp =? 16)%nat then (w1, (0, sess)) else
  let rndB_enc := bytes_at resp 0 16 in
  let iv0 := zeros 16 in
  let '(ok, rndB) := aes_cbc_crypt false key iv0 rndB_enc in
  if negb ok then (w1, (0, sess)) else
  let rndB_rot := rotate_left_1 rndB 16 in
  let rndAB := bytes_at rndA 0 16 ++ bytes_at rndB_rot 0 16 in
  let '(ok, rndAB_enc) := aes_cbc_crypt true key iv0 rndAB in
  if negb ok then (w1, (0, sess)) else
  let apdu := [0x90; 0xAF; 0x00; 0x00; 0x20] ++ bytes_at rndAB_enc 0 32 ++ [0x00] in
  let '(w2, (rc, resp, sw)) := transmit w1 apdu MAX_APDU sw in
  if negb (rc =? SCARD_S_SUCCESS) then (w2, (0, sess)) else
  if negb (sw =? 0x9100) || negb (length resp =? 32)%nat then (w2, (0, sess)) else
  let '(ok, dec) := aes_cbc_crypt false key iv0 (bytes_at resp 0 32) in
  if negb ok then (w2, (0, sess)) else
  let ti' := bytes_at dec 0 4 in
  let rndA_rot := bytes_at dec 4 16 in
  let rndA_check := rotate_right_1 rndA_rot 16 in
  if negb (memcmp_eq rndA_check rndA 16) then (w2, (0, sess)) else
  let sv1 := build_sv sv_prefix1 rndA rndB in
  let sv2 := build_sv sv_prefix2 rndA rndB in
  let '(ok, k) := aes_cmac key sv1 (kenc sess) in
  let sess := set_kenc sess k in
  if negb ok then (w2, (0, sess)) else
  let '(ok, k) := aes_cmac key sv2 (kmac sess) in
  let sess := set_kmac sess k in
  if negb ok then (w2, (0, sess)) else
  (w2, (1, {| kenc := kenc sess; kmac := kmac sess; ti := ti';
              cmd_ctr := 0; key_no := key_no; authenticated := 1 |})).

(** ** Component E: secure messaging (source lines 649-775) *)

(** The [return] statement a call of [ssm_cmd_full] leaves by (a ghost
    label: the C function returns [ssm_ret] of it). *)
Inductive ssm_exit : Type :=
| X_not_authenticated   (* line 653 *)
| X_ivc                 (* line 662 *)
| X_padded_len          (* line 669 *)
| X_encrypt             (* line 670 *)
| X_cmac                (* line 691 *)
| X_data_len            (* line 703 *)
| X_transmit            (* line 726 *)
| X_sw_class            (* line 728 *)
| X_short_body          (* line 729 *)
| X_ivr                 (* line 743 *)
| X_cmac2               (* line 758 *)
| X_mac_mismatch        (* line 761 *)
| X_decrypt             (* line 766 *)
| X_out_len             (* line 768 *)
| X_ok.                 (* line 774 *)

Definition ssm_ret (e : ssm_exit) : Z :=
  match e with X_ok => 1 | _ => 0 end.

(** What a call of [ssm_cmd_full] leaves behind: the wire, the exit, [*sess],
    the bytes copied to [out], [*out_len] and [*sw_out]. *)
Record ssm_result `{Platform} : Type := {
  r_wire : wire;
  r_exit : ssm_exit;
  r_sess : ssm_session_t;
  r_out : list Z;
  r_out_len : nat;
  r_sw_out : Z
}.

(** The 16-byte input of the command or response IV (lines 655-660 and
    735-741). *)
Definition iv_input (b0 b1 : Z) (ti : list Z) (ctr : Z) : list Z :=
  let iv := zeros 16 in
  let iv := upd 0 b0 iv in
  let iv := upd 1 b1 iv in
  let iv := memcpy iv 2 (bytes_at ti 0 4) in
  let iv := upd 6 (u8 (Z.land ctr 0xFF)) iv in
  let iv := upd 7 (u8 (Z.land (Z.shiftr ctr 8) 0xFF)) iv in
  iv.

(** The response MAC input [mac_in2] of lines 745-755. *)
Definition mac_in2 (sw : Z) (cmdctr1 : Z) (ti resp_enc : list Z) : list Z :=
  [u8 (Z.land sw 0x00FF); u8 (Z.land cmdctr1 0xFF);
   u8 (Z.land (Z.shiftr cmdctr1 8) 0xFF)] ++ bytes_at ti 0 4 ++ resp_enc.

(** [ssm_cmd_full] for a non-null [sess] and [sw_out] (every caller passes
    the address of a local); [out_len] and [sw_out] are [*out_len] and
    [*sw_out] before the call.  The debug printing of lines 717-721 is left
    out.

    The arrays [padded], [enc_data] and [mac_input] of the source hold
    [MAX_APDU] bytes each and are filled at lines 668-687 before any length
    is tested at lines 669 and 703.  The lists of the model have no bound:
    it is the model of the calls that stay within these arrays, that is,
    with a padded command of at most 512 bytes and with
    7 + |cmd_header| + |enc_data| <= 512.  Outside of them the source
    writes past an array and its behaviour is not defined; the model says
    nothing of the source there.  The callers (lines 797, 931 and 984) pass
    a header of 1 byte and at most 21 bytes of data. *)
Definition ssm_cmd_full `{Platform} (w : wire) (sess : ssm_session_t)
    (cmd : Z) (cmd_header cmd_data : list Z) (out_len : nat) (sw_out : Z)
  : ssm_result :=
  let stop (e : ssm_exit) (w : wire) (sw_out : Z) :=
    {| r_wire := w; r_exit := e; r_sess := sess; r_out := [];
       r_out_len := out_len; r_sw_out := sw_out |} in
  if authenticated sess =? 0 then stop X_not_authenticated w sw_out else
  let ivc_in := iv_input 0xA5 0x5A (ti sess) (cmd_ctr sess) in
  let '(ok, ivc) := aes_ecb_encrypt (kenc sess) ivc_in in
  if negb ok then stop X_ivc w sw_out else
  let padded := pad_iso9797_m2 cmd_data in
  if (0 <? length cmd_data)%nat && (MAX_APDU <? length padded)%nat
  then stop X_padded_len w sw_out else
  let '(ok, enc_data) :=
    if (0 <? length cmd_data)%nat
    then aes_cbc_crypt true (kenc sess) ivc padded
    else (true, []) in
  if negb ok then stop X_encrypt w sw_out else
  let mac_input :=
    [cmd; u8 (Z.land (cmd_ctr sess) 0xFF);
     u8 (Z.land (Z.shiftr (cmd_ctr sess) 8) 0xFF)]
    ++ bytes_at (ti sess) 0 4 ++ cmd_header ++ enc_data in
  let '(ok, cmac) := aes_cmac (kmac sess) mac_input (zeros 16) in
  if negb ok then stop X_cmac w sw_out else
  let mact := cmac_truncate_8 cmac in
  let data_len := (length cmd_header + length enc_data + 8)%nat in
  if (255 <? data_len)%nat then stop X_data_len w sw_out else
  let apdu :=
    [0x90; cmd; 0x00; 0x00; u8 (Z.of_nat data_len)]
    ++ cmd_header ++ enc_data ++ mact ++ [0x00] in
  let sw := 0 in
  let '(w1, (rc, resp, sw)) := transmit w apdu MAX_APDU sw in
  if negb (rc =? SCARD_S_SUCCESS) then stop X_transmit w1 sw_out else
  let sw_out := sw in
  if negb (Z.land sw 0xFF00 =? 0x9100) then stop X_sw_class w1 sw_out else
  let rlen := length resp in
  if (rlen <? 8)%nat then stop X_short_body w1 sw_out else
  let resp_enc_len := (rlen - 8)%nat in
  let resp_enc := bytes_at resp 0 resp_enc_len in
  let resp_mact := bytes_at resp resp_enc_len 8 in
  let cmdctr1 := u16 (cmd_ctr sess + 1) in
  let ivr_in := iv_input 0x5A 0xA5 (ti sess) cmdctr1 in
  let '(ok, ivr) := aes_ecb_encrypt (kenc sess) ivr_in in
  if negb ok then stop X_ivr w1 sw_out else
  let '(ok, cmac2) :=
    aes_cmac (kmac sess) (mac_in2 sw cmdctr1 (ti sess) resp_enc) (zeros 16) in
  if negb ok then stop X_cmac2 w1 sw_out else
  let mact2 := cmac_truncate_8 cmac2 in
  if negb (memcmp_eq resp_mact mact2 8) then stop X_mac_mismatch w1 sw_out else
  let '(ok, dec) :=
    if (0 <? resp_enc_len)%nat
    then aes_cbc_crypt false (kenc sess) ivr resp_enc
    else (true, []) in
  if negb ok then stop X_decrypt w1 sw_out else
  let out_written :=
    if (0 <? resp_enc_len)%nat then unpad_iso9797_m2 dec resp_enc_len else O in
  if (out_len <? out_written)%nat then stop X_out_len w1 sw_out else
  {| r_wire := w1; r_exit := X_ok; r_sess := set_cmd_ctr sess cmdctr1;
     r_out := bytes_at dec 0 out_written; r_out_len := out_written;
     r_sw_out := sw_out |}.

(** ** Component F: file settings (source lines 405-413, 800-914, 935-985) *)

(** [read_u24_le(&data[idx])] *)
Definition read_u24_le (data : list Z) (idx : nat) : Z :=
  Z.lor (Z.lor (rd data idx) (Z.shiftl (rd data (idx + 1)) 8))
        (Z.shiftl (rd data (idx + 2)) 16).

(** [write_u24_le]: the three bytes written *)
Definition write_u24_le (v : Z) : list Z :=
  [u8 (Z.land v 0xFF); u8 (Z.land (Z.shiftr v 8) 0xFF);
   u8 (Z.land (Z.shiftr v 16) 0xFF)].

Record file_settings_info_t : Type := {
  valid : Z;
  sdm_enabled : Z;
  sdm_read_ctr_enabled : Z;
  file_option : Z;
  sdm_options : Z;
  sdm_meta_read : Z;
  sdm_file_read : Z;
  sdm_ctr_ret : Z;
  ar1 : Z;
  ar2 : Z;
  file_size : Z
}.

(** [*info] after the [memset] of line 801 *)
Definition info_zero : file_settings_info_t :=
  {| valid := 0; sdm_enabled := 0; sdm_read_ctr_enabled := 0;
     file_option := 0; sdm_options := 0; sdm_meta_read := 0;
     sdm_file_read := 0; sdm_ctr_ret := 0; ar1 := 0; ar2 := 0;
     file_size := 0 |}.

(** The values [parse_file_settings] prints, one constructor per [printf]
    line that shows a value, with the numbers the line shows; the heading
    line of line 810, which shows none, has no constructor. *)
Inductive fs_line : Type :=
| L_FileType (v : Z)
| L_FileOption (v : Z)
| L_AccessRights (a1 a2 : Z)
| L_FileSize (v : Z)
| L_SDMOptions (v : Z)
| L_SDMAccessRights (sdm_ar meta file ctr rfu : Z)
| L_UIDOffset (v : Z)
| L_SDMReadCtrOffset_none
| L_SDMReadCtrOffset (v : Z)
| L_PICCDataOffset (v : Z)
| L_SDMMACInputOffset (v : Z)
| L_SDMENCOffset (v : Z)
| L_SDMENCLength (v : Z)
| L_SDMMACOffset (v : Z)
| L_SDMReadCtrLimit (v : Z).

(** The state of the tail of [parse_file_settings]: the read index and
    the lines printed so far. *)
Definition fs_tail : Type := nat * list fs_line.

(** The step [if (len < idx + k) return 0; ... idx += k; printf(...)] taken
    when [present] holds; [inr] is the [return 0], with the lines printed
    before it. *)
Definition fs_field (data : list Z) (present : bool) (k : nat)
    (print : nat -> list fs_line) (st : fs_tail)
  : fs_tail + list fs_line :=
  let '(idx, out) := st in
  if present then
    if (length data <? idx + k)%nat then inr out
    else inl ((idx + k)%nat, out ++ print idx)
  else inl st.

(** [parse_file_settings] for a non-null [info]: the return value, [*info]
    and the lines printed. *)
Definition parse_file_settings (data : list Z)
  : Z * file_settings_info_t * list fs_line :=
  let len := length data in
  let info := info_zero in
  if (len <? 7)%nat then (0, info, []) else
  let file_type := rd data 0 in
  let file_option := rd data 1 in
  let ar1 := rd data 2 in
  let ar2 := rd data 3 in
  let file_size := read_u24_le data 4 in
  let out := [L_FileType file_type; L_FileOption file_option;
              L_AccessRights ar1 ar2; L_FileSize file_size] in
  let info :=
    {| valid := 1; sdm_enabled := if Z.land file_option 0x40 =? 0 then 0 else 1;
       sdm_read_ctr_enabled := 0; file_option := file_option;
       sdm_options := 0; sdm_meta_read := 0; sdm_file_read := 0;
       sdm_ctr_ret := 0; ar1 := ar1; ar2 := ar2; file_size := file_size |} in
  let idx := 7%nat in
  if Z.land file_option 0x40 =? 0 then (1, info, out) else
  if (len <? idx + 3)%nat then (0, info, out) else
  let sdm_options := rd data idx in
  let sdm_ar_lsb := rd data (idx + 1) in
  let sdm_ar_msb := rd data (idx + 2) in
  let idx := (idx + 3)%nat in
  let sdm_ar := u16 (Z.lor sdm_ar_lsb (Z.shiftl sdm_ar_msb 8)) in
  let sdm_meta := u8 (Z.land (Z.shiftr sdm_ar 12) 0x0F) in
  let sdm_file := u8 (Z.land (Z.shiftr sdm_ar 8) 0x0F) in
  let sdm_rfu := u8 (Z.land (Z.shiftr sdm_ar 4) 0x0F) in
  let sdm_ctr := u8 (Z.land sdm_ar 0x0F) in
  let out := out ++ [L_SDMOptions sdm_options;
                     L_SDMAccessRights sdm_ar sdm_meta sdm_file sdm_ctr sdm_rfu] in
  let info :=
    {| valid := valid info; sdm_enabled := sdm_enabled info;
       sdm_read_ctr_enabled := if Z.land sdm_options 0x40 =? 0 then 0 else 1;
       file_option := file_option; sdm_options := sdm_options;
       sdm_meta_read := sdm_meta; sdm_file_read := sdm_file;
       sdm_ctr_ret := sdm_ctr; ar1 := ar1; ar2 := ar2;
       file_size := file_size |} in
  let bit (m : Z) := negb (Z.land sdm_options m =? 0) in
  let u24 (l : Z -> fs_line) (i : nat) := [l (read_u24_le data i)] in
  let tail :=
    match fs_field data (bit 0x80 && (sdm_meta =? 0x0E)) 3
            (u24 L_UIDOffset) (idx, out) with inr o => inr o | inl st =>
    match fs_field data (bit 0x40 && (sdm_meta =? 0x0E)) 3
            (fun i => if read_u24_le data i =? 0xFFFFFF
                      then [L_SDMReadCtrOffset_none]
                      else [L_SDMReadCtrOffset (read_u24_le data i)]) st
    with inr o => inr o | inl st =>
    match fs_field data (sdm_meta <=? 0x04) 3
            (u24 L_PICCDataOffset) st with inr o => inr o | inl st =>
    match fs_field data (negb (sdm_file =? 0x0F)) 3
            (u24 L_SDMMACInputOffset) st with inr o => inr o | inl st =>
    match fs_field data (negb (sdm_file =? 0x0F) && bit 0x10) 6
            (fun i => [L_SDMENCOffset (read_u24_le data i);
                       L_SDMENCLength (read_u24_le data (i + 3))]) st
    with inr o => inr o | inl st =>
    match fs_field data (negb (sdm_file =? 0x0F)) 3
            (u24 L_SDMMACOffset) st with inr o => inr o | inl st =>
    fs_field data (bit 0x20) 3 (u24 L_SDMReadCtrLimit) st
    end end end end end end in
  match tail with
  | inr out' => (0, info, out')
  | inl (_, out') => (1, info, out')
  end.

(** The array [data] (its first [len] bytes) that
    [change_file_settings_sdm] builds at lines 945-979. *)
Definition change_file_settings_sdm_data (comm_mode ar1 ar2 sdm_options
    sdm_meta sdm_file sdm_ctr uid_offset sdm_read_ctr_offset
    sdm_mac_input_offset sdm_mac_offset : Z) : list Z :=
  let file_option := u8 (Z.lor (Z.land comm_mode 0x03) 0x40) in
  let data := [file_option; ar1; ar2; sdm_options] in
  let sdm_ar :=
    u16 (Z.lor (Z.lor (Z.lor (Z.shiftl (Z.land sdm_meta 0x0F) 12)
                             (Z.shiftl (Z.land sdm_file 0x0F) 8))
                      (Z.shiftl 0x0F 4))
               (Z.land sdm_ctr 0x0F)) in
  let data := data ++ [u8 (Z.land sdm_ar 0xFF);
                       u8 (Z.land (Z.shiftr sdm_ar 8) 0xFF)] in
  let data :=
    if negb (Z.land sdm_options 0x80 =? 0) && (sdm_meta =? 0x0E)
    then data ++ write_u24_le uid_offset else data in
  let data :=
    if negb (Z.land sdm_options 0x40 =? 0) && (sdm_meta =? 0x0E)
    then data ++ write_u24_le sdm_read_ctr_offset else data in
  let data :=
    if negb (sdm_file =? 0x0F)
    then data ++ write_u24_le sdm_mac_input_offset else data in
  let data :=
    if negb (sdm_file =? 0x0F)
    then data ++ write_u24_le sdm_mac_offset else data in
  data.

Definition change_file_settings_sdm `{Platform} (w : wire)
    (sess : ssm_session_t) (file_no comm_mode ar1 ar2 sdm_options
    sdm_meta sdm_file sdm_ctr uid_offset sdm_read_ctr_offset
    sdm_mac_input_offset sdm_mac_offset : Z) (sw_out : Z) : ssm_result :=
  let data := change_file_settings_sdm_data comm_mode ar1 ar2 sdm_options
                sdm_meta sdm_file sdm_ctr uid_offset sdm_read_ctr_offset
                sdm_mac_input_offset sdm_mac_offset in
  let header := [file_no] in
  ssm_cmd_full w sess 0x5F header data 16 sw_out.

(** The bytes GetFileSettings reports for a file configured with a
    ChangeFileSettings payload: the payload is
    FileOption | AR1 | AR2 | SDM part, the reported settings are
    FileType | FileOption | AR1 | AR2 | FileSize (3, LE) | SDM part
    (the layout [parse_file_settings] reads). *)
Definition file_settings_of_payload (file_type file_size : Z)
    (payload : list Z) : list Z :=
  [file_type] ++ firstn 3 payload ++ write_u24_le file_size
  ++ skipn 3 payload.

(** The packed SDM access-rights word of [change_file_settings_sdm]. *)
Definition sdm_ar_of (meta file ctr : Z) : Z :=
  u16 (Z.lor (Z.lor (Z.lor (Z.shiftl (Z.land meta 0x0F) 12)
                           (Z.shiftl (Z.land file 0x0F) 8))
                    (Z.shiftl 0x0F 4))
             (Z.land ctr 0x0F)).

(** Packing three nibbles, splitting the word into its two bytes and
    reading them back as [parse_file_settings] does gives the nibbles
    again (a check to run over all nibbles). *)
Definition sdm_ar_check (meta file ctr : Z) : bool :=
  let sdm_ar := sdm_ar_of meta file ctr in
  let lsb := u8 (Z.land sdm_ar 0xFF) in
  let msb := u8 (Z.land (Z.shiftr sdm_ar 8) 0xFF) in
  let ar' := u16 (Z.lor lsb (Z.shiftl msb 8)) in
  (ar' =? meta * 4096 + file * 256 + 0xF0 + ctr)
  && (u8 (Z.land (Z.shiftr ar' 12) 0x0F) =? meta)
  && (u8 (Z.land (Z.shiftr ar' 8) 0x0F) =? file)
  && (u8 (Z.land (Z.shiftr ar' 4) 0x0F) =? 0x0F)
  && (u8 (Z.land ar' 0x0F) =? ctr).

(** The offsets that follow the SDM access rights in the payload. *)
Definition sdm_tail (opts meta file uid_off ctr_off mi_off mac_off : Z)
  : list Z :=
  (if negb (Z.land opts 0x80 =? 0) && (meta =? 0x0E)
   then write_u24_le uid_off else [])
  ++ (if negb (Z.land opts 0x40 =? 0) && (meta =? 0x0E)
      then write_u24_le ctr_off else [])
  ++ (if negb (file =? 0x0F)
      then write_u24_le mi_off ++ write_u24_le mac_off else []).

(** ** Component H: ChangeKey (source lines 415-429, 916-933) *)

(** One turn of the inner loop of [crc32_ieee]. *)
Definition crc32_shift (crc : Z) : Z :=
  if negb (Z.land crc 1 =? 0)
  then Z.lxor (Z.shiftr crc 1) 0xEDB88320
  else Z.shiftr crc 1.

(** One turn of the outer loop: [crc ^= data[i]] and eight shifts. *)
Definition crc32_byte (crc b : Z) : Z :=
  fold_left (fun c (_ : nat) => crc32_shift c) (seq 0 8) (Z.lxor crc b).

Definition crc32_ieee (data : list Z) : Z :=
  fold_left crc32_byte data 0xFFFFFFFF.

(** The array [key_data] of [change_key] (lines 919-926). *)
Definition change_key_data (old_key new_key : list Z) (key_ver : Z) : list Z :=
  let key_data := zeros 21 in
  let key_data :=
    fold_left (fun kd i => upd i (Z.lxor (rd new_key i) (rd old_key i)) kd)
              (seq 0 16) key_data in
  let key_data := upd 16 key_ver key_data in
  let crc := crc32_ieee (bytes_at new_key 0 16) in
  let key_data := upd 17 (u8 (Z.land crc 0xFF)) key_data in
  let key_data := upd 18 (u8 (Z.land (Z.shiftr crc 8) 0xFF)) key_data in
  let key_data := upd 19 (u8 (Z.land (Z.shiftr crc 16) 0xFF)) key_data in
  let key_data := upd 20 (u8 (Z.land (Z.shiftr crc 24) 0xFF)) key_data in
  key_data.

Definition change_key `{Platform} (w : wire) (sess : ssm_session_t)
    (key_no : Z) (old_key new_key : list Z) (key_ver : Z) (sw_out : Z)
  : ssm_result :=
  let key_data := change_key_data old_key new_key key_ver in
  let header := [key_no] in
  ssm_cmd_full w sess 0xC4 header key_data 16 sw_out.

(** ** Component G: the SDM NDEF template (source lines 252-363) *)

(** The bytes of a C string literal, without the terminating NUL. *)
Definition cstr (s : String.string) : list Z :=
  map (fun c => Z.of_N (Ascii.N_of_ascii c)) (String.list_ascii_of_string s).

Definition SDM_UID_LEN_ASCII : nat := 14.
Definition SDM_CTR_LEN_ASCII : nat := 6.
Definition SDM_MAC_LEN_ASCII : nat := 16.

(** The loop of [find_substr] from index [i], [cnt] positions left. *)
Fixpoint find_from (buf needle : list Z) (cnt i : nat) : option nat :=
  match cnt with
  | O => None
  | S cnt' =>
      if memcmp_eq (bytes_at buf i (length needle)) needle (length needle)
      then Some i
      else find_from buf needle cnt' (S i)
  end.

(** [find_substr(buf, len, needle, &pos)]: [Some pos] when it returns 1. *)
Definition find_substr (buf : list Z) (len : nat) (needle : list Z)
  : option nat :=
  let nlen := length needle in
  if (nlen =? 0)%nat || (len <? nlen)%nat then None
  else find_from buf needle (len - nlen + 1) 0.

Record sdm_ndef_t : Type := {
  ndef : list Z;
  ndef_len : nat;
  uid_offset : Z;
  ctr_offset : Z;
  mac_input_offset : Z;
  mac_offset : Z;
  url : list Z
}.

(** The table [prefixes] of [build_sdm_ndef]. *)
Definition prefixes : list (list Z * Z) :=
  [(cstr "https://www."%string, 0x02); (cstr "http://www."%string, 0x01);
   (cstr "https://"%string, 0x04); (cstr "http://"%string, 0x03)].

(** The loop over [prefixes]: the prefix code and the rest of the URL, for
    the first entry that [strncmp] finds at the head of [url]. *)
Fixpoint strip_prefix (table : list (list Z * Z)) (url : list Z)
  : Z * list Z :=
  match table with
  | [] => (0x00, url)
  | (prefix, code) :: rest =>
      let plen := length prefix in
      if (plen <=? length url)%nat && memcmp_eq url prefix plen
      then (code, skipn plen url)
      else strip_prefix rest url
  end.

(** [ndef[off + i] == '0'] for [i < n] *)
Definition all_ascii_zero (buf : list Z) (off n : nat) : bool :=
  forallb (fun i => rd buf (off + i) =? 0x30) (seq 0 n).

(** [build_sdm_ndef] for a non-null [base_url] (the bytes of the C string)
    and [out]: [Some] of [*out] when it returns 1, [None] when it
    returns 0. *)
Definition build_sdm_ndef (base_url : list Z) : option sdm_ndef_t :=
  let uid_placeholder := cstr "00000000000000"%string in
  let ctr_placeholder := cstr "000000"%string in
  let mac_placeholder := cstr "0000000000000000"%string in
  let url := base_url ++ cstr "?uid="%string ++ uid_placeholder ++ cstr "&ctr="%string
             ++ ctr_placeholder ++ cstr "&mac="%string ++ mac_placeholder in
  let n := length url in
  if (n <=? 0)%nat || (512 <=? n)%nat then None else
  let '(prefix_code, uri) := strip_prefix prefixes url in
  let uri_len := length uri in
  if (255 <? uri_len)%nat then None else
  let payload_len := (1 + uri_len)%nat in
  if (255 <? payload_len)%nat then None else
  let record_len := (4 + payload_len)%nat in
  let total_len := (2 + record_len)%nat in
  if (256 <? total_len)%nat then None else
  let ndef := zeros total_len in
  let ndef := upd 0 (u8 (Z.land (Z.shiftr (Z.of_nat record_len) 8) 0xFF)) ndef in
  let ndef := upd 1 (u8 (Z.land (Z.of_nat record_len) 0xFF)) ndef in
  let ndef := upd 2 0xD1 ndef in
  let ndef := upd 3 0x01 ndef in
  let ndef := upd 4 (u8 (Z.of_nat payload_len)) ndef in
  let ndef := upd 5 0x55 ndef in
  let ndef := upd 6 prefix_code ndef in
  let ndef := memcpy ndef 7 uri in
  match find_substr ndef total_len (cstr "uid="%string),
        find_substr ndef total_len (cstr "ctr="%string),
        find_substr ndef total_len (cstr "mac="%string) with
  | Some uid_key_pos, Some ctr_key_pos, Some mac_key_pos =>
      let uid_offset := (uid_key_pos + 4)%nat in
      let ctr_offset := (ctr_key_pos + 4)%nat in
      let mac_offset := (mac_key_pos + 4)%nat in
      if (total_len <? uid_offset + SDM_UID_LEN_ASCII)%nat
         || (total_len <? ctr_offset + SDM_CTR_LEN_ASCII)%nat
         || (total_len <? mac_offset + SDM_MAC_LEN_ASCII)%nat then None else
      if negb (all_ascii_zero ndef uid_offset SDM_UID_LEN_ASCII) then None else
      if negb (all_ascii_zero ndef ctr_offset SDM_CTR_LEN_ASCII) then None else
      if negb (all_ascii_zero ndef mac_offset SDM_MAC_LEN_ASCII) then None else
      Some {| ndef := ndef; ndef_len := total_len;
              uid_offset := u32 (Z.of_nat uid_offset);
              ctr_offset := u32 (Z.of_nat ctr_offset);
              mac_input_offset := u32 (Z.of_nat uid_key_pos);
              mac_offset := u32 (Z.of_nat mac_offset);
              url := url |}
  | _, _, _ => None
  end.

(** ** Plain commands (source lines 365-403, 440-496, 777-798, 987-998) *)

(** [get_uid] ([p1 = 0x00]) and [get_ats] ([p1 = 0x01]): the return value
    and the bytes copied to the caller's array. *)
Definition get_data `{Platform} (p1 : Z) (w : wire) : wire * (Z * list Z) :=
  let apdu := [0xFF; 0xCA; p1; 0x00; 0x00] in
  let sw := 0 in
  let '(w1, (rc, resp, sw)) := transmit w apdu MAX_APDU sw in
  if negb (rc =? SCARD_S_SUCCESS) || negb (sw_ok sw) || (length resp =? 0)%nat
  then (w1, (0, []))
  else (w1, (1, resp)).

Definition get_uid `{Platform} (w : wire) : wire * (Z * list Z) :=
  get_data 0x00 w.
Definition get_ats `{Platform} (w : wire) : wire * (Z * list Z) :=
  get_data 0x01 w.

(** [select_ndef_app] for a non-null [sw_out]: the return value and
    [*sw_out]. *)
Definition select_ndef_app `{Platform} (w : wire) : wire * (Z * Z) :=
  let aid := [0xD2; 0x76; 0x00; 0x00; 0x85; 0x01; 0x01] in
  let apdu := [0x00; 0xA4; 0x04; 0x00; u8 (Z.of_nat (length aid))]
              ++ aid ++ [0x00] in
  let sw := 0 in
  let '(w1, (rc, resp, sw)) := transmit w apdu MAX_APDU sw in
  if negb (rc =? SCARD_S_SUCCESS) then (w1, (0, sw))
  else (w1, (if sw_ok sw then 1 else 0, sw)).

(** [select_file] for a non-null [sw_out]: the return value and
    [*sw_out]. *)
Definition select_file `{Platform} (w : wire) (file_id : Z) : wire * (Z * Z) :=
  let apdu := [0x00; 0xA4; 0x00; 0x0C; 0x02;
               u8 (Z.land (Z.shiftr file_id 8) 0xFF);
               u8 (Z.land file_id 0xFF)] in
  let sw := 0 in
  let '(w1, (rc, resp, sw)) := transmit w apdu MAX_APDU sw in
  if negb (rc =? SCARD_S_SUCCESS) then (w1, (0, sw))
  else (w1, (if sw_ok sw then 1 else 0, sw)).

(** [get_file_settings_plain]: the return value, the bytes copied to
    [out], [*out_len] and [*sw_out]. *)
Definition get_file_settings_plain `{Platform} (w : wire) (file_no : Z)
    (out_len : nat) : wire * (Z * list Z * nat * Z) :=
  let apdu := [0x90; 0xF5; 0x00; 0x00; 0x01; file_no; 0x00] in
  let sw := 0 in
  let '(w1, (rc, resp, sw)) := transmit w apdu MAX_APDU sw in
  if negb (rc =? SCARD_S_SUCCESS) || negb (sw_ok sw)
  then (w1, (0, [], out_len, sw))
  else if (out_len <? length resp)%nat then (w1, (0, [], out_len, sw))
  else (w1, (1, resp, length resp, sw)).

Definition get_file_settings_secure `{Platform} (w : wire)
    (sess : ssm_session_t) (file_no : Z) (out_len : nat) (sw_out : Z)
  : ssm_result :=
  let header := [file_no] in
  ssm_cmd_full w sess 0xF5 header [] out_len sw_out.

(** [get_sdm_read_counter]: the return value, [*counter] and [*sw_out];
    [counter] is [*counter] before the call. *)
Definition get_sdm_read_counter `{Platform} (w : wire) (file_no : Z)
    (counter : Z) : wire * (Z * Z * Z) :=
  let apdu := [0x90; 0xF6; 0x00; 0x00; 0x01; file_no; 0x00] in
  let sw := 0 in
  let '(w1, (rc, resp, sw)) := transmit w apdu MAX_APDU sw in
  if negb (rc =? SCARD_S_SUCCESS) || negb (sw_ok sw)
     || (length resp <? 3)%nat
  then (w1, (0, counter, sw))
  else
    (w1, (1, Z.lor (Z.lor (rd resp 0) (Z.shiftl (rd resp 1) 8))
                   (Z.shiftl (rd resp 2) 16), sw)).

(** One UPDATE BINARY APDU of [write_ndef_file_plain]. *)
Definition update_binary_apdu (data : list Z) (offset chunk : nat) : list Z :=
  [0x00; 0xD6; u8 (Z.land (Z.shiftr (Z.of_nat offset) 8) 0xFF);
   u8 (Z.land (Z.of_nat offset) 0xFF); u8 (Z.of_nat chunk)]
  ++ bytes_at data offset chunk.

(** The loop [while (offset < len)] of [write_ndef_file_plain]: the return
    value and [sw]; [None] when [fuel] iterations do not finish it. *)
Fixpoint write_ndef_loop `{Platform} (fuel : nat) (w : wire) (data : list Z)
    (len offset : nat) (sw : Z) : option (wire * (Z * Z)) :=
  if (offset <? len)%nat then
    match fuel with
    | O => None
    | S fuel' =>
        let chunk := (len - offset)%nat in
        let chunk := if (0xFF <? chunk)%nat then 0xFF%nat else chunk in
        let apdu := update_binary_apdu data offset chunk in
        let '(w1, (rc, resp, sw)) := transmit w apdu MAX_APDU sw in
        if negb (rc =? SCARD_S_SUCCESS) || negb (sw_ok sw)
        then Some (w1, (0, sw))
        else write_ndef_loop fuel' w1 data len (offset + chunk) sw
    end
  else Some (w, (1, 0x9000)).

(** [write_ndef_file_plain] for a non-null [sw_out]: the return value and
    [*sw_out]. *)
Definition write_ndef_file_plain `{Platform} (w : wire) (data : list Z)
    (len : nat) : option (wire * (Z * Z)) :=
  let '(w1, (ok, sw)) := select_ndef_app w in
  if ok =? 0 then Some (w1, (0, sw)) else
  let '(w2, (ok, sw)) := select_file w1 0xE104 in
  if ok =? 0 then Some (w2, (0, sw)) else
  write_ndef_loop len w2 data len 0 sw.

(** ** Key files: [trim_whitespace] (source lines 227-236) *)

(** [isspace] in the "C" locale: space, and the controls \t \n \v \f \r *)
Definition isspace (c : Z) : bool :=
  (c =? 0x20) || ((0x09 <=? c) && (c <=? 0x0D)).

(** The loop [while (len > 0 && isspace(s[len - 1])) s[--len] = 0]: the
    new length. *)
Fixpoint trim_end (s : list Z) (len : nat) : nat :=
  match len with
  | O => O
  | S l => if isspace (rd s l) then trim_end s l else len
  end.

(** The loop [while (s[start] && isspace(s[start])) start++] on the
    string of length [len], [cnt] characters left. *)
Fixpoint trim_start (s : list Z) (cnt start : nat) : nat :=
  match cnt with
  | O => start
  | S c => if isspace (rd s start) then trim_start s c (S start) else start
  end.

(** [trim_whitespace] on a non-null string, given as its characters (no
    NUL among them): the characters of the string afterwards. *)
Definition trim_whitespace (s : list Z) : list Z :=
  let len := trim_end s (length s) in
  let start := trim_start s len 0 in
  bytes_at s start (len - start).

(** ** The NDEF read loop of [main] (source lines 1212-1229) *)

(** How the loop is left: the condition [remaining > 0] failed, a
    [read_binary] returned 0 ([ok = 0; break]), or a [read_binary] handed
    back more bytes than [tmp] (256) or the rest of [ndef] can take, where
    the behaviour of the C program is undefined. *)
Inductive ndef_read_exit : Type :=
| NR_done
| NR_failed
| NR_overrun.

(** The loop [while (remaining > 0)] with [ndef] an array of [alloc]
    bytes: the exit, [ndef], [total] and [sw]; [None] when [fuel]
    iterations do not finish it. *)
Fixpoint main_ndef_read_loop `{Platform} (fuel : nat) (w : wire) (alloc : nat)
    (ndef : list Z) (offset remaining : Z) (total : nat) (sw : Z)
  : option (wire * (ndef_read_exit * list Z * nat * Z)) :=
  if 0 <? remaining then
    match fuel with
    | O => None
    | S fuel' =>
        let chunk := if 0xFF <? remaining then 0xFF else u8 remaining in
        let '(w1, (ret, tmp, tmp_len, sw)) := read_binary w offset chunk 256 sw in
        if ret =? 0 then Some (w1, (NR_failed, ndef, total, sw)) else
        if (256 <? tmp_len)%nat || (alloc <? total + tmp_len)%nat
        then Some (w1, (NR_overrun, ndef, total, sw)) else
        let ndef := memcpy ndef total tmp in
        let total := (total + tmp_len)%nat in
        let offset := u16 (offset + u16 (Z.of_nat tmp_len)) in
        let remaining := u16 (remaining - u16 (Z.of_nat tmp_len)) in
        main_ndef_read_loop fuel' w1 alloc ndef offset remaining total sw
    end
  else Some (w, (NR_done, ndef, total, sw)).

(** Lines 1211-1216 and the loop: [nlen] is the 16-bit length read from
    the file. *)
Definition main_ndef_read `{Platform} (fuel : nat) (w : wire) (nlen : Z) (sw : Z)
  : option (wire * (ndef_read_exit * list Z * nat * Z)) :=
  let alloc := Z.to_nat (if nlen =? 0 then 1 else nlen) in
  let ndef := zeros alloc in
  let offset := 2 in
  let remaining := nlen in
  let total := O in
  main_ndef_read_loop fuel w alloc ndef offset remaining total sw.

(** ** Derived notions: the exits that send, a sequence of wrapped
    commands, the chunks of a write *)

(** Whether a call of [ssm_cmd_full] that leaves by [e] has reached the
    [transmit] of line 726. *)
Definition sends (e : ssm_exit) : bool :=
  match e with
  | X_not_authenticated | X_ivc | X_padded_len | X_encrypt | X_cmac
  | X_data_len => false
  | _ => true
  end.

(** A caller that issues wrapped commands one after the other on the same
    wire and session, each given as (INS, header, data, [*out_len]), the way
    [main] does with [sess_cfg] (lines 1409 and 1437) and with [sess]
    (lines 1467 and 1480): the wire and the session after the last call,
    and the number of calls that returned 1. *)
Fixpoint ssm_cmd_seq `{Platform} (w : wire) (sess : ssm_session_t)
    (calls : list (Z * list Z * list Z * nat)) : wire * ssm_session_t * nat :=
  match calls with
  | [] => (w, sess, O)
  | (cmd, cmd_header, cmd_data, out_len) :: rest =>
      let r := ssm_cmd_full w sess cmd cmd_header cmd_data out_len 0 in
      let '(w', sess', n) := ssm_cmd_seq (r_wire r) (r_sess r) rest in
      (w', sess', if ssm_ret (r_exit r) =? 1 then S n else n)
  end.

(** The UPDATE BINARY APDUs that carry the bytes [offset .. len) of
    [data] in chunks of 255 bytes, the last one shorter (what the loop of
    [write_ndef_file_plain] is shown to send). *)
Definition update_binary_apdus (data : list Z) (len offset : nat)
  : list (list Z) :=
  map (fun i => update_binary_apdu data (offset + 255 * i)
                  (Nat.min 255 (len - (offset + 255 * i))))
      (seq 0 ((len - offset + 254) / 255)).

(** ** A concrete platform: AES-128 and a scripted card *)

(** AES-128 as FIPS-197 defines it, for evaluating the program on concrete
    inputs; the general theorems are stated for every [Platform]. *)
Module AES128.

(** multiplication by [x] in GF(2^8) modulo [x^8 + x^4 + x^3 + x + 1] *)
Definition xtime (b : Z) : Z :=
  let s := Z.land (Z.shiftl b 1) 0xFF in
  if Z.testbit b 7 then Z.lxor s 0x1B else s.

Fixpoint gmul_aux (n : nat) (a b : Z) : Z :=
  match n with
  | O => 0
  | S n' =>
      Z.lxor (if Z.odd b then a else 0) (gmul_aux n' (xtime a) (Z.shiftr b 1))
  end.

Definition gmul (a b : Z) : Z := gmul_aux 8 a b.

(** the multiplicative inverse, [0] for [0] *)
Definition ginv (a : Z) : Z :=
  match find (fun b => gmul a b =? 1) (map Z.of_nat (seq 0 256)) with
  | Some b => b
  | None => 0
  end.

Definition rotl8 (b : Z) (k : Z) : Z :=
  Z.land (Z.lor (Z.shiftl b k) (Z.shiftr b (8 - k))) 0xFF.

Definition affine (b : Z) : Z :=
  Z.lxor (Z.lxor (Z.lxor (Z.lxor (Z.lxor b (rotl8 b 1)) (rotl8 b 2))
                         (rotl8 b 3)) (rotl8 b 4)) 0x63.

Definition sbox_table : list Z :=
  Eval vm_compute in map (fun i => affine (ginv (Z.of_nat i))) (seq 0 256).

Definition index_of (y : Z) (l : list Z) : Z :=
  match find (fun i => rd l i =? y) (seq 0 (length l)) with
  | Some i => Z.of_nat i
  | None => 0
  end.

Definition inv_sbox_table : list Z :=
  Eval vm_compute in map (fun y => index_of (Z.of_nat y) sbox_table) (seq 0 256).

Definition sbox (b : Z) : Z := rd sbox_table (Z.to_nat b).
Definition inv_sbox (b : Z) : Z := rd inv_sbox_table (Z.to_nat b).

(** The state is the 16 bytes in input order: byte [r + 4c] is row [r],
    column [c]. *)
Definition sub_bytes (s : list Z) : list Z := map sbox s.
Definition inv_sub_bytes (s : list Z) : list Z := map inv_sbox s.

Definition shift_rows (s : list Z) : list Z :=
  map (fun i => let r := (i mod 4)%nat in let c := (i / 4)%nat in
                rd s (r + 4 * ((c + r) mod 4))) (seq 0 16).

Definition inv_shift_rows (s : list Z) : list Z :=
  map (fun i => let r := (i mod 4)%nat in let c := (i / 4)%nat in
                rd s (r + 4 * ((c + 4 - r) mod 4))) (seq 0 16).

Definition mix_column (m : list Z) (s : list Z) (c : nat) : list Z :=
  map (fun r =>
         fold_left Z.lxor
           (map (fun k => gmul (rd m ((k + 4 - r) mod 4)) (rd s (k + 4 * c)))
                (seq 0 4)) 0)
      (seq 0 4).

Definition mix_columns (s : list Z) : list Z :=
  flat_map (mix_column [0x02; 0x03; 0x01; 0x01] s) (seq 0 4).

Definition inv_mix_columns (s : list Z) : list Z :=
  flat_map (mix_column [0x0E; 0x0B; 0x0D; 0x09] s) (seq 0 4).

Definition add_round_key (s rk : list Z) : list Z := xor_block s rk 16.

(** the next round key from round key [rk] and round constant [rc] *)
Definition next_round_key (rk : list Z) (rc : Z) : list Z :=
  let t := [Z.lxor (sbox (rd rk 13)) rc; sbox (rd rk 14);
            sbox (rd rk 15); sbox (rd rk 12)] in
  let w0 := xor_block (bytes_at rk 0 4) t 4 in
  let w1 := xor_block (bytes_at rk 4 4) w0 4 in
  let w2 := xor_block (bytes_at rk 8 4) w1 4 in
  let w3 := xor_block (bytes_at rk 12 4) w2 4 in
  w0 ++ w1 ++ w2 ++ w3.

Definition rcons : list Z :=
  [0x01; 0x02; 0x04; 0x08; 0x10; 0x20; 0x40; 0x80; 0x1B; 0x36].

(** the round keys 1 .. 10 *)
Fixpoint round_keys (rk : list Z) (rcs : list Z) : list (list Z) :=
  match rcs with
  | [] => []
  | rc :: rest => let rk' := next_round_key rk rc in rk' :: round_keys rk' rest
  end.

Definition cipher (key pt : list Z) : list Z :=
  let key := map u8 (bytes_at key 0 16) in
  let rks := round_keys key rcons in
  let s := add_round_key (map u8 (bytes_at pt 0 16)) key in
  let s := fold_left
             (fun s rk => add_round_key (mix_columns (shift_rows (sub_bytes s))) rk)
             (firstn 9 rks) s in
  add_round_key (shift_rows (sub_bytes s)) (nth 9 rks []).

Definition inv_cipher (key ct : list Z) : list Z :=
  let key := map u8 (bytes_at key 0 16) in
  let rks := round_keys key rcons in
  let s := add_round_key (map u8 (bytes_at ct 0 16)) (nth 9 rks []) in
  let s := fold_left
             (fun s rk => inv_mix_columns
                            (add_round_key (inv_sub_bytes (inv_shift_rows s)) rk))
             (rev (firstn 9 rks)) s in
  add_round_key (inv_sub_bytes (inv_shift_rows s)) key.

(** the 16-byte blocks of a buffer whose length is a multiple of 16 *)
Definition blocks (data : list Z) : list (list Z) :=
  map (fun i => bytes_at data (16 * i) 16) (seq 0 (length data / 16)).

Definition ecb (enc : bool) (key data : list Z) : list Z :=
  flat_map (if enc then cipher key else inv_cipher key) (blocks data).

Fixpoint cbc_encrypt (key iv : list Z) (bs : list (list Z)) : list Z :=
  match bs with
  | [] => []
  | b :: rest =>
      let c := cipher key (xor_block b iv 16) in
      c ++ cbc_encrypt key c rest
  end.

Fixpoint cbc_decrypt (key iv : list Z) (bs : list (list Z)) : list Z :=
  match bs with
  | [] => []
  | b :: rest =>
      xor_block (inv_cipher key b) iv 16 ++ cbc_decrypt key (map u8 b) rest
  end.

Definition kCCAlignmentError : Z := -4303.

(** [CCCrypt] for AES-128 without padding: ECB when bit
    [kCCOptionECBMode] of the options is set, CBC otherwise (a null [iv]
    is the all-zero block); an input that is not a whole number of
    blocks is refused with [kCCAlignmentError]. *)
Definition CCCrypt (enc : bool) (options : Z) (key : list Z)
    (iv : option (list Z)) (inp : list Z) : Z * list Z :=
  if negb (length inp mod 16 =? 0)%nat then (kCCAlignmentError, [])
  else if negb (Z.land options kCCOptionECBMode =? 0)
  then (kCCSuccess, ecb enc key inp)
  else
    let iv := match iv with Some v => map u8 (bytes_at v 0 16) | None => zeros 16 end in
    (kCCSuccess,
     if enc then cbc_encrypt key iv (blocks inp)
     else cbc_decrypt key iv (blocks inp)).

End AES128.

(** A card that answers from a script: each [SCardTransmit] takes the next
    (return code, response) pair; when the script is exhausted the call
    fails with [SCARD_E_NO_SMARTCARD]. *)
Definition scripted_transmit (c : list (Z * list Z)) (apdu : list Z) (cap : nat)
  : list (Z * list Z) * (Z * list Z) :=
  match c with
  | [] => ([], (0x8010000C, []))
  | r :: rest => (rest, r)
  end.

Definition sim : Platform :=
  {| Card := list (Z * list Z);
     SCardTransmit := scripted_transmit;
     CCCrypt := AES128.CCCrypt |}.

(** ** The specification's CMAC and CRC-32, in its own words *)

(** CMAC as the specification describes it (RFC 4493), over a block cipher
    [E] already keyed with K; to be compared with [aes_cmac]. *)
Module RFC4493.

(** the number a byte string denotes, most significant byte first *)
Fixpoint be_to_Z (b : list Z) : Z :=
  match b with
  | [] => 0
  | x :: t => x * 256 ^ Z.of_nat (length t) + be_to_Z t
  end.

(** the [n]-byte string of a number, most significant byte first *)
Fixpoint Z_to_be (n : nat) (v : Z) : list Z :=
  match n with
  | O => []
  | S n' => (v / 256 ^ Z.of_nat n') mod 256 :: Z_to_be n' v
  end.

Definition xor_bytes (a b : list Z) : list Z :=
  map (fun p => Z.lxor (fst p) (snd p)) (combine a b).

(** one-bit left shift of a 128-bit string, with XOR of 0x87 into the last
    byte on carry-out of the top bit *)
Definition shift_reduce (b : list Z) : list Z :=
  let v := be_to_Z b in
  let s := Z_to_be 16 ((2 * v) mod 2 ^ 128) in
  if 2 ^ 127 <=? v
  then xor_bytes s (zeros 15 ++ [0x87])
  else s.

Section Keyed.
Variable E : list Z -> list Z.

Definition K1 : list Z := shift_reduce (E (zeros 16)).
Definition K2 : list Z := shift_reduce K1.

(** the final block, from what is left of the message (at most 16
    bytes) *)
Definition final_block (m : list Z) : list Z :=
  if (length m =? 16)%nat
  then xor_bytes m K1
  else xor_bytes (m ++ 0x80 :: zeros (15 - length m)) K2.

(** CBC-MAC with chaining value [x] over the blocks of [m] *)
Fixpoint cbc_mac (fuel : nat) (x m : list Z) : list Z :=
  match fuel with
  | O => x
  | S fuel' =>
      if (length m <=? 16)%nat
      then E (xor_bytes x (final_block m))
      else cbc_mac fuel' (E (xor_bytes x (firstn 16 m))) (skipn 16 m)
  end.

Definition cmac (m : list Z) : list Z :=
  cbc_mac (S (length m)) (zeros 16) m.
End Keyed.

End RFC4493.

(** The one-bit left shift of a byte string, byte by byte from the right:
    the carry out of the top byte and the shifted string (the form that
    links the loop of [left_shift_1bit] to the shift of the number). *)
Fixpoint shl1 (l : list Z) : Z * list Z :=
  match l with
  | [] => (0, [])
  | b :: t => (b / 128, (2 * b + fst (shl1 t)) mod 256 :: snd (shl1 t))
  end.

(** Two bytes next to each other shift as the loop of [left_shift_1bit]
    computes (a check to run over all bytes). *)
Definition shl_byte_check (b b' : Z) : bool :=
  (u8 (Z.lor (Z.shiftl b 1) (if Z.land b' 0x80 =? 0 then 0 else 1))
   =? (2 * b + b' / 128) mod 256)
  && (u8 (Z.lor (Z.shiftl b 1) 0) =? (2 * b + 0) mod 256)
  && ((if Z.land b 0x80 =? 0 then 0 else 1) =? b / 128).

(** The CRC the specification names for ChangeKey: reflected (the message
    enters bit by bit, least significant bit of each byte first),
    polynomial 0xEDB88320, initial value 0xFFFFFFFF, no final inversion; to
    be compared with [crc32_ieee]. *)
Module CRC32Spec.

Definition poly : Z := 0xEDB88320.

(** the register after message bit [d] *)
Definition step (crc : Z) (d : bool) : Z :=
  let feedback := xorb (Z.odd crc) d in
  let crc := Z.shiftr crc 1 in
  if feedback then Z.lxor crc poly else crc.

(** the bits of a byte, least significant first *)
Definition bits_lsb_first (b : Z) : list bool :=
  map (fun k => Z.testbit b (Z.of_nat k)) (seq 0 8).

Definition crc (data : list Z) : Z :=
  fold_left step (flat_map bits_lsb_first data) 0xFFFFFFFF.

(** the 4 bytes of a 32-bit value, least significant first *)
Definition le32 (v : Z) : list Z :=
  [v mod 256; (v / 256) mod 256; (v / 65536) mod 256; (v / 16777216) mod 256].

End CRC32Spec.

(** The nonce mix of the EV2-First session vectors, as the specification
    writes it. *)
Module EV2Spec.

(** [X[a..b]]: the bytes of [X] from index [a] up to, not including,
    [b] *)
Definition slice (x : list Z) (a b : nat) : list Z :=
  firstn (b - a) (skipn a x).

Definition MIX (RndA RndB : list Z) : list Z :=
  slice RndA 0 2
  ++ RFC4493.xor_bytes (slice RndA 2 8) (slice RndB 0 6)
  ++ slice RndB 6 16
  ++ slice RndA 8 16.

End EV2Spec.

(** ** Concrete runs on the scripted card *)

Module Scenario.

Definition K : list Z := zeros 16.
Definition RndA : list Z :=
  [0x00; 0x11; 0x22; 0x33; 0x44; 0x55; 0x66; 0x77;
   0x88; 0x99; 0xAA; 0xBB; 0xCC; 0xDD; 0xEE; 0xFF].
Definition RndB : list Z :=
  [0xCA; 0xFE; 0xBA; 0xBE; 0xDE; 0xAD; 0xBE; 0xEF;
   0x01; 0x23; 0x45; 0x67; 0x89; 0xAB; 0xCD; 0xEF].
Definition TI : list Z := [0x11; 0x22; 0x33; 0x44].

(** the key and the 64-byte message of the examples of RFC 4493 *)
Definition rfc_key : list Z :=
  [0x2B; 0x7E; 0x15; 0x16; 0x28; 0xAE; 0xD2; 0xA6;
   0xAB; 0xF7; 0x15; 0x88; 0x09; 0xCF; 0x4F; 0x3C].
Definition rfc_msg : list Z :=
  [0x6B; 0xC1; 0xBE; 0xE2; 0x2E; 0x40; 0x9F; 0x96;
   0xE9; 0x3D; 0x7E; 0x11; 0x73; 0x93; 0x17; 0x2A;
   0xAE; 0x2D; 0x8A; 0x57; 0x1E; 0x03; 0xAC; 0x9C;
   0x9E; 0xB7; 0x6F; 0xAC; 0x45; 0xAF; 0x8E; 0x51;
   0x30; 0xC8; 0x1C; 0x46; 0xA3; 0x5C; 0xE4; 0x11;
   0xE5; 0xFB; 0xC1; 0x19; 0x1A; 0x0A; 0x52; 0xEF;
   0xF6; 0x9F; 0x24; 0x45; 0xDF; 0x4F; 0x9B; 0x17;
   0xAD; 0x2B; 0x41; 0x7B; 0xE6; 0x6C; 0x37; 0x10].

(** The card's side of EV2-First: the two responses to the host. *)
Definition ev2_resp1 : list Z :=
  Eval vm_compute in
    snd (@aes_cbc_crypt sim true K (zeros 16) RndB) ++ [0x91; 0xAF].
Definition ev2_resp2 : list Z :=
  Eval vm_compute in
    snd (@aes_cbc_crypt sim true K (zeros 16)
           (TI ++ rotate_left_1 RndA 16 ++ zeros 12)) ++ [0x91; 0x00].

Definition ev2_script : list (Z * list Z) :=
  [(SCARD_S_SUCCESS, ev2_resp1); (SCARD_S_SUCCESS, ev2_resp2)].

(** the session the handshake leaves *)
Definition sess1 : ssm_session_t :=
  Eval vm_compute in
    snd (snd (@authenticate_ev2_first sim (@Build_wire sim ev2_script [])
                K 0x00 RndA sess_zero)).

(** The card's side of a wrapped exchange on session [s]: the response to
    a command, with plaintext [plain] and status 0x91[sw2]. *)
Definition card_response (s : ssm_session_t) (sw2 : Z) (plain : list Z)
  : list Z :=
  let ctr1 := u16 (cmd_ctr s + 1) in
  let ivr := snd (@aes_ecb_encrypt sim (kenc s) (iv_input 0x5A 0xA5 (ti s) ctr1)) in
  let c := match plain with
           | [] => []
           | _ => snd (@aes_cbc_crypt sim true (kenc s) ivr (pad_iso9797_m2 plain))
           end in
  let mac := cmac_truncate_8
               (snd (@aes_cmac sim (kmac s) (mac_in2 sw2 ctr1 (ti s) c) [])) in
  c ++ mac ++ [0x91; sw2].

(** a good response: the counter value 5 *)
Definition resp_ok : list Z :=
  Eval vm_compute in card_response sess1 0x00 [0x05; 0x00; 0x00].

(** an authenticated application error: 0x917E, no data *)
Definition resp_app_error : list Z :=
  Eval vm_compute in card_response sess1 0x7E [].

(** a good response with its last MAC byte flipped *)
Definition resp_bad_mac : list Z :=
  Eval vm_compute in
    (let r := card_response sess1 0x00 [0x05; 0x00; 0x00] in
     upd 23 (Z.lxor (rd r 23) 0x01) r).

(** a correctly authenticated response that carries 20 bytes of data,
    more than the 16-byte buffer of the caller *)
Definition resp_long : list Z :=
  Eval vm_compute in card_response sess1 0x00 (zeros 19 ++ [0x01]).

End Scenario.

(** a wire on which nothing has been sent, to a card with the given script *)
Abbreviation fresh_wire script := (@Build_wire sim script []).

(** the handshake of the scenario *)
Abbreviation ev2_run :=
  (@authenticate_ev2_first sim (fresh_wire Scenario.ev2_script)
     Scenario.K 0x00 Scenario.RndA sess_zero).

(** GetSDMReadCounter on file 2 under secure messaging, as [main] sends
    it (line 1480), to a card that answers [resp] *)
Abbreviation read_counter resp s :=
  (@ssm_cmd_full sim (fresh_wire [(SCARD_S_SUCCESS, resp)]) s
     0xF6 [0x02] [] 16%nat 0).

(** The card's answers to GetFileSettings (file settings without SDM) on
    the session of the scenario and, after it, to GetSDMReadCounter. *)
Definition resp_settings : list Z :=
  Eval vm_compute in
    Scenario.card_response Scenario.sess1 0x00
      [0x00; 0x00; 0xE0; 0xEE; 0x00; 0x01; 0x00].
Definition resp_counter2 : list Z :=
  Eval vm_compute in
    Scenario.card_response (set_cmd_ctr Scenario.sess1 1) 0x00
      [0x05; 0x00; 0x00].

(** Two more cards for concrete runs: one that answers every command with
    the bare status 90 00, and one that answers a READ BINARY with [Le]
    zero bytes and 90 00. *)
Definition mute_card : Platform :=
  {| Card := unit;
     SCardTransmit := fun c _ _ => (c, (SCARD_S_SUCCESS, [0x90; 0x00]));
     CCCrypt := AES128.CCCrypt |}.

Definition blank_card : Platform :=
  {| Card := unit;
     SCardTransmit := fun c apdu _ =>
       (c, (SCARD_S_SUCCESS, zeros (Z.to_nat (rd apdu 4)) ++ [0x90; 0x00]));
     CCCrypt := AES128.CCCrypt |}.

(* ================================================================== *)
(** * Part II: theorems                                                *)
(* ================================================================== *)

(** ** Padding *)

Lemma rd_app_l (a b : list Z) (i : nat) :
  (i < length a)%nat -> rd (a ++ b) i = rd a i.
Proof. intros H. unfold rd. now rewrite app_nth1. Qed.

Lemma rd_app_r (a b : list Z) (i : nat) :
  (length a <= i)%nat -> rd (a ++ b) i = rd b (i - length a).
Proof. intros H. unfold rd. now rewrite app_nth2. Qed.

Lemma rd_zeros (n i : nat) : rd (zeros n) i = 0.
Proof.
  unfold rd, zeros. revert i.
  induction n as [|n IH]; intros [|i]; simpl; auto.
Qed.

Lemma pad_length (d : list Z) :
  exists m : nat,
    pad_iso9797_m2 d = d ++ 0x80 :: zeros m /\
    (m < 16)%nat /\ ((length d + 1 + m) mod 16 = 0)%nat.
Proof.
  unfold pad_iso9797_m2.
  pose proof (Nat.mod_upper_bound (length d) 16 ltac:(lia)) as Hlt.
  pose proof (Nat.div_mod_eq (length d) 16) as Hdm.
  destruct (Nat.eqb_spec (16 - length d mod 16) 0) as [E|E]; [lia|].
  exists (16 - length d mod 16 - 1)%nat. repeat split; try lia.
  replace (length d + 1 + (16 - length d mod 16 - 1))%nat
    with (16 + 16 * (length d / 16))%nat by lia.
  rewrite Nat.Div0.add_mod, Nat.mul_comm, Nat.Div0.mod_mul. reflexivity.
Qed.

(** Scanning back from anywhere inside the zero fill stops on the marker
    byte that follows [d]. *)
Lemma unpad_scan_pad (d : list Z) (m j : nat) :
  (j <= m)%nat ->
  unpad_scan (d ++ 0x80 :: zeros m) (length d + 1 + j) = S (length d).
Proof.
  induction j as [|j IH]; intros Hj.
  - replace (length d + 1 + 0)%nat with (S (length d)) by lia. simpl.
    rewrite rd_app_r by lia. rewrite Nat.sub_diag. reflexivity.
  - replace (length d + 1 + S j)%nat with (S (length d + 1 + j)) by lia.
    simpl. rewrite rd_app_r by lia.
    replace (length d + 1 + j - length d)%nat with (S j) by lia.
    unfold rd at 1. simpl. fold (rd (zeros m) j). rewrite rd_zeros. simpl.
    apply IH. lia.
Qed.

Lemma unpad_pad_any (d : list Z) :
  let p := pad_iso9797_m2 d in
  firstn (unpad_iso9797_m2 p (length p)) p = d.
Proof.
  destruct (pad_length d) as (m & -> & _ & _). cbv zeta.
  unfold unpad_iso9797_m2.
  assert (L : length (d ++ 0x80 :: zeros m) = (length d + 1 + m)%nat).
  { rewrite length_app. simpl. unfold zeros. rewrite repeat_length. lia. }
  rewrite L.
  destruct (Nat.eqb_spec (length d + 1 + m) 0) as [E|_]; [lia|].
  rewrite unpad_scan_pad by lia.
  rewrite rd_app_r by lia. rewrite Nat.sub_diag. simpl.
  rewrite firstn_app, Nat.sub_diag, firstn_all. simpl. apply app_nil_r.
Qed.

(** C9: for every byte string D with 0 <= |D| <= 256, what
    [unpad_iso9797_m2] keeps of the buffer written by [pad_iso9797_m2] for D
    is exactly D: the length it returns is |D| and the first |D| bytes are
    D.  The padded string is a whole number of blocks and fits the
    [MAX_APDU]-byte buffers the program pads into. *)
Theorem unpad_pad_roundtrip (d : list Z) :
  (length d <= 256)%nat ->
  let p := pad_iso9797_m2 d in
  unpad_iso9797_m2 p (length p) = length d /\
  firstn (unpad_iso9797_m2 p (length p)) p = d /\
  (length p mod 16 = 0)%nat /\ (length d < length p <= MAX_APDU)%nat.
Proof.
  intros Hd. cbv zeta.
  pose proof (unpad_pad_any d) as Hrt. cbv zeta in Hrt.
  destruct (pad_length d) as (m & Hp & Hm & Hmod).
  assert (Hlen : length (pad_iso9797_m2 d) = (length d + 1 + m)%nat).
  { rewrite Hp, length_app. cbn [length]. unfold zeros.
    rewrite repeat_length. lia. }
  split; [|split; [exact Hrt|split]].
  - apply (f_equal (@length Z)) in Hrt.
    rewrite length_firstn in Hrt.
    assert (Hle : (unpad_iso9797_m2 (pad_iso9797_m2 d)
                     (length (pad_iso9797_m2 d))
                   <= length (pad_iso9797_m2 d))%nat).
    { unfold unpad_iso9797_m2.
      destruct (length (pad_iso9797_m2 d) =? 0)%nat; [lia|].
      destruct (unpad_scan _ _) as [|i] eqn:Es; [lia|].
      destruct (rd _ i =? 0x80); [|lia].
      assert (Hsc : forall buf k, (unpad_scan buf k <= k)%nat).
      { intros buf k. induction k as [|k IH]; cbn [unpad_scan]; [lia|].
        destruct (rd buf k =? 0); lia. }
      specialize (Hsc (pad_iso9797_m2 d) (length (pad_iso9797_m2 d))).
      rewrite Es in Hsc. lia. }
    lia.
  - rewrite Hlen. exact Hmod.
  - rewrite Hlen. unfold MAX_APDU. lia.
Qed.

Lemma unpad_pad_roundtrip_witness :
  let d := [0x01; 0x00; 0x80; 0x00] in
  let p := pad_iso9797_m2 d in
  (length d <= 256)%nat /\
  unpad_iso9797_m2 p (length p) = 4%nat /\
  firstn (unpad_iso9797_m2 p (length p)) p = d.
Proof.
  cbv zeta.
  destruct (unpad_pad_roundtrip [0x01; 0x00; 0x80; 0x00] ltac:(simpl; lia))
    as (Hn & Hd & _).
  split; [simpl; lia|]. split; [exact Hn | exact Hd].
Defined.

(** ** Secure messaging: what a wrap call does to the session *)

Ltac break_match :=
  match goal with
  | |- context [match ?e with _ => _ end] =>
      let E := fresh "E" in destruct e eqn:E
  end.

Section SecureMessaging.
Context `{Platform}.
Variables (w : wire) (sess : ssm_session_t) (cmd : Z).
Variables (cmd_header cmd_data : list Z) (out_len : nat) (sw_out : Z).

Let r := ssm_cmd_full w sess cmd cmd_header cmd_data out_len sw_out.

(** Case analysis on a call: every failing exit leaves [*sess],
    [*out_len] and [out] alone; the one successful exit stores the
    counter. *)
Lemma ssm_cmd_full_cases (P : ssm_result -> Prop) :
  (forall e w' sw', e <> X_ok ->
     P {| r_wire := w'; r_exit := e; r_sess := sess; r_out := [];
          r_out_len := out_len; r_sw_out := sw' |}) ->
  (forall w' out n sw', Z.land sw' 0xFF00 = 0x9100 ->
     P {| r_wire := w'; r_exit := X_ok;
          r_sess := set_cmd_ctr sess (u16 (cmd_ctr sess + 1));
          r_out := out; r_out_len := n; r_sw_out := sw' |}) ->
  P r.
Proof.
  intros Hfail Hok. subst r. unfold ssm_cmd_full.
  repeat break_match; try (apply Hfail; discriminate).
  all: apply Hok.
  all: match goal with
       | Hc : negb (Z.land _ _ =? _) = false |- _ =>
           apply negb_false_iff in Hc; apply Z.eqb_eq in Hc; exact Hc
       end.
Qed.

(** The session after the call. *)
Lemma ssm_cmd_full_sess :
  r_sess r = match r_exit r with
             | X_ok => set_cmd_ctr sess (u16 (cmd_ctr sess + 1))
             | _ => sess
             end.
Proof.
  apply ssm_cmd_full_cases; cbn [r_exit r_sess]; [|reflexivity].
  intros e _ _ He. destruct e; congruence.
Qed.

Lemma ssm_cmd_full_not_authenticated :
  r_exit r = X_not_authenticated <-> authenticated sess = 0.
Proof.
  subst r. unfold ssm_cmd_full.
  destruct (authenticated sess =? 0) eqn:A.
  - apply Z.eqb_eq in A. cbn [r_exit]. split; intros _; [exact A | reflexivity].
  - apply Z.eqb_neq in A. split; [|intros A'; contradiction].
    repeat break_match; cbn [r_exit]; intros X; discriminate X.
Qed.

(** What the exit at line 761 means: the card answered with status
    0x91XX and at least 8 bytes, the CMAC over SW2, CmdCtr+1, TI and the
    body was computed, and its truncation differs from the last 8 bytes
    received. *)
Lemma ssm_cmd_full_mac_mismatch :
  r_exit r = X_mac_mismatch ->
  exists apdu w1 resp sw cmac2,
    transmit w apdu MAX_APDU 0 = (w1, (SCARD_S_SUCCESS, resp, sw)) /\
    Z.land sw 0xFF00 = 0x9100 /\ (8 <= length resp)%nat /\
    aes_cmac (kmac sess)
      (mac_in2 sw (u16 (cmd_ctr sess + 1)) (ti sess)
               (bytes_at resp 0 (length resp - 8))) (zeros 16)
      = (true, cmac2) /\
    memcmp_eq (bytes_at resp (length resp - 8) 8) (cmac_truncate_8 cmac2) 8
      = false.
Proof.
  subst r. unfold ssm_cmd_full.
  repeat break_match; cbn [r_exit]; try discriminate. intros _.
  repeat match goal with
         | Hn : negb _ = true |- _ => apply negb_true_iff in Hn
         | Hn : negb _ = false |- _ => apply negb_false_iff in Hn
         end.
  match goal with
  | Ht : transmit _ ?a _ _ = (?w1, (?rc, ?resp, ?sw)),
    Hr : (?rc =? _) = true,
    Hc : (Z.land ?sw _ =? _) = true,
    Hl : (length ?resp <? 8)%nat = false,
    Hm : aes_cmac _ (mac_in2 _ _ _ _) _ = (?b, ?c2),
    Hb : ?b = true |- _ =>
      exists a, w1, resp, sw, c2;
      apply Z.eqb_eq in Hr; apply Z.eqb_eq in Hc; apply Nat.ltb_ge in Hl;
      rewrite Hr in Ht; rewrite Hb in Hm;
      refine (conj Ht (conj Hc (conj Hl (conj Hm _))))
  end.
  assumption.
Qed.

(** The successful exit is reached only past the MAC check of line 761:
    the last 8 bytes received are the truncated CMAC over SW2, CmdCtr+1,
    TI and the body. *)
Lemma ssm_cmd_full_ok_verified :
  r_exit r = X_ok ->
  exists apdu w1 resp sw cmac2,
    transmit w apdu MAX_APDU 0 = (w1, (SCARD_S_SUCCESS, resp, sw)) /\
    aes_cmac (kmac sess)
      (mac_in2 sw (u16 (cmd_ctr sess + 1)) (ti sess)
               (bytes_at resp 0 (length resp - 8))) (zeros 16)
      = (true, cmac2) /\
    memcmp_eq (bytes_at resp (length resp - 8) 8) (cmac_truncate_8 cmac2) 8
      = true.
Proof.
  subst r. unfold ssm_cmd_full.
  repeat break_match; cbn [r_exit]; try discriminate; intros _.
  all: repeat match goal with
         | Hn : negb _ = true |- _ => apply negb_true_iff in Hn
         | Hn : negb _ = false |- _ => apply negb_false_iff in Hn
         end.
  all: match goal with
       | Ht : transmit _ ?a _ _ = (?w1, (?rc, ?resp, ?sw)),
         Hr : (?rc =? _) = true,
         Hm : aes_cmac _ (mac_in2 _ _ _ _) _ = (?b, ?c2),
         Hb : ?b = true,
         He : memcmp_eq _ _ 8 = true |- _ =>
           exists a, w1, resp, sw, c2;
           apply Z.eqb_eq in Hr; rewrite Hr in Ht; rewrite Hb in Hm;
           exact (conj Ht (conj Hm He))
       end.
Qed.

End SecureMessaging.

(** ** EV2-First: the session a successful handshake leaves *)

Lemma bytes_at_all (l : list Z) (n : nat) :
  length l = n -> bytes_at l 0 n = l.
Proof.
  intros <-. unfold bytes_at, rd.
  induction l as [|a l IH]; [reflexivity|].
  simpl. rewrite <- seq_shift, map_map. f_equal. exact IH.
Qed.

Lemma length_bytes_at (l : list Z) (off n : nat) : length (bytes_at l off n) = n.
Proof. unfold bytes_at. now rewrite length_map, length_seq. Qed.

Lemma aes_cbc_crypt_length `{Platform} (e : bool) (key iv inp out : list Z) :
  aes_cbc_crypt e key iv inp = (true, out) -> length out = length inp.
Proof.
  unfold aes_cbc_crypt. destruct (CCCrypt e 0 key (Some iv) inp) as [st o].
  intros [= Hok <-]. apply andb_true_iff in Hok as [_ Hl].
  now apply Nat.eqb_eq in Hl.
Qed.

Lemma aes_ecb_encrypt_length `{Platform} (key inp out : list Z) :
  aes_ecb_encrypt key inp = (true, out) -> length out = 16%nat.
Proof.
  unfold aes_ecb_encrypt.
  destruct (CCCrypt true kCCOptionECBMode key None inp) as [st o].
  intros [= Hok <-]. apply andb_true_iff in Hok as [_ Hl].
  now apply Nat.eqb_eq in Hl.
Qed.

Ltac list16 l :=
  let H := fresh "Hlen" in
  intros H;
  do 16 (destruct l as [|? l]; [discriminate H|]);
  destruct l; [|discriminate H]; clear H.

(** The array [sv] of the source is the specification's prefix followed by
    MIX. *)
Lemma build_sv_spec (prefix rndA rndB : list Z) :
  length prefix = 6%nat -> length rndA = 16%nat -> length rndB = 16%nat ->
  build_sv prefix rndA rndB = prefix ++ EV2Spec.MIX rndA rndB.
Proof.
  intros Hp. do 6 (destruct prefix as [|? prefix]; [discriminate Hp|]).
  destruct prefix; [clear Hp|discriminate Hp].
  revert rndA. intros rndA. list16 rndA. list16 rndB.
  reflexivity.
Qed.

Section Handshake.
Context `{Platform}.
Variables (w : wire) (key : list Z) (kno : Z) (rndA : list Z).
Variables (s0 : ssm_session_t).

(** What a handshake that returns 1 has done. *)
Lemma authenticate_ev2_first_ok (w' : wire) (sess : ssm_session_t) :
  authenticate_ev2_first w key kno rndA s0 = (w', (1, sess)) ->
  exists w1 body rndB dec k1 k2,
    transmit w [0x90; 0x71; 0x00; 0x00; 0x02; kno; 0x00; 0x00] MAX_APDU 0
      = (w1, (SCARD_S_SUCCESS, body, 0x91AF)) /\
    length body = 16%nat /\
    aes_cbc_crypt false key (zeros 16) body = (true, rndB) /\
    aes_cmac key (build_sv sv_prefix1 rndA rndB) (kenc s0) = (true, k1) /\
    aes_cmac key (build_sv sv_prefix2 rndA rndB) (kmac s0) = (true, k2) /\
    sess = {| kenc := k1; kmac := k2; ti := bytes_at dec 0 4; cmd_ctr := 0;
              key_no := kno; authenticated := 1 |}.
Proof.
  unfold authenticate_ev2_first.
  repeat break_match; try (intros [= ? ?]; discriminate).
  intros [= <- <-].
  repeat match goal with
         | Hn : negb _ = true |- _ => apply negb_true_iff in Hn
         | Hn : negb _ = false |- _ => apply negb_false_iff in Hn
         | Hn : _ || _ = false |- _ => apply orb_false_iff in Hn as [? ?]
         end.
  repeat match goal with
         | Hb : ?b = true |- _ => is_var b; subst b
         | Hz : (_ =? _) = true |- _ => apply Z.eqb_eq in Hz
         | Hz : (_ =? _)%nat = true |- _ => apply Nat.eqb_eq in Hz
         end.
  subst.
  lazymatch goal with
  | Hl : length ?body = 16%nat,
    Hd : aes_cbc_crypt false key _ (bytes_at ?body 0 16) = (true, ?rb),
    Hd2 : aes_cbc_crypt false key _ (bytes_at _ 0 32) = (true, ?dec),
    Hk1 : aes_cmac key (build_sv sv_prefix1 _ _) _ = (true, ?k1),
    Hk2 : aes_cmac key (build_sv sv_prefix2 _ _) _ = (true, ?k2) |- _ =>
      rewrite (bytes_at_all _ _ Hl) in Hd;
      exists w0, body, rb, dec, k1, k2;
      exact (conj eq_refl (conj Hl (conj Hd (conj Hk1 (conj Hk2 eq_refl)))))
  end.
Qed.

End Handshake.

(** ** Secure messaging: the claims *)

(** C10: for every call of [ssm_cmd_full], on any session and whether it
    succeeds or fails, the session fields KENC, KMAC, TI and KeyNo are left
    unchanged (and so is the Authenticated flag): CmdCtr is the only field
    of the session the function ever modifies. *)
Theorem ssm_cmd_full_frame `{Platform} (w : wire) (sess : ssm_session_t)
    (cmd : Z) (cmd_header cmd_data : list Z) (out_len : nat) (sw_out : Z) :
  let r := ssm_cmd_full w sess cmd cmd_header cmd_data out_len sw_out in
  kenc (r_sess r) = kenc sess /\
  kmac (r_sess r) = kmac sess /\
  ti (r_sess r) = ti sess /\
  key_no (r_sess r) = key_no sess /\
  authenticated (r_sess r) = authenticated sess.
Proof.
  cbv zeta. rewrite ssm_cmd_full_sess.
  destruct (r_exit _); cbn [set_cmd_ctr kenc kmac ti key_no authenticated];
    repeat split.
Qed.

(** C1, as the specification states it, fails on the code: a response whose
    MAC does not verify makes the call fail, but the session keeps its
    Authenticated flag, and the next wrapped command on it goes through. *)
Lemma mac_mismatch_clears_authenticated_cex :
  let r := read_counter Scenario.resp_bad_mac Scenario.sess1 in
  r_exit r = X_mac_mismatch /\
  ssm_ret (r_exit r) = 0 /\
  authenticated (r_sess r) = 1 /\
  r_exit (read_counter Scenario.resp_ok (r_sess r)) = X_ok.
Proof. vm_compute. repeat split. Qed.

(** C1, amended: whenever the response-MAC check fails (the truncated CMAC
    over SW2 || CmdCtr+1 || TI || C differs from the 8 bytes received), the
    wrap call fails and leaves the session exactly as it was: the
    Authenticated flag stays set and CmdCtr is not advanced, so a further
    wrapped command on the session is not refused as unauthenticated. *)
Theorem mac_mismatch_fails_keeps_session `{Platform} (w : wire)
    (sess : ssm_session_t) (cmd : Z) (cmd_header cmd_data : list Z)
    (out_len : nat) (sw_out : Z) :
  let r := ssm_cmd_full w sess cmd cmd_header cmd_data out_len sw_out in
  r_exit r = X_mac_mismatch ->
  (exists apdu w1 resp sw cmac2,
      transmit w apdu MAX_APDU 0 = (w1, (SCARD_S_SUCCESS, resp, sw)) /\
      aes_cmac (kmac sess)
        (mac_in2 sw (u16 (cmd_ctr sess + 1)) (ti sess)
                 (bytes_at resp 0 (length resp - 8))) (zeros 16)
        = (true, cmac2) /\
      memcmp_eq (bytes_at resp (length resp - 8) 8) (cmac_truncate_8 cmac2) 8
        = false) /\
  ssm_ret (r_exit r) = 0 /\
  r_sess r = sess /\
  authenticated (r_sess r) <> 0 /\
  forall w' cmd' cmd_header' cmd_data' out_len' sw_out',
    r_exit (ssm_cmd_full w' (r_sess r) cmd' cmd_header' cmd_data'
                         out_len' sw_out') <> X_not_authenticated.
Proof.
  cbv zeta. intros Hx.
  pose proof (ssm_cmd_full_sess w sess cmd cmd_header cmd_data out_len sw_out)
    as Hs.
  rewrite Hx in Hs.
  assert (Ha : authenticated sess <> 0).
  { intros Ha.
    apply (ssm_cmd_full_not_authenticated w sess cmd cmd_header cmd_data
             out_len sw_out) in Ha.
    rewrite Ha in Hx. discriminate Hx. }
  split; [|split; [|split; [|split]]].
  - destruct (ssm_cmd_full_mac_mismatch _ _ _ _ _ _ _ Hx)
      as (apdu & w1 & resp & sw & c2 & Ht & _ & _ & Hm & Hne).
    exists apdu, w1, resp, sw, c2. auto.
  - rewrite Hx. reflexivity.
  - exact Hs.
  - rewrite Hs. exact Ha.
  - intros w' cmd' h' d' n' s' Hn.
    apply ssm_cmd_full_not_authenticated in Hn. rewrite Hs in Hn. auto.
Qed.

Lemma mac_mismatch_fails_keeps_session_witness :
  let r := read_counter Scenario.resp_bad_mac Scenario.sess1 in
  r_exit r = X_mac_mismatch /\
  ssm_ret (r_exit r) = 0 /\ r_sess r = Scenario.sess1.
Proof.
  cbv zeta. split; [vm_compute; reflexivity|].
  pose proof (@mac_mismatch_fails_keeps_session sim
                (fresh_wire [(SCARD_S_SUCCESS, Scenario.resp_bad_mac)])
                Scenario.sess1 0xF6 [0x02] [] 16%nat 0) as T.
  cbv zeta in T. specialize (T ltac:(vm_compute; reflexivity)).
  destruct T as (_ & T1 & T2 & _). exact (conj T1 T2).
Defined.

(** C2, as the specification states it, fails on the code: the card
    answers a wrapped GetSDMReadCounter with 20 bytes of data under a MAC
    that verifies; the data does not fit the caller's 16-byte buffer, the
    call returns 0 by line 768 and CmdCtr stays at 0. *)
Lemma cmd_ctr_advance_on_verified_mac_cex :
  let r := read_counter Scenario.resp_long Scenario.sess1 in
  let body := firstn 40 Scenario.resp_long in
  memcmp_eq (bytes_at body 32 8)
    (cmac_truncate_8
       (snd (@aes_cmac sim (kmac Scenario.sess1)
               (mac_in2 0x9100 (u16 (cmd_ctr Scenario.sess1 + 1))
                        (ti Scenario.sess1) (bytes_at body 0 32))
               (zeros 16)))) 8 = true /\
  r_exit r = X_out_len /\
  ssm_ret (r_exit r) = 0 /\
  cmd_ctr Scenario.sess1 = 0 /\
  cmd_ctr (r_sess r) = 0.
Proof. vm_compute. repeat split. Qed.

(** What a call does with the card's answer.  A call that returns before
    line 726 fails with the wire as it was.  Otherwise it has transmitted
    one APDU, and it returns 1 exactly when every guard of lines 726-768
    passes: the transport succeeded, the status is 0x91XX (SW2 is not
    tested, it only enters the MAC input), the body has at least 8 bytes,
    the response IV and the CMAC over SW2, CmdCtr+1, TI and the body
    without its last 8 bytes are computed, the truncated CMAC equals those
    last 8 bytes, and the remaining body, when there is one, decrypts to a
    plaintext that fits [*out_len]. *)
Lemma ssm_cmd_full_response `{Platform} (w : wire) (sess : ssm_session_t)
    (cmd : Z) (cmd_header cmd_data : list Z) (out_len : nat) (sw_out : Z) :
  let r := ssm_cmd_full w sess cmd cmd_header cmd_data out_len sw_out in
  (ssm_ret (r_exit r) = 0 /\ r_wire r = w) \/
  exists apdu w1 rc resp sw,
    transmit w apdu MAX_APDU 0 = (w1, (rc, resp, sw)) /\
    r_wire r = w1 /\
    (ssm_ret (r_exit r) = 1 <->
     rc = SCARD_S_SUCCESS /\ Z.land sw 0xFF00 = 0x9100 /\
     (8 <= length resp)%nat /\
     exists ivr cmac2,
       aes_ecb_encrypt (kenc sess)
         (iv_input 0x5A 0xA5 (ti sess) (u16 (cmd_ctr sess + 1)))
         = (true, ivr) /\
       aes_cmac (kmac sess)
         (mac_in2 sw (u16 (cmd_ctr sess + 1)) (ti sess)
                  (bytes_at resp 0 (length resp - 8))) (zeros 16)
         = (true, cmac2) /\
       memcmp_eq (bytes_at resp (length resp - 8) 8)
                 (cmac_truncate_8 cmac2) 8 = true /\
       (length resp = 8%nat \/
        exists dec,
          aes_cbc_crypt false (kenc sess) ivr
            (bytes_at resp 0 (length resp - 8)) = (true, dec) /\
          (unpad_iso9797_m2 dec (length resp - 8) <= out_len)%nat)).
Proof.
  cbv zeta. unfold ssm_cmd_full.
  destruct (authenticated sess =? 0); [left; split; reflexivity|].
  destruct (aes_ecb_encrypt (kenc sess) (iv_input 0xA5 0x5A _ _)) as [ok ivc].
  destruct ok; cbn [negb]; [|left; split; reflexivity].
  destruct ((0 <? length cmd_data)%nat
            && (MAX_APDU <? length (pad_iso9797_m2 cmd_data))%nat);
    [left; split; reflexivity|].
  destruct (if (0 <? length cmd_data)%nat
            then aes_cbc_crypt true (kenc sess) ivc (pad_iso9797_m2 cmd_data)
            else (true, [])) as [ok enc].
  destruct ok; cbn [negb]; [|left; split; reflexivity].
  destruct (aes_cmac (kmac sess) _ (zeros 16)) as [ok cmac].
  destruct ok; cbn [negb]; [|left; split; reflexivity].
  destruct (255 <? length cmd_header + length enc + 8)%nat;
    [left; split; reflexivity|].
  match goal with
  | |- context [transmit w ?a MAX_APDU 0] =>
      destruct (transmit w a MAX_APDU 0) as [w1 [[rc resp] sw]] eqn:Et;
      right; exists a, w1, rc, resp, sw; split; [exact Et|]
  end.
  clear Et.
  destruct (rc =? SCARD_S_SUCCESS) eqn:Erc; cbn [negb].
  2:{ cbn [r_wire r_exit ssm_ret]. split; [reflexivity|].
      split; [discriminate|]. intros (Hrc & _).
      apply Z.eqb_neq in Erc. contradiction. }
  apply Z.eqb_eq in Erc.
  destruct (Z.land sw 0xFF00 =? 0x9100) eqn:Esw; cbn [negb].
  2:{ cbn [r_wire r_exit ssm_ret]. split; [reflexivity|].
      split; [discriminate|]. intros (_ & Hsw & _).
      apply Z.eqb_neq in Esw. contradiction. }
  apply Z.eqb_eq in Esw.
  destruct (length resp <? 8)%nat eqn:Elen.
  { cbn [r_wire r_exit ssm_ret]. split; [reflexivity|].
    split; [discriminate|]. intros (_ & _ & Hl & _).
    apply Nat.ltb_lt in Elen. lia. }
  apply Nat.ltb_ge in Elen.
  destruct (aes_ecb_encrypt (kenc sess) (iv_input 0x5A 0xA5 _ _))
    as [ok ivr] eqn:Eivr.
  destruct ok; cbn [negb].
  2:{ cbn [r_wire r_exit ssm_ret]. split; [reflexivity|].
      split; [discriminate|]. intros (_ & _ & _ & i & c & Hi & _).
      discriminate Hi. }
  destruct (aes_cmac (kmac sess) (mac_in2 _ _ _ _) (zeros 16))
    as [ok cmac2] eqn:Ec.
  destruct ok; cbn [negb].
  2:{ cbn [r_wire r_exit ssm_ret]. split; [reflexivity|].
      split; [discriminate|]. intros (_ & _ & _ & i & c & _ & Hc & _).
      discriminate Hc. }
  destruct (memcmp_eq _ (cmac_truncate_8 cmac2) 8) eqn:Em; cbn [negb].
  2:{ cbn [r_wire r_exit ssm_ret]. split; [reflexivity|].
      split; [discriminate|]. intros (_ & _ & _ & i & c & _ & Hc & Hm & _).
      injection Hc as <-. rewrite Em in Hm. discriminate Hm. }
  destruct (0 <? length resp - 8)%nat eqn:En.
  - apply Nat.ltb_lt in En.
    destruct (aes_cbc_crypt false (kenc sess) ivr _) as [ok dec] eqn:Ed.
    destruct ok; cbn [negb].
    2:{ cbn [r_wire r_exit ssm_ret]. split; [reflexivity|].
        split; [discriminate|].
        intros (_ & _ & _ & i & c & Hi & _ & _ & [H8|(d & Hd & _)]);
          [lia|]. injection Hi as <-. rewrite Ed in Hd. discriminate Hd. }
    destruct (out_len <? unpad_iso9797_m2 dec (length resp - 8))%nat eqn:Eo.
    + apply Nat.ltb_lt in Eo.
      cbn [r_wire r_exit ssm_ret]. split; [reflexivity|].
      split; [discriminate|].
      intros (_ & _ & _ & i & c & Hi & _ & _ & [H8|(d & Hd & Hfit)]);
        [lia|]. injection Hi as <-. rewrite Ed in Hd.
      injection Hd as <-. lia.
    + apply Nat.ltb_ge in Eo.
      cbn [r_wire r_exit ssm_ret]. split; [reflexivity|].
      split; [intros _|reflexivity].
      refine (conj Erc (conj Esw (conj Elen _))).
      exists ivr, cmac2.
      refine (conj eq_refl (conj eq_refl (conj Em (or_intror _)))).
      exists dec. split; [exact Ed | exact Eo].
  - apply Nat.ltb_ge in En. cbn [negb].
    destruct (out_len <? 0)%nat eqn:Eo; [apply Nat.ltb_lt in Eo; lia|].
    cbn [r_wire r_exit ssm_ret]. split; [reflexivity|].
    split; [intros _|reflexivity].
    refine (conj Erc (conj Esw (conj Elen _))).
    exists ivr, cmac2.
    refine (conj eq_refl (conj eq_refl (conj Em (or_introl _)))). lia.
Qed.

(** C2, amended: for every session produced by EV2-First, CmdCtr starts at
    0.  A call of [ssm_cmd_full] that returns 1 has advanced CmdCtr by
    exactly 1 (modulo 2^16) after a response MAC that verified; a call that
    returns 0 leaves CmdCtr (and the whole session) unchanged.  A call
    either fails with nothing transmitted, or has transmitted one APDU, and
    then it returns 1 and advances CmdCtr by 1 whenever the transport
    succeeded, the status is 0x91XX - whatever SW2 is, an application-level
    error included -, the body has at least 8 bytes, the response IV and
    CMAC are computed, response-MAC verification succeeds, and the body
    before the MAC, when there is one, decrypts to a plaintext that fits
    the output buffer; in every other case after the transmit step (wrong
    SW class, body shorter than 8 bytes, MAC mismatch, and also failed
    decryption or a plaintext longer than the buffer after a MAC that
    verified) it returns 0 with CmdCtr unchanged. *)
Theorem cmd_ctr_discipline `{Platform} (w0 : wire) (key : list Z) (kno : Z)
    (rndA : list Z) (s0 : ssm_session_t) (w0' : wire) (sess0 : ssm_session_t) :
  authenticate_ev2_first w0 key kno rndA s0 = (w0', (1, sess0)) ->
  cmd_ctr sess0 = 0 /\
  forall (w : wire) (sess : ssm_session_t) (cmd : Z)
         (cmd_header cmd_data : list Z) (out_len : nat) (sw_out : Z),
    let r := ssm_cmd_full w sess cmd cmd_header cmd_data out_len sw_out in
    (ssm_ret (r_exit r) = 1 ->
       cmd_ctr (r_sess r) = (cmd_ctr sess + 1) mod 2 ^ 16 /\
       Z.land (r_sw_out r) 0xFF00 = 0x9100 /\
       exists apdu w1 resp sw cmac2,
         transmit w apdu MAX_APDU 0 = (w1, (SCARD_S_SUCCESS, resp, sw)) /\
         aes_cmac (kmac sess)
           (mac_in2 sw (u16 (cmd_ctr sess + 1)) (ti sess)
                    (bytes_at resp 0 (length resp - 8))) (zeros 16)
           = (true, cmac2) /\
         memcmp_eq (bytes_at resp (length resp - 8) 8)
                   (cmac_truncate_8 cmac2) 8 = true) /\
    (ssm_ret (r_exit r) = 0 -> r_sess r = sess) /\
    ((ssm_ret (r_exit r) = 0 /\ r_wire r = w) \/
     exists apdu w1 rc resp sw,
       transmit w apdu MAX_APDU 0 = (w1, (rc, resp, sw)) /\
       r_wire r = w1 /\
       let accepted :=
         rc = SCARD_S_SUCCESS /\ Z.land sw 0xFF00 = 0x9100 /\
         (8 <= length resp)%nat /\
         exists ivr cmac2,
           aes_ecb_encrypt (kenc sess)
             (iv_input 0x5A 0xA5 (ti sess) (u16 (cmd_ctr sess + 1)))
             = (true, ivr) /\
           aes_cmac (kmac sess)
             (mac_in2 sw (u16 (cmd_ctr sess + 1)) (ti sess)
                      (bytes_at resp 0 (length resp - 8))) (zeros 16)
             = (true, cmac2) /\
           memcmp_eq (bytes_at resp (length resp - 8) 8)
                     (cmac_truncate_8 cmac2) 8 = true /\
           (length resp = 8%nat \/
            exists dec,
              aes_cbc_crypt false (kenc sess) ivr
                (bytes_at resp 0 (length resp - 8)) = (true, dec) /\
              (unpad_iso9797_m2 dec (length resp - 8) <= out_len)%nat) in
       (accepted ->
          ssm_ret (r_exit r) = 1 /\
          cmd_ctr (r_sess r) = (cmd_ctr sess + 1) mod 2 ^ 16) /\
       (~ accepted ->
          ssm_ret (r_exit r) = 0 /\ cmd_ctr (r_sess r) = cmd_ctr sess)).
Proof.
  intros Hrun. split.
  - destruct (authenticate_ev2_first_ok _ _ _ _ _ _ _ Hrun)
      as (? & ? & ? & ? & ? & ? & _ & _ & _ & _ & _ & ->).
    reflexivity.
  - intros w sess cmd hdr data n sw. cbv zeta.
    assert (Hone : ssm_ret (r_exit (ssm_cmd_full w sess cmd hdr data n sw)) = 1 ->
                   cmd_ctr (r_sess (ssm_cmd_full w sess cmd hdr data n sw))
                   = (cmd_ctr sess + 1) mod 2 ^ 16).
    { intros Hret. rewrite ssm_cmd_full_sess.
      destruct (r_exit _); try discriminate Hret.
      cbn [set_cmd_ctr cmd_ctr]. unfold u16. change 0xFFFF with (Z.ones 16).
      rewrite Z.land_ones by lia. reflexivity. }
    assert (Hzero : ssm_ret (r_exit (ssm_cmd_full w sess cmd hdr data n sw)) = 0 ->
                    r_sess (ssm_cmd_full w sess cmd hdr data n sw) = sess).
    { intros Hret. rewrite ssm_cmd_full_sess.
      destruct (r_exit _); try reflexivity. discriminate Hret. }
    split; [|split; [exact Hzero|]].
    + intros Hret.
      assert (Hx : r_exit (ssm_cmd_full w sess cmd hdr data n sw) = X_ok).
      { destruct (r_exit _); try discriminate Hret. reflexivity. }
      split; [exact (Hone Hret)|]. split.
      * revert Hx. apply ssm_cmd_full_cases; cbn [r_exit r_sw_out].
        -- intros e w' sw' He Hx. contradiction.
        -- intros w' o' n' sw' Hsw _. exact Hsw.
      * exact (ssm_cmd_full_ok_verified w sess cmd hdr data n sw Hx).
    + destruct (ssm_cmd_full_response w sess cmd hdr data n sw)
        as [Hpre | (apdu & w1 & rc & resp & sw1 & Ht & Hw & Hiff)].
      * left. exact Hpre.
      * right. exists apdu, w1, rc, resp, sw1.
        split; [exact Ht|]. split; [exact Hw|]. split.
        -- intros Hacc. apply Hiff in Hacc. split; [exact Hacc|].
           exact (Hone Hacc).
        -- intros Hnacc.
           assert (Hret : ssm_ret (r_exit (ssm_cmd_full w sess cmd hdr data
                                             n sw)) = 0).
           { destruct (r_exit (ssm_cmd_full w sess cmd hdr data n sw)) eqn:Ex;
               try reflexivity.
             exfalso. apply Hnacc. apply Hiff. reflexivity. }
           split; [exact Hret|]. rewrite (Hzero Hret). reflexivity.
Qed.

Lemma cmd_ctr_discipline_witness :
  ev2_run = (fst ev2_run, (1, Scenario.sess1)) /\
  cmd_ctr Scenario.sess1 = 0 /\
  (let r := read_counter Scenario.resp_app_error Scenario.sess1 in
   ssm_ret (r_exit r) = 1 /\ r_sw_out r = 0x917E /\ cmd_ctr (r_sess r) = 1) /\
  (let r := read_counter Scenario.resp_long Scenario.sess1 in
   ssm_ret (r_exit r) = 0 /\ r_sess r = Scenario.sess1 /\
   sent (r_wire r) <> []).
Proof.
  assert (Hrun : ev2_run = (fst ev2_run, (1, Scenario.sess1))).
  { transitivity (fst ev2_run, snd ev2_run); [apply surjective_pairing|].
    apply f_equal. vm_compute. reflexivity. }
  destruct (@cmd_ctr_discipline sim (fresh_wire Scenario.ev2_script)
              Scenario.K 0x00 Scenario.RndA sess_zero
              (fst ev2_run) Scenario.sess1 Hrun) as [H0 Hcall].
  split; [exact Hrun|]. split; [exact H0|]. split.
  - pose proof (Hcall (fresh_wire [(SCARD_S_SUCCESS, Scenario.resp_app_error)])
                  Scenario.sess1 0xF6 [0x02] [] 16%nat 0) as T.
    cbv zeta in T |- *. destruct T as [T _].
    assert (Hret : ssm_ret (r_exit (read_counter Scenario.resp_app_error
                                      Scenario.sess1)) = 1)
      by (vm_compute; reflexivity).
    destruct (T Hret) as (Hc & _ & _).
    split; [exact Hret|]. split; [vm_compute; reflexivity|].
    rewrite Hc. reflexivity.
  - pose proof (Hcall (fresh_wire [(SCARD_S_SUCCESS, Scenario.resp_long)])
                  Scenario.sess1 0xF6 [0x02] [] 16%nat 0) as T.
    cbv zeta in T |- *. destruct T as (_ & T & _).
    assert (Hret : ssm_ret (r_exit (read_counter Scenario.resp_long
                                      Scenario.sess1)) = 0)
      by (vm_compute; reflexivity).
    split; [exact Hret|]. split; [exact (T Hret)|].
    assert (Hl : length (sent (r_wire (read_counter Scenario.resp_long
                                         Scenario.sess1))) = 1%nat)
      by (vm_compute; reflexivity).
    intros E. rewrite E in Hl. discriminate Hl.
Defined.

(** ** The SDM NDEF template for "https://example.com/tap" *)

(** C6, as the specification states it, fails on the code: the builder
    succeeds, but the record length and payload length bytes are 0x47 and
    0x43 (not 0x3C and 0x38) and the MAC placeholder starts at 57 (not
    58). *)
Lemma sdm_ndef_example_cex :
  exists r : sdm_ndef_t,
    build_sdm_ndef (cstr "https://example.com/tap"%string) = Some r /\
    firstn 27 (ndef r) <>
      [0x00; 0x3C; 0xD1; 0x01; 0x38; 0x55; 0x04; 0x65; 0x78; 0x61; 0x6D;
       0x70; 0x6C; 0x65; 0x2E; 0x63; 0x6F; 0x6D; 0x2F; 0x74; 0x61; 0x70;
       0x3F; 0x75; 0x69; 0x64; 0x3D] /\
    mac_offset r <> 58.
Proof.
  eexists. split; [vm_compute; reflexivity|].
  split; vm_compute; intros X; discriminate X.
Qed.

(** C6, amended: for the base URL "https://example.com/tap" the NDEF
    builder succeeds; the 73-byte buffer begins with
    00 47 D1 01 43 55 04 65 78 61 6D 70 6C 65 2E 63 6F 6D 2F 74 61 70 3F 75
    69 64 3D (URI prefix https:// compressed to code 0x04), and the offsets
    are uid_offset = 27, ctr_offset = 46, mac_offset = 57,
    mac_input_offset = 23. *)
Theorem sdm_ndef_example :
  exists r : sdm_ndef_t,
    build_sdm_ndef (cstr "https://example.com/tap"%string) = Some r /\
    ndef_len r = 73%nat /\ length (ndef r) = 73%nat /\
    firstn 27 (ndef r) =
      [0x00; 0x47; 0xD1; 0x01; 0x43; 0x55; 0x04; 0x65; 0x78; 0x61; 0x6D;
       0x70; 0x6C; 0x65; 0x2E; 0x63; 0x6F; 0x6D; 0x2F; 0x74; 0x61; 0x70;
       0x3F; 0x75; 0x69; 0x64; 0x3D] /\
    uid_offset r = 27 /\ ctr_offset r = 46 /\ mac_offset r = 57 /\
    mac_input_offset r = 23.
Proof.
  eexists. split; [vm_compute; reflexivity|].
  vm_compute. repeat split.
Qed.

(** ** The Le retry *)

Lemma transmit_sent `{Platform} (w : wire) (apdu : list Z) (cap : nat) (sw : Z) :
  sent (fst (transmit w apdu cap sw)) = sent w ++ [apdu].
Proof.
  unfold transmit. destruct (SCardTransmit (card w) apdu cap) as [c' [rc resp]].
  repeat break_match; reflexivity.
Qed.

(** A wrap call puts at most one APDU on the wire. *)
Lemma ssm_cmd_full_sent `{Platform} (w : wire) (sess : ssm_session_t)
    (cmd : Z) (cmd_header cmd_data : list Z) (out_len : nat) (sw_out : Z) :
  let r := ssm_cmd_full w sess cmd cmd_header cmd_data out_len sw_out in
  sent (r_wire r) = sent w \/
  exists enc_data mact,
    sent (r_wire r) =
      sent w ++ [[0x90; cmd; 0x00; 0x00;
                  u8 (Z.of_nat (length cmd_header + length enc_data + 8))]
                 ++ cmd_header ++ enc_data ++ mact ++ [0x00]].
Proof.
  cbv zeta. unfold ssm_cmd_full.
  repeat break_match; cbn [r_wire]; try (left; reflexivity).
  all: right.
  all: match goal with
       | Ht : transmit ?ww ([_; _; _; _; u8 (Z.of_nat (_ + length ?e + 8))]
                            ++ _ ++ _ ++ ?m ++ _) _ _ = (?w1, _) |- _ =>
           exists e, m;
           let Hs := fresh "Hs" in
           pose proof (transmit_sent ww
                         ([0x90; cmd; 0x00; 0x00;
                           u8 (Z.of_nat (length cmd_header + length e + 8))]
                          ++ cmd_header ++ e ++ m ++ [0x00]) MAX_APDU 0) as Hs;
           rewrite Ht in Hs; exact Hs
       end.
Qed.

(** C5, as the specification states it, fails on the code: the transport
    adapter [transmit] hands a 0x6C10 status to its caller and sends
    nothing more (the scripted second answer stays unread); the secure
    messaging codec, which sends through it, fails on that status without a
    second APDU. *)
Lemma transmit_le_retry_cex :
  let second := [0x05; 0x00; 0x00; 0x90; 0x00] in
  let script := [(SCARD_S_SUCCESS, [0x6C; 0x10]); (SCARD_S_SUCCESS, second)] in
  let apdu := [0x90; 0xF6; 0x00; 0x00; 0x01; 0x02; 0x00] in
  let t := @transmit sim (fresh_wire script) apdu MAX_APDU 0 in
  snd t = (SCARD_S_SUCCESS, [], 0x6C10) /\
  sent (fst t) = [apdu] /\
  card (fst t) = [(SCARD_S_SUCCESS, second)] /\
  let r := read_counter [0x6C; 0x10] Scenario.sess1 in
  r_exit r = X_sw_class /\ r_sw_out r = 0x6C10 /\ length (sent (r_wire r)) = 1%nat.
Proof. vm_compute. repeat split. Qed.

(** C5, amended: the Le retry is done by [read_binary], not by the
    transport adapter.  When the first transmit of a READ BINARY returns a
    status 0x6CXX, [read_binary] re-issues the same APDU with Le set to XX
    and gives the caller the second result.  No other retry is performed:
    [transmit] puts each APDU on the wire once whatever the status, a
    READ BINARY whose first status is not 0x6CXX is sent once, and a
    secure-messaging call sends at most one APDU. *)
Theorem le_retry_in_read_binary `{Platform} (w : wire) (offset le : Z)
    (out_len : nat) (sw_out : Z) (w1 : wire) (body1 : list Z) (sw1 : Z)
    (w2 : wire) (rc2 : Z) (body2 : list Z) (sw2 : Z) :
  let apdu := [0x00; 0xB0; u8 (Z.land (Z.shiftr offset 8) 0xFF);
               u8 (Z.land offset 0xFF); le] in
  let apdu2 := [0x00; 0xB0; u8 (Z.land (Z.shiftr offset 8) 0xFF);
                u8 (Z.land offset 0xFF); u8 (Z.land sw1 0x00FF)] in
  transmit w apdu MAX_APDU 0 = (w1, (SCARD_S_SUCCESS, body1, sw1)) ->
  Z.land sw1 0xFF00 = 0x6C00 ->
  transmit w1 apdu2 MAX_APDU sw1 = (w2, (rc2, body2, sw2)) ->
  read_binary w offset le out_len sw_out =
    (w2, if rc2 =? SCARD_S_SUCCESS
         then if sw_ok sw2 then (1, body2, length body2, sw2)
              else (0, [], out_len, sw2)
         else (0, [], out_len, sw_out)) /\
  sent w2 = sent w ++ [apdu; apdu2] /\
  (forall (w : wire) (apdu : list Z) (cap : nat) (sw : Z),
      sent (fst (transmit w apdu cap sw)) = sent w ++ [apdu]) /\
  (forall (w w1 : wire) (offset le : Z) (out_len : nat) (sw_out rc sw : Z)
          (body : list Z),
      transmit w [0x00; 0xB0; u8 (Z.land (Z.shiftr offset 8) 0xFF);
                  u8 (Z.land offset 0xFF); le] MAX_APDU 0
        = (w1, (rc, body, sw)) ->
      rc <> SCARD_S_SUCCESS \/ Z.land sw 0xFF00 <> 0x6C00 ->
      fst (read_binary w offset le out_len sw_out) = w1) /\
  (forall (w : wire) (sess : ssm_session_t) (cmd : Z)
          (cmd_header cmd_data : list Z) (out_len : nat) (sw_out : Z),
      let r := ssm_cmd_full w sess cmd cmd_header cmd_data out_len sw_out in
      (length (sent (r_wire r)) <= length (sent w) + 1)%nat).
Proof.
  cbv zeta. intros Ht1 Hc Ht2.
  split; [|split; [|split; [|split]]].
  - unfold read_binary. rewrite Ht1.
    change (negb (SCARD_S_SUCCESS =? SCARD_S_SUCCESS)) with false. cbv iota.
    apply Z.eqb_eq in Hc. rewrite Hc. cbn [upd]. rewrite Ht2.
    destruct (rc2 =? SCARD_S_SUCCESS); cbn [negb]; [|reflexivity].
    destruct (sw_ok sw2); reflexivity.
  - match type of Ht1 with transmit _ ?a _ _ = _ =>
      pose proof (transmit_sent w a MAX_APDU 0) as H1 end.
    match type of Ht2 with transmit _ ?a _ _ = _ =>
      pose proof (transmit_sent w1 a MAX_APDU sw1) as H2 end.
    rewrite Ht1 in H1. rewrite Ht2 in H2.
    cbn [fst] in H1, H2. rewrite H2, H1, <- app_assoc. reflexivity.
  - intros. apply transmit_sent.
  - intros w' w1' off' le' n' so' rc' sw' body' Ht Hno.
    unfold read_binary. rewrite Ht.
    destruct (rc' =? SCARD_S_SUCCESS) eqn:Er; cbn [negb]; [|reflexivity].
    destruct (Z.land sw' 0xFF00 =? 0x6C00) eqn:Ec.
    + apply Z.eqb_eq in Er, Ec. destruct Hno; contradiction.
    + destruct (sw_ok sw'); reflexivity.
  - intros w' sess cmd h d n so. cbv zeta.
    destruct (ssm_cmd_full_sent w' sess cmd h d n so) as [-> | (e & m & ->)].
    + lia.
    + rewrite length_app. cbn [length]. lia.
Qed.

Lemma le_retry_in_read_binary_witness :
  let cc := [0x00; 0x17; 0x20; 0x01; 0x00; 0x00; 0xFF; 0x04; 0x06; 0xE1;
             0x04; 0x01; 0x00; 0x00; 0x00; 0x00] in
  let script := [(SCARD_S_SUCCESS, [0x6C; 0x10]);
                 (SCARD_S_SUCCESS, cc ++ [0x90; 0x00])] in
  let apdu := [0x00; 0xB0; 0x00; 0x00; 0x0F] in
  let apdu2 := [0x00; 0xB0; 0x00; 0x00; 0x10] in
  let t1 := @transmit sim (fresh_wire script) apdu MAX_APDU 0 in
  let t2 := @transmit sim (fst t1) apdu2 MAX_APDU 0x6C10 in
  t1 = (fst t1, (SCARD_S_SUCCESS, [], 0x6C10)) /\
  Z.land 0x6C10 0xFF00 = 0x6C00 /\
  t2 = (fst t2, (SCARD_S_SUCCESS, cc, 0x9000)) /\
  @read_binary sim (fresh_wire script) 0x0000 0x0F 32 0
    = (fst t2, (1, cc, 16%nat, 0x9000)) /\
  sent (fst t2) = [apdu; apdu2].
Proof.
  cbv zeta.
  match goal with
  | |- ?t1 = _ /\ _ /\ ?t2 = _ /\ _ =>
      assert (H1 : t1 = (fst t1, (SCARD_S_SUCCESS, [], 0x6C10)))
        by (transitivity (fst t1, snd t1);
            [apply surjective_pairing | apply f_equal; vm_compute; reflexivity]);
      assert (H2 : t2 = (fst t2, (SCARD_S_SUCCESS,
                                  [0x00; 0x17; 0x20; 0x01; 0x00; 0x00; 0xFF;
                                   0x04; 0x06; 0xE1; 0x04; 0x01; 0x00; 0x00;
                                   0x00; 0x00], 0x9000)))
        by (transitivity (fst t2, snd t2);
            [apply surjective_pairing | apply f_equal; vm_compute; reflexivity])
  end.
  split; [exact H1|]. split; [reflexivity|]. split; [exact H2|].
  destruct (@le_retry_in_read_binary sim _ 0x0000 0x0F 32%nat 0 _ _ _ _ _ _ _
              H1 eq_refl H2) as (Ha & Hb & _).
  split; [exact Ha | exact Hb].
Defined.

(** ** ChangeKey: the CRC and the payload *)

Lemma land_1_odd (c : Z) : (Z.land c 1 =? 0) = negb (Z.odd c).
Proof.
  change 1 with (Z.ones 1). rewrite Z.land_ones by lia.
  change (2 ^ 1) with 2. rewrite Zmod_odd. destruct (Z.odd c); reflexivity.
Qed.

(** One shift of the source is one step of the bit-serial register on a
    zero message bit; XOR-ing message bits into the register beforehand
    commutes with it. *)
Lemma crc32_shift_lxor (c b : Z) :
  crc32_shift (Z.lxor c b) =
  Z.lxor (CRC32Spec.step c (Z.odd b)) (Z.shiftr b 1).
Proof.
  unfold crc32_shift, CRC32Spec.step. rewrite land_1_odd, negb_involutive.
  rewrite <- !Z.bit0_odd, Z.lxor_spec, Z.shiftr_lxor.
  destruct (xorb (Z.testbit c 0) (Z.testbit b 0)); [|reflexivity].
  rewrite !Z.lxor_assoc. f_equal. apply Z.lxor_comm.
Qed.

Lemma crc32_shifts_lxor (k s : nat) (c b : Z) :
  fold_left (fun x (_ : nat) => crc32_shift x) (seq s k) (Z.lxor c b) =
  Z.lxor
    (fold_left CRC32Spec.step
       (map (fun j => Z.testbit b (Z.of_nat j)) (seq 0 k)) c)
    (Z.shiftr b (Z.of_nat k)).
Proof.
  revert s c b. induction k as [|k IH]; intros s c b.
  - reflexivity.
  - cbn [seq fold_left map]. rewrite crc32_shift_lxor, IH.
    rewrite Z.shiftr_shiftr by lia.
    replace (1 + Z.of_nat k) with (Z.of_nat (S k)) by lia.
    rewrite <- seq_shift, map_map. change (Z.of_nat 0) with 0.
    rewrite Z.bit0_odd. f_equal. f_equal.
    apply map_ext. intros j. rewrite Z.shiftr_spec by lia.
    f_equal. lia.
Qed.

Lemma crc32_byte_spec (c b : Z) :
  is_byte b ->
  crc32_byte c b = fold_left CRC32Spec.step (CRC32Spec.bits_lsb_first b) c.
Proof.
  intros Hb. unfold crc32_byte, CRC32Spec.bits_lsb_first.
  rewrite crc32_shifts_lxor.
  rewrite Z.shiftr_div_pow2 by lia. change (2 ^ Z.of_nat 8) with 256.
  unfold is_byte in Hb. rewrite Z.div_small by lia. apply Z.lxor_0_r.
Qed.

(** The CRC of the source is the specification's CRC (reflected,
    polynomial 0xEDB88320, initial value 0xFFFFFFFF, no final inversion). *)
Lemma crc32_ieee_spec (data : list Z) :
  bytes data -> crc32_ieee data = CRC32Spec.crc data.
Proof.
  unfold crc32_ieee, CRC32Spec.crc. generalize 0xFFFFFFFF as init.
  induction data as [|b data IH]; intros init Hd; [reflexivity|].
  inversion Hd as [|? ? Hb Hd']; subst.
  cbn [fold_left flat_map]. rewrite fold_left_app, <- crc32_byte_spec by exact Hb.
  apply IH. exact Hd'.
Qed.

Lemma u8_land_255 (x : Z) : u8 (Z.land x 0xFF) = x mod 256.
Proof.
  unfold u8. rewrite <- Z.land_assoc. change (Z.land 0xFF 0xFF) with (Z.ones 8).
  now rewrite Z.land_ones by lia.
Qed.

Lemma le32_bytes (v : Z) :
  [u8 (Z.land v 0xFF); u8 (Z.land (Z.shiftr v 8) 0xFF);
   u8 (Z.land (Z.shiftr v 16) 0xFF); u8 (Z.land (Z.shiftr v 24) 0xFF)]
  = CRC32Spec.le32 v.
Proof.
  unfold CRC32Spec.le32. rewrite !u8_land_255.
  rewrite !Z.shiftr_div_pow2 by lia. reflexivity.
Qed.

Lemma change_key_data_spec (old_key new_key : list Z) (key_ver : Z) :
  length old_key = 16%nat -> length new_key = 16%nat -> bytes new_key ->
  change_key_data old_key new_key key_ver =
  RFC4493.xor_bytes new_key old_key ++ [key_ver]
  ++ CRC32Spec.le32 (CRC32Spec.crc new_key).
Proof.
  intros Ho Hn Hb. unfold change_key_data.
  rewrite (bytes_at_all _ _ Hn), (crc32_ieee_spec _ Hb), <- le32_bytes.
  generalize (CRC32Spec.crc new_key) as c. clear Hb.
  revert Hn. list16 new_key. revert Ho. list16 old_key. intros c.
  reflexivity.
Qed.

(** C7: for every targetKeyNo, oldKey, newKey and keyVersion (two 16-byte
    keys), [change_key] builds exactly the 21-byte payload
    (newKey XOR oldKey) || keyVersion || CRC32(newKey) as 4 little-endian
    bytes, where CRC32 is the reflected CRC with polynomial 0xEDB88320,
    initial value 0xFFFFFFFF and no final inversion, and sends it through
    secure messaging with INS = 0xC4 and the single header byte
    targetKeyNo. *)
Theorem change_key_payload `{Platform} (w : wire) (sess : ssm_session_t)
    (targetKeyNo : Z) (oldKey newKey : list Z) (keyVersion : Z) (sw_out : Z) :
  length oldKey = 16%nat -> length newKey = 16%nat -> bytes newKey ->
  let payload :=
    RFC4493.xor_bytes newKey oldKey ++ [keyVersion]
    ++ CRC32Spec.le32 (CRC32Spec.crc newKey) in
  let r := change_key w sess targetKeyNo oldKey newKey keyVersion sw_out in
  length payload = 21%nat /\
  change_key_data oldKey newKey keyVersion = payload /\
  r = ssm_cmd_full w sess 0xC4 [targetKeyNo] payload 16 sw_out /\
  (sent (r_wire r) = sent w \/
   exists enc_data mact,
     sent (r_wire r) =
       sent w ++ [[0x90; 0xC4; 0x00; 0x00;
                   u8 (Z.of_nat (1 + length enc_data + 8))]
                  ++ [targetKeyNo] ++ enc_data ++ mact ++ [0x00]]).
Proof.
  intros Ho Hn Hb. cbv zeta.
  pose proof (change_key_data_spec oldKey newKey keyVersion Ho Hn Hb) as Hd.
  split; [|split; [exact Hd|split]].
  - unfold RFC4493.xor_bytes.
    rewrite !length_app, length_map, length_combine, Ho, Hn. reflexivity.
  - unfold change_key. rewrite Hd. reflexivity.
  - unfold change_key.
    exact (ssm_cmd_full_sent w sess 0xC4 [targetKeyNo]
             (change_key_data oldKey newKey keyVersion) 16 sw_out).
Qed.

Lemma change_key_payload_witness :
  let newKey := Scenario.RndA in
  let oldKey := zeros 16 in
  length oldKey = 16%nat /\ length newKey = 16%nat /\ bytes newKey /\
  change_key_data oldKey newKey 0x01 =
    RFC4493.xor_bytes newKey oldKey ++ [0x01]
    ++ CRC32Spec.le32 (CRC32Spec.crc newKey).
Proof.
  cbv zeta.
  assert (Hb : bytes Scenario.RndA)
    by (repeat constructor; unfold is_byte; lia).
  split; [reflexivity|]. split; [reflexivity|]. split; [exact Hb|].
  exact (proj1 (proj2 (@change_key_payload sim (fresh_wire [])
                         Scenario.sess1 0x01 (zeros 16) Scenario.RndA 0x01 0
                         eq_refl eq_refl Hb))).
Defined.

(** ** File settings: build, then parse *)

Lemma range_forall (n : nat) (P : Z -> bool) :
  forallb P (map Z.of_nat (seq 0 n)) = true ->
  forall x, 0 <= x < Z.of_nat n -> P x = true.
Proof.
  intros Hall x Hx. rewrite forallb_forall in Hall. apply Hall.
  apply in_map_iff. exists (Z.to_nat x). split; [lia|].
  apply in_seq. lia.
Qed.

Lemma sdm_ar_roundtrip (meta file ctr : Z) :
  0 <= meta < 16 -> 0 <= file < 16 -> 0 <= ctr < 16 ->
  sdm_ar_check meta file ctr = true.
Proof.
  intros Hm Hf Hc.
  revert ctr Hc. apply (range_forall 16 (fun c => sdm_ar_check meta file c)).
  revert file Hf.
  apply (range_forall 16
           (fun f => forallb (fun c => sdm_ar_check meta f c)
                             (map Z.of_nat (seq 0 16)))).
  revert meta Hm.
  apply (range_forall 16
           (fun m => forallb
                       (fun f => forallb (fun c => sdm_ar_check m f c)
                                         (map Z.of_nat (seq 0 16)))
                       (map Z.of_nat (seq 0 16)))).
  vm_compute. reflexivity.
Qed.

Lemma lor_disjoint (a b n : Z) :
  0 <= n -> 0 <= a < 2 ^ n -> Z.lor a (b * 2 ^ n) = a + b * 2 ^ n.
Proof.
  intros Hn Ha. rewrite <- Z.add_lor_land.
  assert (Z.land a (b * 2 ^ n) = 0) as ->; [|lia].
  apply Z.bits_inj'. intros i Hi. rewrite Z.land_spec, Z.bits_0.
  destruct (Z.lt_ge_cases i n) as [Hlt|Hge].
  - rewrite Z.mul_pow2_bits_low by lia. apply andb_false_r.
  - rewrite <- (Z.mod_small a (2 ^ n)) by lia.
    rewrite Z.mod_pow2_bits_high by lia. reflexivity.
Qed.

Lemma rd_app_plus (a b : list Z) (k : nat) :
  rd (a ++ b) (length a + k) = rd b k.
Proof. rewrite rd_app_r by lia. f_equal. lia. Qed.

Lemma u24_value (v : Z) :
  0 <= v < 2 ^ 24 ->
  Z.lor (Z.lor (u8 (Z.land v 0xFF))
               (Z.shiftl (u8 (Z.land (Z.shiftr v 8) 0xFF)) 8))
        (Z.shiftl (u8 (Z.land (Z.shiftr v 16) 0xFF)) 16) = v.
Proof.
  intros Hv. rewrite !u8_land_255.
  rewrite !Z.shiftr_div_pow2, !Z.shiftl_mul_pow2 by lia.
  change (2 ^ 24) with 16777216 in Hv.
  assert (P8 : 2 ^ 8 = 256) by reflexivity.
  assert (P16 : 2 ^ 16 = 65536) by reflexivity.
  rewrite (lor_disjoint (v mod 256) _ 8);
    [|lia|rewrite P8; Z.div_mod_to_equations; lia].
  rewrite (lor_disjoint _ _ 16);
    [|lia|rewrite P8, P16; Z.div_mod_to_equations; lia].
  rewrite P8, P16. Z.div_mod_to_equations. lia.
Qed.

Lemma u24_roundtrip (v : Z) (pre post : list Z) :
  0 <= v < 2 ^ 24 ->
  read_u24_le (pre ++ write_u24_le v ++ post) (length pre) = v.
Proof.
  intros Hv. unfold read_u24_le.
  rewrite <- (Nat.add_0_r (length pre)) at 1.
  rewrite !rd_app_plus. unfold write_u24_le. cbn [rd nth app].
  apply u24_value. exact Hv.
Qed.


Lemma payload_shape (cm a1 a2 opts meta file ctr uid_off ctr_off mi_off mac_off : Z) :
  change_file_settings_sdm_data cm a1 a2 opts meta file ctr uid_off ctr_off mi_off mac_off =
  u8 (Z.lor (Z.land cm 0x03) 0x40) :: a1 :: a2 :: opts
  :: u8 (Z.land (sdm_ar_of meta file ctr) 0xFF)
  :: u8 (Z.land (Z.shiftr (sdm_ar_of meta file ctr) 8) 0xFF)
  :: sdm_tail opts meta file uid_off ctr_off mi_off mac_off.
Proof.
  unfold change_file_settings_sdm_data, sdm_tail. fold (sdm_ar_of meta file ctr).
  destruct (negb (Z.land opts 0x80 =? 0) && (meta =? 0x0E));
  destruct (negb (Z.land opts 0x40 =? 0) && (meta =? 0x0E));
  destruct (negb (file =? 0x0F)); reflexivity.
Qed.

Lemma parse_sdm_info (ft fo a1 a2 s0 s1 s2 opts lsb msb : Z) (rest : list Z) :
  (Z.land fo 0x40 =? 0) = false ->
  snd (fst (parse_file_settings
              (ft :: fo :: a1 :: a2 :: s0 :: s1 :: s2 :: opts :: lsb :: msb :: rest))) =
  let sdm_ar := u16 (Z.lor lsb (Z.shiftl msb 8)) in
  {| valid := 1; sdm_enabled := 1;
     sdm_read_ctr_enabled := if Z.land opts 0x40 =? 0 then 0 else 1;
     file_option := fo; sdm_options := opts;
     sdm_meta_read := u8 (Z.land (Z.shiftr sdm_ar 12) 0x0F);
     sdm_file_read := u8 (Z.land (Z.shiftr sdm_ar 8) 0x0F);
     sdm_ctr_ret := u8 (Z.land sdm_ar 0x0F);
     ar1 := a1; ar2 := a2;
     file_size := Z.lor (Z.lor s0 (Z.shiftl s1 8)) (Z.shiftl s2 16) |}.
Proof.
  intros Hfo. unfold parse_file_settings.
  cbn [length Nat.ltb Nat.leb rd nth Nat.add].
  rewrite Hfo. cbv zeta.
  repeat break_match; reflexivity.
Qed.

Ltac fs_eval :=
  cbn [length Nat.ltb Nat.leb rd nth Nat.add app fs_field negb andb
       write_u24_le fst snd].

Lemma parse_sdm_tail (ft fo a1 a2 s0 s1 s2 opts lsb msb : Z)
    (meta file ctr uid_off ctr_off mi_off mac_off : Z) :
  (Z.land fo 0x40 =? 0) = false ->
  u8 (Z.land (Z.shiftr (u16 (Z.lor lsb (Z.shiftl msb 8))) 12) 0x0F) = meta ->
  u8 (Z.land (Z.shiftr (u16 (Z.lor lsb (Z.shiftl msb 8))) 8) 0x0F) = file ->
  0 <= uid_off < 2 ^ 24 -> 0 <= ctr_off < 2 ^ 24 ->
  0 <= mi_off < 2 ^ 24 -> 0 <= mac_off < 2 ^ 24 ->
  4 < meta -> Z.land opts 0x10 = 0 \/ file = 0x0F -> Z.land opts 0x20 = 0 ->
  let data := ft :: fo :: a1 :: a2 :: s0 :: s1 :: s2 :: opts :: lsb :: msb
              :: sdm_tail opts meta file uid_off ctr_off mi_off mac_off in
  let sdm_ar := u16 (Z.lor lsb (Z.shiftl msb 8)) in
  fst (fst (parse_file_settings data)) = 1 /\
  snd (parse_file_settings data) =
    [L_FileType ft; L_FileOption fo; L_AccessRights a1 a2;
     L_FileSize (Z.lor (Z.lor s0 (Z.shiftl s1 8)) (Z.shiftl s2 16));
     L_SDMOptions opts;
     L_SDMAccessRights sdm_ar meta file (u8 (Z.land sdm_ar 0x0F))
       (u8 (Z.land (Z.shiftr sdm_ar 4) 0x0F))]
    ++ (if negb (Z.land opts 0x80 =? 0) && (meta =? 0x0E)
        then [L_UIDOffset uid_off] else [])
    ++ (if negb (Z.land opts 0x40 =? 0) && (meta =? 0x0E)
        then (if ctr_off =? 0xFFFFFF then [L_SDMReadCtrOffset_none]
              else [L_SDMReadCtrOffset ctr_off]) else [])
    ++ (if negb (file =? 0x0F)
        then [L_SDMMACInputOffset mi_off; L_SDMMACOffset mac_off] else []).
Proof.
  intros Hfo Hmeta Hfile Hu Hc Hmi Hma H4 H10 H20. cbv zeta.
  pose proof (u24_value _ Hu) as Vu. pose proof (u24_value _ Hc) as Vc.
  pose proof (u24_value _ Hmi) as Vmi. pose proof (u24_value _ Hma) as Vma.
  assert (E4 : (meta <=? 4) = false) by (apply Z.leb_gt; lia).
  assert (E20 : (Z.land opts 0x20 =? 0) = true) by (apply Z.eqb_eq; exact H20).
  assert (E10 : (negb (file =? 0x0F) && negb (Z.land opts 0x10 =? 0)) = false).
  { destruct H10 as [H10|H10]; rewrite H10; [apply andb_false_r|reflexivity]. }
  unfold parse_file_settings, sdm_tail.
  destruct (Z.land opts 0x80 =? 0) eqn:E80;
  destruct (Z.land opts 0x40 =? 0) eqn:E40;
  destruct (meta =? 0x0E) eqn:Em;
  destruct (file =? 0x0F) eqn:Ef;
  cbn [negb andb] in E10;
  repeat (progress (fs_eval; cbv zeta;
                    rewrite ?Hfo, ?Hmeta, ?Hfile, ?E80, ?E40, ?Em, ?Ef, ?E4,
                            ?E20, ?E10));
  unfold read_u24_le; cbn [rd nth Nat.add write_u24_le];
  rewrite ?Vu, ?Vc, ?Vmi, ?Vma;
  destruct (ctr_off =? 0xFFFFFF); split; reflexivity.
Qed.

(** C4, as the specification states it, fails on the code: the payload
    Build emits starts at FileOption and carries no FileSize, while Parse
    reads FileType first and FileSize before the SDM part; parsing the
    payload of the tool's own SDM setup (line 1409) reads AR1 as
    FileOption, AR2 as AR1, SDMOptions as AR2, and fails on the tail. *)
Lemma parse_build_roundtrip_cex :
  let payload :=
    change_file_settings_sdm_data 0x00 0xE0 0xEE 0xC1 0x0E 0x01 0x01
      27 46 23 57 in
  let p := parse_file_settings payload in
  fst (fst p) = 0 /\
  file_option (snd (fst p)) = 0xE0 /\ file_option (snd (fst p)) <> 0x40 /\
  ar1 (snd (fst p)) = 0xEE /\ ar1 (snd (fst p)) <> 0xE0 /\
  ar2 (snd (fst p)) = 0xC1 /\ ar2 (snd (fst p)) <> 0xEE /\
  sdm_options (snd (fst p)) <> 0xC1 /\
  sdm_meta_read (snd (fst p)) <> 0x0E.
Proof. vm_compute. repeat split; intros X; discriminate X. Qed.

(** C4, amended: for every valid input tuple (cm in 0..3, AR1, AR2,
    SDMOptions, three nibbles, four 24-bit offsets), put the payload Build
    emits into the layout Parse reads (a FileType byte in front, a 3-byte
    FileSize after AR2); Parse then yields back the same settings:
    FileOption = cm | 0x40 with SDM enabled, AR1, AR2, SDMOptions and the
    three nibbles.  When moreover Build emits every field Parse expects
    (SDMMetaRead > 4, no ENC fields, no counter limit), Parse succeeds and
    the offsets it reads are the offsets given to Build. *)
Theorem parse_build_roundtrip
    (ft fsz cm a1 a2 opts meta file ctr uid_off ctr_off mi_off mac_off : Z) :
  0 <= fsz < 2 ^ 24 -> 0 <= cm <= 3 ->
  0 <= meta < 16 -> 0 <= file < 16 -> 0 <= ctr < 16 ->
  0 <= uid_off < 2 ^ 24 -> 0 <= ctr_off < 2 ^ 24 ->
  0 <= mi_off < 2 ^ 24 -> 0 <= mac_off < 2 ^ 24 ->
  let payload :=
    change_file_settings_sdm_data cm a1 a2 opts meta file ctr
      uid_off ctr_off mi_off mac_off in
  let p := parse_file_settings (file_settings_of_payload ft fsz payload) in
  snd (fst p) =
    {| valid := 1; sdm_enabled := 1;
       sdm_read_ctr_enabled := if Z.land opts 0x40 =? 0 then 0 else 1;
       file_option := Z.lor cm 0x40; sdm_options := opts;
       sdm_meta_read := meta; sdm_file_read := file; sdm_ctr_ret := ctr;
       ar1 := a1; ar2 := a2; file_size := fsz |} /\
  (4 < meta -> Z.land opts 0x10 = 0 \/ file = 0x0F -> Z.land opts 0x20 = 0 ->
   fst (fst p) = 1 /\
   snd p =
     [L_FileType ft; L_FileOption (Z.lor cm 0x40); L_AccessRights a1 a2;
      L_FileSize fsz; L_SDMOptions opts;
      L_SDMAccessRights (meta * 4096 + file * 256 + 0xF0 + ctr)
                        meta file ctr 0x0F]
     ++ (if negb (Z.land opts 0x80 =? 0) && (meta =? 0x0E)
         then [L_UIDOffset uid_off] else [])
     ++ (if negb (Z.land opts 0x40 =? 0) && (meta =? 0x0E)
         then (if ctr_off =? 0xFFFFFF then [L_SDMReadCtrOffset_none]
               else [L_SDMReadCtrOffset ctr_off]) else [])
     ++ (if negb (file =? 0x0F)
         then [L_SDMMACInputOffset mi_off; L_SDMMACOffset mac_off] else [])).
Proof.
  intros Hfs Hcm Hm Hf Hc Hu Hco Hmi Hma. cbv zeta.
  pose proof (sdm_ar_roundtrip meta file ctr Hm Hf Hc) as Har.
  unfold sdm_ar_check in Har. cbv zeta in Har.
  repeat (apply andb_true_iff in Har; destruct Har as [Har ?]).
  repeat match goal with Hz : (_ =? _) = true |- _ => apply Z.eqb_eq in Hz end.
  assert (Hfo : u8 (Z.lor (Z.land cm 0x03) 0x40) = Z.lor cm 0x40 /\
                (Z.land (Z.lor cm 0x40) 0x40 =? 0) = false).
  { assert (Hcases : cm = 0 \/ cm = 1 \/ cm = 2 \/ cm = 3) by lia.
    destruct Hcases as [-> | [-> | [-> | ->]]]; split; reflexivity. }
  destruct Hfo as [Hfo Hbit].
  rewrite payload_shape. unfold file_settings_of_payload.
  cbn [firstn skipn app write_u24_le]. rewrite Hfo.
  split.
  - rewrite parse_sdm_info by exact Hbit. cbv zeta.
    rewrite (u24_value _ Hfs).
    repeat match goal with Hr : _ = _ |- _ => rewrite Hr end.
    reflexivity.
  - intros H4 H10 H20.
    match goal with
    | H2 : u8 (Z.land (Z.shiftr _ 12) _) = meta,
      H1 : u8 (Z.land (Z.shiftr _ 8) _) = file |- _ =>
        destruct (parse_sdm_tail ft (Z.lor cm 0x40) a1 a2
                    (u8 (Z.land fsz 0xFF)) (u8 (Z.land (Z.shiftr fsz 8) 0xFF))
                    (u8 (Z.land (Z.shiftr fsz 16) 0xFF)) opts
                    (u8 (Z.land (sdm_ar_of meta file ctr) 0xFF))
                    (u8 (Z.land (Z.shiftr (sdm_ar_of meta file ctr) 8) 0xFF))
                    meta file ctr uid_off ctr_off mi_off mac_off
                    Hbit H2 H1 Hu Hco Hmi Hma H4 H10 H20) as [Hret Hlines]
    end.
    split; [exact Hret|]. rewrite Hlines, (u24_value _ Hfs).
    repeat match goal with Hr : u8 _ = _ |- _ => rewrite Hr end.
    rewrite Har. reflexivity.
Qed.

Lemma parse_build_roundtrip_witness :
  let payload :=
    change_file_settings_sdm_data 0x00 0xE0 0xEE 0xC1 0x0E 0x01 0x01
      27 46 23 57 in
  let p := parse_file_settings (file_settings_of_payload 0x00 256 payload) in
  (0 <= 256 < 2 ^ 24 /\ 0 <= 0x00 <= 3 /\ 0 <= 0x0E < 16 /\ 0 <= 0x01 < 16 /\
   0 <= 27 < 2 ^ 24 /\ 0 <= 46 < 2 ^ 24 /\ 0 <= 23 < 2 ^ 24 /\
   0 <= 57 < 2 ^ 24) /\
  (4 < 0x0E /\ (Z.land 0xC1 0x10 = 0 \/ 0x01 = 0x0F) /\ Z.land 0xC1 0x20 = 0) /\
  ar1 (snd (fst p)) = 0xE0 /\ ar2 (snd (fst p)) = 0xEE /\
  sdm_options (snd (fst p)) = 0xC1 /\ sdm_meta_read (snd (fst p)) = 0x0E /\
  fst (fst p) = 1.
Proof.
  cbv zeta.
  destruct (parse_build_roundtrip 0x00 256 0x00 0xE0 0xEE 0xC1 0x0E 0x01 0x01
              27 46 23 57
              ltac:(lia) ltac:(lia) ltac:(lia) ltac:(lia) ltac:(lia)
              ltac:(lia) ltac:(lia) ltac:(lia) ltac:(lia)) as [Hinfo Hfull].
  destruct (Hfull ltac:(lia) (or_introl eq_refl) eq_refl) as [Hret _].
  split; [lia|]. split; [split; [lia | split; [left; reflexivity | reflexivity]]|].
  rewrite Hinfo. cbn [ar1 ar2 sdm_options sdm_meta_read].
  exact (conj eq_refl (conj eq_refl (conj eq_refl (conj eq_refl Hret)))).
Defined.

(** ** CMAC: the source against RFC 4493 *)

Lemma bytes_at_cons (a : Z) (l : list Z) (off n : nat) :
  bytes_at (a :: l) (S off) n = bytes_at l off n.
Proof. unfold bytes_at. rewrite <- seq_shift, map_map. reflexivity. Qed.

Lemma bytes_at_skipn (l : list Z) (off n : nat) :
  (off + n <= length l)%nat -> bytes_at l off n = firstn n (skipn off l).
Proof.
  revert off n. induction l as [|a l IH]; intros off n Hl.
  - cbn [length] in Hl. assert (off = 0%nat) as -> by lia.
    assert (n = 0%nat) as -> by lia. reflexivity.
  - destruct off as [|off].
    + destruct n as [|n]; [reflexivity|].
      cbn [skipn firstn]. unfold bytes_at at 1. cbn [seq map].
      fold (bytes_at (a :: l) 1 n). rewrite bytes_at_cons.
      rewrite IH by (cbn [length] in Hl; lia). reflexivity.
    + rewrite bytes_at_cons. cbn [skipn]. apply IH. cbn [length] in Hl. lia.
Qed.

Lemma xor_block_spec (a b : list Z) (n : nat) :
  length a = n -> length b = n -> xor_block a b n = RFC4493.xor_bytes a b.
Proof.
  revert b n. induction a as [|x a IH]; intros b n Ha Hb.
  - subst n. reflexivity.
  - destruct n as [|n]; [discriminate Ha|].
    destruct b as [|y b]; [discriminate Hb|].
    unfold xor_block. cbn [seq map]. rewrite <- seq_shift, map_map.
    unfold RFC4493.xor_bytes. cbn [combine map fst snd]. f_equal.
    apply (IH b n); [now injection Ha | now injection Hb].
Qed.

Lemma length_xor_block (a b : list Z) (n : nat) : length (xor_block a b n) = n.
Proof. unfold xor_block. now rewrite length_map, length_seq. Qed.

Lemma shl_byte (b b' : Z) :
  is_byte b -> is_byte b' -> shl_byte_check b b' = true.
Proof.
  intros Hb Hb'. revert b' Hb'.
  apply (range_forall 256 (fun y => shl_byte_check b y)).
  revert b Hb.
  apply (range_forall 256
           (fun x => forallb (fun y => shl_byte_check x y)
                             (map Z.of_nat (seq 0 256)))).
  vm_compute. reflexivity.
Qed.

Lemma shl1_facts (l : list Z) :
  bytes l ->
  let c := fst (shl1 l) in
  let t := snd (shl1 l) in
  (c = 0 \/ c = 1) /\ bytes t /\ length t = length l /\
  0 <= RFC4493.be_to_Z l < 256 ^ Z.of_nat (length l) /\
  RFC4493.be_to_Z t + 256 ^ Z.of_nat (length l) * c = 2 * RFC4493.be_to_Z l.
Proof.
  cbv zeta. induction l as [|b l IH]; intros Hl.
  - cbn. repeat split; try lia. constructor.
  - inversion Hl as [|? ? Hb Hl']; subst.
    destruct (IH Hl') as (Hc & Ht & Hlen & Hr & He). clear IH.
    cbn [shl1 fst snd length RFC4493.be_to_Z]. rewrite Hlen.
    unfold is_byte in Hb.
    set (P := 256 ^ Z.of_nat (length l)) in *.
    assert (HP : 0 < P) by (apply Z.pow_pos_nonneg; lia).
    assert (HP' : 256 ^ Z.of_nat (S (length l)) = 256 * P).
    { rewrite Nat2Z.inj_succ, Z.pow_succ_r by lia. reflexivity. }
    rewrite HP'.
    set (c := fst (shl1 l)) in *. set (T' := RFC4493.be_to_Z (snd (shl1 l))) in *.
    set (T := RFC4493.be_to_Z l) in *.
    assert (Hq : (2 * b + c) mod 256 + 256 * (b / 128) = 2 * b + c)
      by (Z.div_mod_to_equations; lia).
    assert (Hm : 0 <= (2 * b + c) mod 256 < 256) by (apply Z.mod_pos_bound; lia).
    split; [Z.div_mod_to_equations; lia|].
    split; [constructor; [exact Hm | exact Ht]|].
    split; [reflexivity|].
    split; [nia|]. nia.
Qed.

Lemma Z_to_be_add (n : nat) (v k : Z) :
  RFC4493.Z_to_be n (v + k * 256 ^ Z.of_nat n) = RFC4493.Z_to_be n v.
Proof.
  revert k. induction n as [|n IH]; intros k; [reflexivity|].
  cbn [RFC4493.Z_to_be].
  rewrite Nat2Z.inj_succ, Z.pow_succ_r by lia.
  replace (v + k * (256 * 256 ^ Z.of_nat n))
    with (v + (k * 256) * 256 ^ Z.of_nat n) by ring.
  rewrite IH. f_equal.
  rewrite Z.div_add by (apply Z.pow_nonzero; lia).
  apply Z.mod_add. lia.
Qed.

Lemma Z_to_be_of_be (l : list Z) :
  bytes l -> RFC4493.Z_to_be (length l) (RFC4493.be_to_Z l) = l.
Proof.
  induction l as [|b l IH]; intros Hl; [reflexivity|].
  inversion Hl as [|? ? Hb Hl']; subst.
  cbn [length RFC4493.Z_to_be RFC4493.be_to_Z].
  pose proof (shl1_facts l Hl') as (_ & _ & _ & Hr & _).
  assert (HP : 0 < 256 ^ Z.of_nat (length l)) by (apply Z.pow_pos_nonneg; lia).
  f_equal.
  - rewrite Z.add_comm, Z.div_add by lia.
    rewrite Z.div_small by exact Hr. unfold is_byte in Hb.
    rewrite Z.add_0_l. apply Z.mod_small. exact Hb.
  - rewrite Z.add_comm, Z_to_be_add. apply IH. exact Hl'.
Qed.

Lemma left_shift_1bit_shl1 (l : list Z) :
  length l = 16%nat -> bytes l -> left_shift_1bit l = snd (shl1 l).
Proof.
  revert l. intros l. list16 l. unfold bytes. intros Hb.
  repeat match goal with
         | Hf : Forall is_byte (_ :: _) |- _ =>
             let Hx := fresh "Hx" in
             inversion Hf as [|? ? Hx ?]; subst; clear Hf
         end.
  unfold left_shift_1bit.
  cbn [rev seq app fold_left upd zeros repeat rd nth fst snd shl1].
  repeat match goal with
         | |- context [u8 (Z.lor (Z.shiftl ?b 1)
                                 (if Z.land ?b' 0x80 =? 0 then 0 else 1))] =>
             let Hc := fresh "Hc" in
             assert (Hc : shl_byte_check b b' = true)
               by (apply shl_byte; assumption);
             unfold shl_byte_check in Hc;
             apply andb_true_iff in Hc; destruct Hc as [Hc _];
             apply andb_true_iff in Hc; destruct Hc as [Hc _];
             apply Z.eqb_eq in Hc; rewrite Hc; clear Hc
         end.
  match goal with
  | |- context [u8 (Z.lor (Z.shiftl ?b 1) 0)] =>
      let Hc := fresh "Hc" in
      assert (Hc : shl_byte_check b b = true) by (apply shl_byte; assumption);
      unfold shl_byte_check in Hc;
      apply andb_true_iff in Hc; destruct Hc as [Hc _];
      apply andb_true_iff in Hc; destruct Hc as [_ Hc];
      apply Z.eqb_eq in Hc; rewrite Hc; clear Hc
  end.
  reflexivity.
Qed.

Lemma lxor_87_byte (x : Z) : is_byte x -> is_byte (Z.lxor x 0x87).
Proof.
  intros Hx.
  pose proof (range_forall 256
                (fun x => (0 <=? Z.lxor x 0x87) && (Z.lxor x 0x87 <? 256))
                ltac:(vm_compute; reflexivity) x Hx) as Hc.
  cbv beta in Hc. apply andb_true_iff in Hc as [H0 H1].
  apply Z.leb_le in H0. apply Z.ltb_lt in H1. split; assumption.
Qed.

(** One subkey derivation step of the source (shift, then the conditional
    XOR of 0x87 into the last byte) is the specification's. *)
Lemma subkey_spec (L : list Z) :
  length L = 16%nat -> bytes L ->
  (if Z.land (rd L 0) 0x80 =? 0 then left_shift_1bit L
   else upd 15 (Z.lxor (rd (left_shift_1bit L) 15) 0x87) (left_shift_1bit L))
  = RFC4493.shift_reduce L /\
  bytes (RFC4493.shift_reduce L) /\ length (RFC4493.shift_reduce L) = 16%nat.
Proof.
  intros Hlen Hb.
  rewrite (left_shift_1bit_shl1 L Hlen Hb).
  pose proof (shl1_facts L Hb) as (Hc & Ht & Htl & Hr & He).
  pose proof (shl1_facts _ Ht) as (_ & _ & _ & Hrt & _).
  rewrite Htl in Hrt. rewrite Hlen in Htl, Hrt, Hr, He.
  change (256 ^ Z.of_nat 16) with (2 ^ 128) in *.
  assert (Hcarry : (if Z.land (rd L 0) 0x80 =? 0 then 0 else 1) = fst (shl1 L)).
  { destruct L as [|b0 L']; [discriminate Hlen|].
    inversion Hb as [|? ? Hb0 ?]; subst.
    pose proof (shl_byte b0 b0 Hb0 Hb0) as Hk. unfold shl_byte_check in Hk.
    apply andb_true_iff in Hk as [_ Hk]. apply Z.eqb_eq in Hk.
    cbn [rd nth shl1 fst]. exact Hk. }
  unfold RFC4493.shift_reduce.
  assert (Hmod : (2 * RFC4493.be_to_Z L) mod 2 ^ 128
                 = RFC4493.be_to_Z (snd (shl1 L))).
  { rewrite <- He, Z.mul_comm, Z.mod_add by lia. apply Z.mod_small. exact Hrt. }
  rewrite Hmod.
  assert (Hz : RFC4493.Z_to_be 16 (RFC4493.be_to_Z (snd (shl1 L)))
               = snd (shl1 L)).
  { rewrite <- Htl. apply Z_to_be_of_be. exact Ht. }
  rewrite Hz.
  set (t := snd (shl1 L)) in *.
  destruct Hc as [Hc|Hc]; rewrite Hc in *.
  - assert (Hlt : (2 ^ 127 <=? RFC4493.be_to_Z L) = false)
      by (apply Z.leb_gt; lia).
    rewrite Hlt.
    destruct (Z.land (rd L 0) 0x80 =? 0); [|discriminate Hcarry].
    repeat split; assumption.
  - assert (Hge : (2 ^ 127 <=? RFC4493.be_to_Z L) = true)
      by (apply Z.leb_le; lia).
    rewrite Hge.
    destruct (Z.land (rd L 0) 0x80 =? 0); [discriminate Hcarry|].
    clearbody t. clear - Ht Htl. revert Htl Ht. list16 t. unfold bytes. intros Ht.
    repeat match goal with
           | Hf : Forall is_byte (_ :: _) |- _ =>
               let Hx := fresh "Hx" in
               inversion Hf as [|? ? Hx ?]; subst; clear Hf
           end.
    cbn [upd rd nth RFC4493.xor_bytes combine zeros repeat app map fst snd].
    rewrite !Z.lxor_0_r.
    split; [reflexivity|]. split; [|reflexivity].
    repeat (constructor; [assumption|]).
    constructor; [apply lxor_87_byte; assumption | constructor].
Qed.

Section CMAC.
Context `{Platform}.
Variable K : list Z.

(** the block cipher under K, as the specification's CMAC takes it *)
Let E (b : list Z) : list Z := snd (aes_ecb_encrypt K b).

Hypothesis ecb_ok :
  forall b, length b = 16%nat -> fst (aes_ecb_encrypt K b) = true.
Hypothesis L_bytes : bytes (snd (aes_ecb_encrypt K (zeros 16))).

Lemma ecb_E (b : list Z) :
  length b = 16%nat ->
  aes_ecb_encrypt K b = (true, E b) /\ length (E b) = 16%nat.
Proof.
  intros Hb. assert (Heq : aes_ecb_encrypt K b = (true, E b)).
  { rewrite <- (ecb_ok b Hb). apply surjective_pairing. }
  split; [exact Heq | exact (aes_ecb_encrypt_length _ _ _ Heq)].
Qed.

Lemma generate_cmac_subkeys_spec :
  generate_cmac_subkeys K = (RFC4493.K1 E, RFC4493.K2 E) /\
  length (RFC4493.K1 E) = 16%nat /\ length (RFC4493.K2 E) = 16%nat.
Proof.
  unfold generate_cmac_subkeys, RFC4493.K2, RFC4493.K1.
  fold (E (zeros 16)).
  destruct (ecb_E (zeros 16) eq_refl) as [_ HL].
  destruct (subkey_spec (E (zeros 16)) HL L_bytes) as (H1 & Hb1 & Hl1).
  cbv zeta. rewrite H1.
  destruct (subkey_spec _ Hl1 Hb1) as (H2 & _ & Hl2).
  rewrite H2. repeat split; assumption.
Qed.

(** The blocks before the last: the loop of the source follows the
    recursion of the specification. *)
Lemma cmac_chain_spec (M : list Z) (cnt : nat) :
  forall (i : nat) (x : list Z) (fuel : nat),
    length x = 16%nat ->
    cnt = 0%nat \/ (16 * (i + cnt) < length M)%nat ->
    exists x',
      cmac_chain K M cnt i x = Some x' /\ length x' = 16%nat /\
      RFC4493.cbc_mac E (cnt + fuel) x (skipn (16 * i) M)
      = RFC4493.cbc_mac E fuel x' (skipn (16 * (i + cnt)) M).
Proof.
  induction cnt as [|cnt IH]; intros i x fuel Hx Hc.
  - exists x. rewrite Nat.add_0_r. repeat split; [exact Hx].
  - destruct Hc as [Hc|Hc]; [discriminate Hc|].
    cbn [cmac_chain].
    assert (Hb : bytes_at M (16 * i) 16 = firstn 16 (skipn (16 * i) M))
      by (apply bytes_at_skipn; lia).
    assert (Hy : length (xor_block x (bytes_at M (16 * i) 16) 16) = 16%nat)
      by apply length_xor_block.
    destruct (ecb_E _ Hy) as [Heq Hl]. rewrite Heq.
    destruct (IH (S i) _ fuel Hl) as (x' & Hch & Hx' & Hrec).
    { right. lia. }
    exists x'. split; [exact Hch|]. split; [exact Hx'|].
    replace (16 * (i + S cnt))%nat with (16 * (S i + cnt))%nat by lia.
    rewrite <- Hrec. cbn [Nat.add RFC4493.cbc_mac].
    assert (Hlong : (length (skipn (16 * i) M) <=? 16)%nat = false).
    { apply Nat.leb_gt. rewrite length_skipn. lia. }
    rewrite Hlong, skipn_skipn.
    replace (16 + 16 * i)%nat with (16 * S i)%nat by lia.
    rewrite xor_block_spec, Hb; [reflexivity | exact Hx |].
    rewrite Hb, length_firstn, length_skipn. lia.
Qed.

Lemma skipn_zeros (k n : nat) : skipn k (zeros n) = zeros (n - k).
Proof.
  revert n. induction k as [|k IH]; intros n.
  - now rewrite Nat.sub_0_r.
  - destruct n as [|n]; [reflexivity|]. cbn [zeros repeat skipn Nat.sub].
    apply IH.
Qed.

Lemma upd_app (a : list Z) (v z : Z) (rest : list Z) :
  upd (length a) v (a ++ z :: rest) = a ++ v :: rest.
Proof. induction a as [|h a IH]; [reflexivity|]. cbn. now rewrite IH. Qed.

(** The padded last block of the source. *)
Lemma pad_block_spec (m : list Z) :
  (length m < 16)%nat ->
  upd (length m) 0x80
      (if (0 <? length m)%nat then memcpy (zeros 16) 0 m else zeros 16)
  = m ++ 0x80 :: zeros (15 - length m).
Proof.
  intros Hm.
  assert (Hz : (if (0 <? length m)%nat then memcpy (zeros 16) 0 m
                else zeros 16) = m ++ 0 :: zeros (15 - length m)).
  { unfold memcpy. cbn [firstn app Nat.add].
    assert (Hs : skipn (length m) (zeros 16) = 0 :: zeros (15 - length m)).
    { rewrite skipn_zeros.
      replace (16 - length m)%nat with (S (15 - length m)) by lia.
      reflexivity. }
    destruct (Nat.ltb_spec 0 (length m)) as [Hp|Hp].
    - rewrite Hs. reflexivity.
    - destruct m; [reflexivity | cbn [length] in Hp; lia]. }
  rewrite Hz. apply upd_app.
Qed.

Lemma aes_cmac_spec (M out : list Z) :
  aes_cmac K M out = (true, RFC4493.cmac E M) /\
  length (RFC4493.cmac E M) = 16%nat.
Proof.
  destruct generate_cmac_subkeys_spec as (Hk & Hl1 & Hl2).
  unfold aes_cmac. rewrite Hk.
  set (len := length M).
  set (n0 := ((len + 15) / 16)%nat).
  set (n := if (n0 =? 0)%nat then 1%nat else n0).
  pose proof (Nat.div_mod_eq (len + 15) 16) as Hdm.
  pose proof (Nat.mod_upper_bound (len + 15) 16 ltac:(lia)) as Hub.
  pose proof (Nat.div_mod_eq len 16) as Hdm'.
  pose proof (Nat.mod_upper_bound len 16 ltac:(lia)) as Hub'.
  fold n0 in Hdm.
  assert (Hn : (1 <= n)%nat /\ (16 * (n - 1) <= len)%nat /\
               (len <= 16 * n)%nat /\
               (len = 0%nat \/ 16 * (n - 1) < len)%nat).
  { subst n. destruct (Nat.eqb_spec n0 0); lia. }
  destruct Hn as (Hn1 & Hn2 & Hn3 & Hn4).
  set (m := skipn (16 * (n - 1)) M).
  assert (Hm : length m = (len - 16 * (n - 1))%nat)
    by (subst m; apply length_skipn).
  destruct (cmac_chain_spec M (n - 1) 0 (zeros 16) (S (len - (n - 1))) eq_refl)
    as (x' & Hch & Hx' & Hrec).
  { destruct (Nat.eq_dec (n - 1) 0); [left; assumption | right; lia]. }
  rewrite Hch.
  assert (Hcm : RFC4493.cmac E M
                = E (RFC4493.xor_bytes x' (RFC4493.final_block E m))).
  { unfold RFC4493.cmac. fold len.
    replace (S len) with (n - 1 + S (len - (n - 1)))%nat by lia.
    change (skipn (16 * 0) M) with M in Hrec.
    change (0 + (n - 1))%nat with (n - 1)%nat in Hrec. rewrite Hrec.
    cbn [RFC4493.cbc_mac]. fold m.
    assert (Hshort : (length m <=? 16)%nat = true)
      by (apply Nat.leb_le; lia).
    rewrite Hshort. reflexivity. }
  rewrite Hcm.
  assert (Hlast :
    (if negb (len =? 0)%nat && (len mod 16 =? 0)%nat
     then xor_block (bytes_at M (16 * (n - 1)) 16) (RFC4493.K1 E) 16
     else
       xor_block
         (upd (if (len =? 0)%nat then 0%nat else (len - 16 * (n - 1))%nat)
              0x80
              (if (0 <? (if (len =? 0)%nat then 0
                         else len - 16 * (n - 1)))%nat
               then memcpy (zeros 16) 0
                      (bytes_at M (16 * (n - 1))
                         (if (len =? 0)%nat then 0
                          else len - 16 * (n - 1)))
               else zeros 16))
         (RFC4493.K2 E) 16)
    = RFC4493.final_block E m /\ length (RFC4493.final_block E m) = 16%nat).
  { unfold RFC4493.final_block.
    destruct (Nat.eqb_spec len 0) as [H0|H0]; cbn [negb andb].
    - assert (Hm0 : m = []) by (destruct m; [reflexivity | cbn [length] in Hm; lia]).
      rewrite Hm0. cbn [length Nat.eqb Nat.ltb Nat.leb Nat.sub app].
      rewrite xor_block_spec by (reflexivity || exact Hl2).
      split; [reflexivity|].
      unfold RFC4493.xor_bytes. rewrite length_map, length_combine, Hl2.
      reflexivity.
    - destruct (Nat.eqb_spec (len mod 16) 0) as [Hz|Hz].
      + assert (Hm16 : length m = 16%nat) by lia.
        rewrite Hm16. cbn [Nat.eqb].
        rewrite bytes_at_skipn by lia. fold m.
        rewrite <- Hm16 at 1. rewrite firstn_all.
        rewrite xor_block_spec by assumption.
        split; [reflexivity|].
        unfold RFC4493.xor_bytes. rewrite length_map, length_combine, Hm16, Hl1.
        reflexivity.
      + assert (Hlt : (length m < 16)%nat) by lia.
        assert (Hne : (length m =? 16)%nat = false)
          by (apply Nat.eqb_neq; lia).
        rewrite Hne, <- Hm.
        rewrite bytes_at_skipn by lia. fold m. rewrite firstn_all.
        rewrite (pad_block_spec m Hlt).
        assert (Hpl : length (m ++ 0x80 :: zeros (15 - length m)) = 16%nat).
        { rewrite length_app. cbn [length]. unfold zeros.
          rewrite repeat_length. lia. }
        rewrite xor_block_spec by assumption.
        split; [reflexivity|].
        unfold RFC4493.xor_bytes. rewrite length_map, length_combine, Hpl, Hl2.
        reflexivity. }
  fold len. fold n0. fold n.
  destruct Hlast as [Hlast Hfl]. cbv zeta. rewrite Hlast.
  rewrite xor_block_spec by assumption.
  assert (Hy : length (RFC4493.xor_bytes x' (RFC4493.final_block E m)) = 16%nat).
  { unfold RFC4493.xor_bytes. rewrite length_map, length_combine, Hx', Hfl.
    reflexivity. }
  destruct (ecb_E _ Hy) as [Heq Hl]. split; [exact Heq | exact Hl].
Qed.

End CMAC.

Lemma bytes_of_forallb (l : list Z) :
  forallb (fun x => (0 <=? x) && (x <? 256)) l = true -> bytes l.
Proof.
  intros Hl. rewrite forallb_forall in Hl. apply Forall_forall.
  intros x Hx. apply Hl in Hx. apply andb_true_iff in Hx as [H0 H1].
  apply Z.leb_le in H0. apply Z.ltb_lt in H1. split; assumption.
Qed.

(** C8: for every key K and message M, [aes_cmac] follows RFC 4493 (AES-ECB
    being a total block cipher under K): the subkeys K1 and K2 come from
    AES-ECB(K, 0^16) by a one-bit left shift of the 128-bit string with XOR
    of 0x87 into the last byte on carry-out of the top bit; the final block
    is the last full 16-byte block XOR K1 when |M| is a non-zero multiple of
    16, and otherwise the remainder padded with 0x80 00.. XOR K2; CBC-MAC
    over all blocks with an all-zero IV yields the 16-byte tag. *)
Theorem aes_cmac_rfc4493 `{Platform} (K M out : list Z) :
  (forall b, length b = 16%nat -> fst (aes_ecb_encrypt K b) = true) ->
  bytes (snd (aes_ecb_encrypt K (zeros 16))) ->
  let E := fun b => snd (aes_ecb_encrypt K b) in
  generate_cmac_subkeys K = (RFC4493.K1 E, RFC4493.K2 E) /\
  aes_cmac K M out = (true, RFC4493.cmac E M) /\
  length (RFC4493.cmac E M) = 16%nat.
Proof.
  intros Hok HL. cbv zeta.
  destruct (generate_cmac_subkeys_spec K Hok HL) as [Hk _].
  destruct (aes_cmac_spec K Hok HL M out) as [Hc Hl].
  exact (conj Hk (conj Hc Hl)).
Qed.

(** The AES-128 of the concrete platform encrypts every 16-byte block. *)
Lemma sim_ecb_ok (K b : list Z) :
  length b = 16%nat -> fst (@aes_ecb_encrypt sim K b) = true.
Proof.
  intros Hb. unfold aes_ecb_encrypt. cbn [CCCrypt sim].
  unfold AES128.CCCrypt. rewrite Hb.
  change (negb (16 mod 16 =? 0)%nat) with false.
  change (negb (Z.land kCCOptionECBMode kCCOptionECBMode =? 0)) with true.
  cbv iota. cbn [fst]. unfold AES128.ecb, AES128.blocks. rewrite Hb.
  change (16 / 16)%nat with 1%nat. cbn [seq map flat_map].
  rewrite app_nil_r. unfold AES128.cipher, AES128.add_round_key.
  rewrite length_xor_block. reflexivity.
Qed.

Lemma aes_cmac_rfc4493_witness :
  let K := Scenario.rfc_key in
  let M := firstn 40 Scenario.rfc_msg in
  let E := fun b => snd (@aes_ecb_encrypt sim K b) in
  (forall b, length b = 16%nat -> fst (@aes_ecb_encrypt sim K b) = true) /\
  bytes (snd (@aes_ecb_encrypt sim K (zeros 16))) /\
  @generate_cmac_subkeys sim K = (RFC4493.K1 E, RFC4493.K2 E) /\
  @aes_cmac sim K M [] = (true, RFC4493.cmac E M) /\
  length (RFC4493.cmac E M) = 16%nat.
Proof.
  cbv zeta.
  assert (HL : bytes (snd (@aes_ecb_encrypt sim Scenario.rfc_key (zeros 16))))
    by (apply bytes_of_forallb; vm_compute; reflexivity).
  split; [exact (sim_ecb_ok Scenario.rfc_key)|]. split; [exact HL|].
  exact (@aes_cmac_rfc4493 sim Scenario.rfc_key (firstn 40 Scenario.rfc_msg) []
           (sim_ecb_ok Scenario.rfc_key) HL).
Defined.

(** The subkeys and the four tags of the examples of RFC 4493, section 4,
    computed by the source's [aes_cmac] on the concrete platform. *)
Example rfc4493_test_vectors :
  @generate_cmac_subkeys sim Scenario.rfc_key =
    ([0xFB; 0xEE; 0xD6; 0x18; 0x35; 0x71; 0x33; 0x66;
       0x7C; 0x85; 0xE0; 0x8F; 0x72; 0x36; 0xA8; 0xDE],
     [0xF7; 0xDD; 0xAC; 0x30; 0x6A; 0xE2; 0x66; 0xCC;
       0xF9; 0x0B; 0xC1; 0x1E; 0xE4; 0x6D; 0x51; 0x3B]) /\
  @aes_cmac sim Scenario.rfc_key [] [] =
    (true,
     [0xBB; 0x1D; 0x69; 0x29; 0xE9; 0x59; 0x37; 0x28;
       0x7F; 0xA3; 0x7D; 0x12; 0x9B; 0x75; 0x67; 0x46]) /\
  @aes_cmac sim Scenario.rfc_key (firstn 16 Scenario.rfc_msg) [] =
    (true,
     [0x07; 0x0A; 0x16; 0xB4; 0x6B; 0x4D; 0x41; 0x44;
       0xF7; 0x9B; 0xDD; 0x9D; 0xD0; 0x4A; 0x28; 0x7C]) /\
  @aes_cmac sim Scenario.rfc_key (firstn 40 Scenario.rfc_msg) [] =
    (true,
     [0xDF; 0xA6; 0x67; 0x47; 0xDE; 0x9A; 0xE6; 0x30;
       0x30; 0xCA; 0x32; 0x61; 0x14; 0x97; 0xC8; 0x27]) /\
  @aes_cmac sim Scenario.rfc_key Scenario.rfc_msg [] =
    (true,
     [0x51; 0xF0; 0xBE; 0xBF; 0x7E; 0x3B; 0x9D; 0x92;
       0xFC; 0x49; 0x74; 0x17; 0x79; 0x36; 0x3C; 0xFE]).
Proof. vm_compute. repeat split. Qed.

(** ** The session keys of EV2-First against RFC 4493 *)

(** C3: after a successful EV2-First with long-term key K, host nonce RndA
    and decrypted card nonce RndB, the stored session keys are
    KENC = CMAC(K, A5 5A 00 01 00 80 || MIX) and
    KMAC = CMAC(K, 5A A5 00 01 00 80 || MIX), where CMAC is the AES-CMAC of
    RFC 4493 over the block cipher AES-ECB under K (taken to be total on
    16-byte blocks and to give bytes on the zero block) and MIX is the
    26-byte value
    RndA[0..2] || (RndA[2..8] XOR RndB[0..6]) || RndB[6..16] || RndA[8..16];
    RndB is the AES-CBC decryption, under K with a zero IV, of the 16-byte
    body of the card's first response. *)
Theorem ev2_first_session_keys `{Platform} (w : wire) (key : list Z) (kno : Z)
    (rndA : list Z) (s0 : ssm_session_t) (w' : wire) (sess : ssm_session_t) :
  (forall b, length b = 16%nat -> fst (aes_ecb_encrypt key b) = true) ->
  bytes (snd (aes_ecb_encrypt key (zeros 16))) ->
  length rndA = 16%nat ->
  authenticate_ev2_first w key kno rndA s0 = (w', (1, sess)) ->
  let E := fun b => snd (aes_ecb_encrypt key b) in
  exists w1 body rndB,
    transmit w [0x90; 0x71; 0x00; 0x00; 0x02; kno; 0x00; 0x00] MAX_APDU 0
      = (w1, (SCARD_S_SUCCESS, body, 0x91AF)) /\
    aes_cbc_crypt false key (zeros 16) body = (true, rndB) /\
    length rndB = 16%nat /\
    length (EV2Spec.MIX rndA rndB) = 26%nat /\
    kenc sess =
      RFC4493.cmac E ([0xA5; 0x5A; 0x00; 0x01; 0x00; 0x80]
                        ++ EV2Spec.MIX rndA rndB) /\
    kmac sess =
      RFC4493.cmac E ([0x5A; 0xA5; 0x00; 0x01; 0x00; 0x80]
                        ++ EV2Spec.MIX rndA rndB) /\
    length (kenc sess) = 16%nat /\ length (kmac sess) = 16%nat.
Proof.
  intros Hok HL HA Hrun. cbv zeta.
  destruct (authenticate_ev2_first_ok _ _ _ _ _ _ _ Hrun)
    as (w1 & body & rndB & dec & k1 & k2 & Ht & Hl & Hd & Hk1 & Hk2 & ->).
  pose proof (aes_cbc_crypt_length _ _ _ _ _ Hd) as HB. rewrite Hl in HB.
  rewrite build_sv_spec in Hk1, Hk2 by (assumption || reflexivity).
  destruct (aes_cmac_spec key Hok HL (sv_prefix1 ++ EV2Spec.MIX rndA rndB)
              (kenc s0)) as [Hc1 Hn1].
  destruct (aes_cmac_spec key Hok HL (sv_prefix2 ++ EV2Spec.MIX rndA rndB)
              (kmac s0)) as [Hc2 Hn2].
  rewrite Hc1 in Hk1. rewrite Hc2 in Hk2.
  injection Hk1 as <-. injection Hk2 as <-.
  exists w1, body, rndB. cbn [kenc kmac].
  refine (conj Ht (conj Hd (conj HB (conj _
            (conj eq_refl (conj eq_refl (conj Hn1 Hn2))))))).
  revert HA HB. clear. revert rndB. intros rndB HA. revert HA.
  list16 rndA. list16 rndB. reflexivity.
Qed.

Lemma ev2_first_session_keys_witness :
  let E := fun b => snd (@aes_ecb_encrypt sim Scenario.K b) in
  (forall b, length b = 16%nat ->
             fst (@aes_ecb_encrypt sim Scenario.K b) = true) /\
  bytes (snd (@aes_ecb_encrypt sim Scenario.K (zeros 16))) /\
  length Scenario.RndA = 16%nat /\
  ev2_run = (fst ev2_run, (1, Scenario.sess1)) /\
  exists w1 body rndB,
    @transmit sim (fresh_wire Scenario.ev2_script)
      [0x90; 0x71; 0x00; 0x00; 0x02; 0x00; 0x00; 0x00] MAX_APDU 0
      = (w1, (SCARD_S_SUCCESS, body, 0x91AF)) /\
    @aes_cbc_crypt sim false Scenario.K (zeros 16) body = (true, rndB) /\
    length rndB = 16%nat /\
    length (EV2Spec.MIX Scenario.RndA rndB) = 26%nat /\
    kenc Scenario.sess1 =
      RFC4493.cmac E ([0xA5; 0x5A; 0x00; 0x01; 0x00; 0x80]
                        ++ EV2Spec.MIX Scenario.RndA rndB) /\
    kmac Scenario.sess1 =
      RFC4493.cmac E ([0x5A; 0xA5; 0x00; 0x01; 0x00; 0x80]
                        ++ EV2Spec.MIX Scenario.RndA rndB) /\
    length (kenc Scenario.sess1) = 16%nat /\
    length (kmac Scenario.sess1) = 16%nat.
Proof.
  cbv zeta.
  assert (Hrun : ev2_run = (fst ev2_run, (1, Scenario.sess1))).
  { transitivity (fst ev2_run, snd ev2_run); [apply surjective_pairing|].
    apply f_equal. vm_compute. reflexivity. }
  assert (HL : bytes (snd (@aes_ecb_encrypt sim Scenario.K (zeros 16))))
    by (apply bytes_of_forallb; vm_compute; reflexivity).
  split; [exact (sim_ecb_ok Scenario.K)|]. split; [exact HL|].
  split; [reflexivity|]. split; [exact Hrun|].
  exact (@ev2_first_session_keys sim (fresh_wire Scenario.ev2_script)
           Scenario.K 0x00 Scenario.RndA sess_zero
           (fst ev2_run) Scenario.sess1 (sim_ecb_ok Scenario.K) HL
           eq_refl Hrun).
Defined.

(* ================================================================== *)
(** * Part III: further properties of the code                         *)
(* ================================================================== *)

(** ** Rotation and padding removal *)

Lemma bytes_at_app_l (a b : list Z) :
  bytes_at (a ++ b) 0 (length a) = a.
Proof.
  unfold bytes_at. apply nth_ext with (d := 0) (d' := 0).
  - now rewrite length_map, length_seq.
  - intros i Hi. rewrite length_map, length_seq in Hi.
    rewrite (nth_indep _ 0 (rd (a ++ b) 0)) by now rewrite length_map, length_seq.
    rewrite map_nth, seq_nth by exact Hi. simpl.
    now apply rd_app_l.
Qed.

Lemma rotate_left_1_cons (a : Z) (t : list Z) :
  rotate_left_1 (a :: t) (S (length t)) = t ++ [a].
Proof.
  unfold rotate_left_1. cbn [Nat.eqb].
  replace (S (length t) - 1)%nat with (length t) by lia.
  rewrite bytes_at_cons, bytes_at_all by reflexivity. reflexivity.
Qed.

Lemma rotate_right_1_snoc (t : list Z) (a : Z) :
  rotate_right_1 (t ++ [a]) (S (length t)) = a :: t.
Proof.
  unfold rotate_right_1. cbn [Nat.eqb].
  replace (S (length t) - 1)%nat with (length t) by lia.
  rewrite rd_app_r, Nat.sub_diag, bytes_at_app_l by lia. reflexivity.
Qed.

(** X1: on a buffer of [n] bytes [rotate_right_1] undoes [rotate_left_1]
    and [rotate_left_1] undoes [rotate_right_1]; a rotation keeps the
    length.  (EV2-First rotates RndB left before it sends it and rotates
    the card's RndA' right before it compares it with RndA.) *)
Theorem rotate_left_right_inverse (x : list Z) (n : nat) :
  length x = n ->
  rotate_right_1 (rotate_left_1 x n) n = x /\
  rotate_left_1 (rotate_right_1 x n) n = x /\
  length (rotate_left_1 x n) = n /\ length (rotate_right_1 x n) = n.
Proof.
  intros <-. destruct x as [|a t]; [repeat split|].
  assert (L : rotate_left_1 (a :: t) (length (a :: t)) = t ++ [a])
    by apply rotate_left_1_cons.
  destruct (exists_last (l := a :: t) ltac:(discriminate)) as (f & l & E).
  assert (Lf : length (a :: t) = S (length f)).
  { rewrite E, length_app. simpl. lia. }
  assert (R : rotate_right_1 (a :: t) (length (a :: t)) = l :: f).
  { rewrite Lf, E. apply rotate_right_1_snoc. }
  rewrite L, R. repeat split.
  - cbn [length]. apply rotate_right_1_snoc.
  - rewrite Lf, E. apply rotate_left_1_cons.
  - rewrite length_app. simpl. lia.
  - simpl. simpl in Lf. lia.
Qed.

Lemma rotate_left_right_inverse_witness :
  let x := [0x01; 0x02; 0x03; 0x04] in
  rotate_left_1 x 4 = [0x02; 0x03; 0x04; 0x01] /\
  rotate_right_1 (rotate_left_1 x 4) 4 = x.
Proof.
  cbv zeta. split; [reflexivity|].
  exact (proj1 (rotate_left_right_inverse [0x01; 0x02; 0x03; 0x04] 4 eq_refl)).
Defined.

Lemma unpad_scan_le (buf : list Z) (k : nat) : (unpad_scan buf k <= k)%nat.
Proof.
  induction k as [|k IH]; cbn [unpad_scan]; [lia|].
  destruct (rd buf k =? 0); lia.
Qed.

(** What the backward scan leaves: every byte from the index it stops at
    up to [k] is zero, and the byte in front of that index is not. *)
Lemma unpad_scan_spec (buf : list Z) (k : nat) :
  (forall j, (unpad_scan buf k <= j < k)%nat -> rd buf j = 0) /\
  match unpad_scan buf k with
  | S i => rd buf i <> 0
  | O => True
  end.
Proof.
  induction k as [|k [IHz IHn]]; cbn [unpad_scan].
  - split; [intros j Hj; lia | exact I].
  - destruct (rd buf k =? 0) eqn:E.
    + apply Z.eqb_eq in E. split; [|exact IHn].
      intros j Hj. destruct (Nat.eq_dec j k) as [->|N]; [exact E|].
      apply IHz. lia.
    + apply Z.eqb_neq in E. split; [intros j Hj; lia | exact E].
Qed.

(** X2: [unpad_iso9797_m2] never fails and never reads past [len]: it
    returns the index of the last non-zero byte when that byte is 0x80
    (every byte after it being zero), and [len] itself, the buffer taken as
    it is, in every other case (no marker, or an all-zero buffer). *)
Theorem unpad_iso9797_m2_spec (buf : list Z) (len : nat) :
  let n := unpad_iso9797_m2 buf len in
  (n <= len)%nat /\
  (forall i, (i < len)%nat -> rd buf i = 0x80 ->
     (forall j, (i < j < len)%nat -> rd buf j = 0) -> n = i) /\
  ((n < len)%nat ->
     rd buf n = 0x80 /\ forall j, (n < j < len)%nat -> rd buf j = 0) /\
  ((forall i, (i < len)%nat -> rd buf i = 0x80 ->
      exists j, (i < j < len)%nat /\ rd buf j <> 0) -> n = len).
Proof.
  cbv zeta.
  pose proof (unpad_scan_le buf len) as Hle.
  destruct (unpad_scan_spec buf len) as [Hz Hn].
  assert (Hm : forall i, (i < len)%nat -> rd buf i = 0x80 ->
                 (forall j, (i < j < len)%nat -> rd buf j = 0) ->
                 unpad_scan buf len = S i).
  { intros i Hi H80 Hafter.
    destruct (unpad_scan buf len) as [|k] eqn:Ek.
    - specialize (Hz i ltac:(lia)). rewrite Hz in H80. discriminate.
    - destruct (Nat.lt_trichotomy k i) as [Lt|[->|Gt]]; [|reflexivity|].
      + specialize (Hz i ltac:(lia)). rewrite Hz in H80. discriminate.
      + exfalso. apply Hn. apply Hafter. lia. }
  unfold unpad_iso9797_m2.
  destruct (Nat.eqb_spec len 0) as [E0|N0].
  - subst len. repeat split; intros; lia.
  - destruct (unpad_scan buf len) as [|k] eqn:Ek.
    + split; [lia|]. split; [|split; [lia | reflexivity]].
      intros i Hi H80 Hafter. specialize (Hm i Hi H80 Hafter). discriminate.
    + destruct (rd buf k =? 0x80) eqn:E80.
      * apply Z.eqb_eq in E80.
        split; [lia|]. split; [|split].
        -- intros i Hi H80 Hafter. specialize (Hm i Hi H80 Hafter). congruence.
        -- intros _. split; [exact E80|]. intros j Hj. apply Hz. lia.
        -- intros Hno. destruct (Hno k ltac:(lia) E80) as (j & Hj & Hnz).
           exfalso. apply Hnz. apply Hz. lia.
      * apply Z.eqb_neq in E80.
        split; [lia|]. split; [|split; [lia | reflexivity]].
        intros i Hi H80 Hafter. specialize (Hm i Hi H80 Hafter).
        injection Hm as ->. contradiction.
Qed.

Lemma unpad_iso9797_m2_spec_witness :
  let buf := [0x41; 0x80; 0x42; 0x00] in
  unpad_iso9797_m2 buf 4 = 4%nat /\
  unpad_iso9797_m2 [0x41; 0x80; 0x00; 0x00] 4 = 1%nat.
Proof.
  cbv zeta. split.
  - apply (proj2 (proj2 (proj2 (unpad_iso9797_m2_spec [0x41; 0x80; 0x42; 0x00] 4)))).
    intros i Hi H80.
    destruct i as [|[|[|[|i]]]]; try discriminate H80; try lia.
    exists 2%nat. split; [lia | discriminate].
  - apply (proj1 (proj2 (unpad_iso9797_m2_spec [0x41; 0x80; 0x00; 0x00] 4)) 1%nat);
      [lia | reflexivity |].
    intros j Hj. destruct j as [|[|[|[|j]]]]; try lia; reflexivity.
Defined.

(** ** Secure messaging: the command APDU *)

Lemma pad_length_eq (d : list Z) :
  length (pad_iso9797_m2 d) = (16 * (length d / 16 + 1))%nat.
Proof.
  unfold pad_iso9797_m2. rewrite !length_app. cbn [length].
  unfold zeros. rewrite repeat_length.
  pose proof (Nat.mod_upper_bound (length d) 16 ltac:(lia)) as Hlt.
  pose proof (Nat.div_mod_eq (length d) 16) as Hdm.
  destruct (Nat.eqb_spec (16 - length d mod 16) 0); lia.
Qed.

Lemma length_cmac_truncate_8 (c : list Z) : length (cmac_truncate_8 c) = 8%nat.
Proof. unfold cmac_truncate_8. now rewrite length_map, length_seq. Qed.

(** A call either stops before line 726 with nothing sent, or has built
    and sent the one APDU of lines 696-715: the IV, the cryptogram and the
    CMAC all computed, the data field within 255 bytes. *)
Lemma ssm_cmd_full_request `{Platform} (w : wire) (sess : ssm_session_t)
    (cmd : Z) (cmd_header cmd_data : list Z) (out_len : nat) (sw_out : Z) :
  let r := ssm_cmd_full w sess cmd cmd_header cmd_data out_len sw_out in
  (sends (r_exit r) = false /\ r_wire r = w /\ r_sw_out r = sw_out) \/
  (sends (r_exit r) = true /\
   exists ivc enc cmac,
     authenticated sess <> 0 /\
     aes_ecb_encrypt (kenc sess)
       (iv_input 0xA5 0x5A (ti sess) (cmd_ctr sess)) = (true, ivc) /\
     (if (0 <? length cmd_data)%nat
      then aes_cbc_crypt true (kenc sess) ivc (pad_iso9797_m2 cmd_data)
           = (true, enc)
      else enc = []) /\
     aes_cmac (kmac sess)
       ([cmd; u8 (Z.land (cmd_ctr sess) 0xFF);
         u8 (Z.land (Z.shiftr (cmd_ctr sess) 8) 0xFF)]
        ++ bytes_at (ti sess) 0 4 ++ cmd_header ++ enc) (zeros 16)
       = (true, cmac) /\
     (length cmd_header + length enc + 8 <= 255)%nat /\
     sent (r_wire r) =
       sent w ++ [[0x90; cmd; 0x00; 0x00;
                   u8 (Z.of_nat (length cmd_header + length enc + 8))]
                  ++ cmd_header ++ enc ++ cmac_truncate_8 cmac ++ [0x00]]).
Proof.
  cbv zeta. unfold ssm_cmd_full.
  destruct (authenticated sess =? 0) eqn:A;
    [left; repeat split|]. apply Z.eqb_neq in A.
  destruct (aes_ecb_encrypt (kenc sess) _) as [ok ivc] eqn:Eiv.
  destruct ok; cbn [negb]; [|left; repeat split].
  destruct ((0 <? length cmd_data)%nat
            && (MAX_APDU <? length (pad_iso9797_m2 cmd_data))%nat);
    [left; repeat split|].
  assert (Henc : exists ok enc,
             (if (0 <? length cmd_data)%nat
              then aes_cbc_crypt true (kenc sess) ivc (pad_iso9797_m2 cmd_data)
              else (true, [])) = (ok, enc) /\
             (ok = true ->
              if (0 <? length cmd_data)%nat
              then aes_cbc_crypt true (kenc sess) ivc (pad_iso9797_m2 cmd_data)
                   = (true, enc)
              else enc = [])).
  { destruct (0 <? length cmd_data)%nat.
    - destruct (aes_cbc_crypt true (kenc sess) ivc (pad_iso9797_m2 cmd_data))
        as [ok enc]. exists ok, enc. split; [reflexivity|]. now intros ->.
    - exists true, []. split; reflexivity. }
  destruct Henc as (ok & enc & -> & Henc).
  destruct ok; cbn [negb]; [|left; repeat split].
  specialize (Henc eq_refl).
  destruct (aes_cmac (kmac sess) _ (zeros 16)) as [ok cmac] eqn:Emac.
  destruct ok; cbn [negb]; [|left; repeat split].
  destruct (255 <? length cmd_header + length enc + 8)%nat eqn:Elen;
    [left; repeat split|]. apply Nat.ltb_ge in Elen.
  match goal with
  | |- context [transmit w ?a MAX_APDU 0] =>
      pose proof (transmit_sent w a MAX_APDU 0) as Hs;
      destruct (transmit w a MAX_APDU 0) as [w1 [[rc resp] sw]]
  end.
  cbn [fst] in Hs.
  assert (R : forall r : ssm_result,
             sends (r_exit r) = true -> r_wire r = w1 ->
             (sends (r_exit r) = false /\ r_wire r = w /\ r_sw_out r = sw_out) \/
             (sends (r_exit r) = true /\
              exists ivc0 enc0 cmac0,
                authenticated sess <> 0 /\
                (true, ivc) = (true, ivc0) /\
                (if (0 <? length cmd_data)%nat
                 then aes_cbc_crypt true (kenc sess) ivc0
                        (pad_iso9797_m2 cmd_data) = (true, enc0)
                 else enc0 = []) /\
                aes_cmac (kmac sess)
                  ([cmd; u8 (Z.land (cmd_ctr sess) 0xFF);
                    u8 (Z.land (Z.shiftr (cmd_ctr sess) 8) 0xFF)]
                   ++ bytes_at (ti sess) 0 4 ++ cmd_header ++ enc0) (zeros 16)
                  = (true, cmac0) /\
                (length cmd_header + length enc0 + 8 <= 255)%nat /\
                sent (r_wire r) =
                  sent w ++ [[0x90; cmd; 0x00; 0x00;
                              u8 (Z.of_nat (length cmd_header + length enc0 + 8))]
                             ++ cmd_header ++ enc0 ++ cmac_truncate_8 cmac0
                             ++ [0x00]])).
  { intros r Hr Hw. right. split; [exact Hr|].
    exists ivc, enc, cmac. rewrite Hw.
    exact (conj A (conj eq_refl (conj Henc (conj Emac (conj Elen Hs))))). }
  repeat break_match; apply R; reflexivity.
Qed.

Lemma u8_of_nat_small (n : nat) : (n <= 255)%nat -> u8 (Z.of_nat n) = Z.of_nat n.
Proof.
  intros Hn. unfold u8. change 0xFF with (Z.ones 8).
  rewrite Z.land_ones by lia. apply Z.mod_small. lia.
Qed.

Lemma ssm_exit_not_sends_fails (e : ssm_exit) : sends e = false -> ssm_ret e = 0.
Proof. destruct e; cbn; congruence. Qed.

(** X3: a wrap call on a session that is not authenticated, or - within
    the 512-byte arrays [padded], [enc_data] and [mac_input] of lines
    664-688 - for a command whose header, padded data and 8-byte MAC exceed
    the 255 bytes of a short APDU, returns 0 and has put nothing on the
    wire; the session, [*out_len] and [*sw_out] are as before the call. *)
Theorem ssm_cmd_full_refuses_without_sending `{Platform} (w : wire)
    (sess : ssm_session_t) (cmd : Z) (cmd_header cmd_data : list Z)
    (out_len : nat) (sw_out : Z) :
  let enc_len := (if (0 <? length cmd_data)%nat
                  then 16 * (length cmd_data / 16 + 1) else 0)%nat in
  authenticated sess = 0 \/
  ((enc_len <= MAX_APDU)%nat /\
   (7 + length cmd_header + enc_len <= MAX_APDU)%nat /\
   (255 < length cmd_header + enc_len + 8)%nat) ->
  let r := ssm_cmd_full w sess cmd cmd_header cmd_data out_len sw_out in
  ssm_ret (r_exit r) = 0 /\ r_wire r = w /\ r_sess r = sess /\
  r_out_len r = out_len /\ r_sw_out r = sw_out.
Proof.
  cbv zeta. intros Hyp.
  pose proof (ssm_cmd_full_sess w sess cmd cmd_header cmd_data out_len sw_out)
    as Hsess.
  assert (Hlen : ssm_ret (r_exit (ssm_cmd_full w sess cmd cmd_header cmd_data
                                    out_len sw_out)) = 0 ->
                 r_out_len (ssm_cmd_full w sess cmd cmd_header cmd_data
                              out_len sw_out) = out_len).
  { apply ssm_cmd_full_cases; cbn [r_exit r_out_len ssm_ret];
      [reflexivity | discriminate]. }
  destruct (ssm_cmd_full_request w sess cmd cmd_header cmd_data out_len sw_out)
    as [(Hs & Hw & Hsw) | (_ & ivc & enc & cmac & Ha & _ & Henc & _ & Hl & _)].
  - pose proof (ssm_exit_not_sends_fails _ Hs) as Hret.
    refine (conj Hret (conj Hw (conj _ (conj (Hlen Hret) Hsw)))).
    rewrite Hsess.
    destruct (r_exit (ssm_cmd_full w sess cmd cmd_header cmd_data out_len sw_out));
      try reflexivity; discriminate Hs.
  - exfalso. destruct Hyp as [Hyp|(_ & _ & Hyp)]; [contradiction|].
    destruct (0 <? length cmd_data)%nat.
    + apply aes_cbc_crypt_length in Henc. rewrite pad_length_eq in Henc. lia.
    + subst enc. cbn [length] in Hl. lia.
Qed.

(** A call that has put something on the wire has sent the one APDU of
    lines 696-715; the length of its encrypted field follows from the
    data. *)
Lemma ssm_cmd_full_sends `{Platform} (w : wire) (sess : ssm_session_t)
    (cmd : Z) (cmd_header cmd_data : list Z) (out_len : nat) (sw_out : Z) :
  sent (r_wire (ssm_cmd_full w sess cmd cmd_header cmd_data out_len sw_out))
  <> sent w ->
  exists enc cmac,
    length enc = (if (0 <? length cmd_data)%nat
                  then 16 * (length cmd_data / 16 + 1) else 0)%nat /\
    (length cmd_header + length enc + 8 <= 255)%nat /\
    aes_cmac (kmac sess)
      ([cmd; u8 (Z.land (cmd_ctr sess) 0xFF);
        u8 (Z.land (Z.shiftr (cmd_ctr sess) 8) 0xFF)]
       ++ bytes_at (ti sess) 0 4 ++ cmd_header ++ enc) (zeros 16)
      = (true, cmac) /\
    sent (r_wire (ssm_cmd_full w sess cmd cmd_header cmd_data out_len sw_out))
    = sent w ++ [[0x90; cmd; 0x00; 0x00;
                  Z.of_nat (length cmd_header + length enc + 8)]
                 ++ cmd_header ++ enc ++ cmac_truncate_8 cmac ++ [0x00]].
Proof.
  intros Hsent.
  destruct (ssm_cmd_full_request w sess cmd cmd_header cmd_data out_len sw_out)
    as [(_ & Hw & _) | (_ & ivc & enc & cmac & _ & _ & Henc & Hmac & Hl & Hs)].
  { rewrite Hw in Hsent. contradiction. }
  rewrite u8_of_nat_small in Hs by exact Hl.
  exists enc, cmac. refine (conj _ (conj Hl (conj Hmac Hs))).
  destruct (0 <? length cmd_data)%nat.
  - apply aes_cbc_crypt_length in Henc. now rewrite pad_length_eq in Henc.
  - now subst enc.
Qed.

(** X4: the APDU a wrap call sends, when it sends one, is
    90 INS 00 00 Lc || header || E || MACt || 00 where E is empty for a
    command without data and otherwise the AES-CBC encryption, under KENC
    and the IV E(KENC, A5 5A || TI || CmdCtr || 0^8), of the padded data
    (16 * (|data| / 16 + 1) bytes); MACt is the 8 odd-indexed bytes of
    CMAC(KMAC, INS || CmdCtr (LE) || TI || header || E); Lc =
    |header| + |E| + 8 fits one byte, so the APDU has at most 261 bytes. *)
Theorem ssm_cmd_full_apdu `{Platform} (w : wire) (sess : ssm_session_t)
    (cmd : Z) (cmd_header cmd_data : list Z) (out_len : nat) (sw_out : Z) :
  let r := ssm_cmd_full w sess cmd cmd_header cmd_data out_len sw_out in
  sent (r_wire r) <> sent w ->
  exists ivc enc cmac apdu,
    sent (r_wire r) = sent w ++ [apdu] /\
    apdu = [0x90; cmd; 0x00; 0x00;
            Z.of_nat (length cmd_header + length enc + 8)]
           ++ cmd_header ++ enc ++ cmac_truncate_8 cmac ++ [0x00] /\
    (length apdu <= 261)%nat /\
    length enc = (if (0 <? length cmd_data)%nat
                  then 16 * (length cmd_data / 16 + 1) else 0)%nat /\
    aes_ecb_encrypt (kenc sess)
      ([0xA5; 0x5A] ++ bytes_at (ti sess) 0 4
       ++ [cmd_ctr sess mod 256; cmd_ctr sess / 256 mod 256] ++ zeros 8)
      = (true, ivc) /\
    (cmd_data <> [] ->
     aes_cbc_crypt true (kenc sess) ivc (pad_iso9797_m2 cmd_data) = (true, enc)) /\
    aes_cmac (kmac sess)
      ([cmd; cmd_ctr sess mod 256; cmd_ctr sess / 256 mod 256]
       ++ bytes_at (ti sess) 0 4 ++ cmd_header ++ enc) (zeros 16)
      = (true, cmac) /\
    authenticated sess <> 0.
Proof.
  cbv zeta. intros Hsent.
  destruct (ssm_cmd_full_request w sess cmd cmd_header cmd_data out_len sw_out)
    as [(_ & Hw & _) | (_ & ivc & enc & cmac & Ha & Hiv & Henc & Hmac & Hl & Hs)].
  { rewrite Hw in Hsent. contradiction. }
  rewrite u8_of_nat_small in Hs by exact Hl.
  rewrite !u8_land_255 in Hmac. rewrite Z.shiftr_div_pow2 in Hmac by lia.
  change (2 ^ 8) with 256 in Hmac.
  assert (Hiv' : iv_input 0xA5 0x5A (ti sess) (cmd_ctr sess) =
                 [0xA5; 0x5A] ++ bytes_at (ti sess) 0 4
                 ++ [cmd_ctr sess mod 256; cmd_ctr sess / 256 mod 256]
                 ++ zeros 8).
  { unfold iv_input. rewrite !u8_land_255, Z.shiftr_div_pow2 by lia.
    reflexivity. }
  rewrite Hiv' in Hiv.
  assert (Hel : length enc = (if (0 <? length cmd_data)%nat
                              then 16 * (length cmd_data / 16 + 1) else 0)%nat).
  { destruct (0 <? length cmd_data)%nat.
    - apply aes_cbc_crypt_length in Henc. now rewrite pad_length_eq in Henc.
    - now subst enc. }
  eexists ivc, enc, cmac, _.
  refine (conj Hs (conj eq_refl (conj _ (conj Hel (conj Hiv (conj _ (conj Hmac Ha))))))).
  - cbn [app length]. rewrite !length_app, length_cmac_truncate_8.
    cbn [length]. lia.
  - intros Hne. destruct cmd_data as [|b d]; [contradiction|]. exact Henc.
Qed.

Lemma ssm_cmd_full_refuses_without_sending_witness :
  (let r := @ssm_cmd_full sim (fresh_wire []) sess_zero 0xF6 [0x02] [] 16 0 in
   authenticated sess_zero = 0 /\ ssm_ret (r_exit r) = 0 /\
   sent (r_wire r) = []) /\
  (let r := @ssm_cmd_full sim (fresh_wire []) Scenario.sess1 0x8D [0x02]
              (zeros 240) 16 0 in
   authenticated Scenario.sess1 = 1 /\
   (length [0x02] + 16 * (length (zeros 240) / 16 + 1) + 8 = 265)%nat /\
   r_exit r = X_data_len /\ ssm_ret (r_exit r) = 0 /\
   sent (r_wire r) = [] /\ r_sess r = Scenario.sess1).
Proof.
  cbv zeta. split.
  - split; [reflexivity|].
    destruct (@ssm_cmd_full_refuses_without_sending sim (fresh_wire [])
                sess_zero 0xF6 [0x02] [] 16 0 (or_introl eq_refl))
      as (Hr & Hw & _).
    split; [exact Hr|]. rewrite Hw. reflexivity.
  - assert (Hb : (16 * (length (zeros 240) / 16 + 1) <= MAX_APDU)%nat /\
                 (7 + length [0x02] + 16 * (length (zeros 240) / 16 + 1)
                  <= MAX_APDU)%nat /\
                 (255 < length [0x02] + 16 * (length (zeros 240) / 16 + 1)
                        + 8)%nat).
    { vm_compute. lia. }
    destruct (@ssm_cmd_full_refuses_without_sending sim (fresh_wire [])
                Scenario.sess1 0x8D [0x02] (zeros 240) 16 0 (or_intror Hb))
      as (Hr & Hw & Hs & _).
    split; [reflexivity|]. split; [reflexivity|].
    split; [vm_compute; reflexivity|].
    split; [exact Hr|]. split; [rewrite Hw; reflexivity | exact Hs].
Defined.

Lemma ssm_cmd_full_apdu_witness :
  let r := read_counter Scenario.resp_ok Scenario.sess1 in
  sent (r_wire r) <> [] /\
  exists mact, sent (r_wire r) = [[0x90; 0xF6; 0x00; 0x00; 0x09; 0x02] ++ mact ++ [0x00]].
Proof.
  cbv zeta.
  assert (Hne : sent (r_wire (read_counter Scenario.resp_ok Scenario.sess1)) <> []).
  { assert (Hl : length (sent (r_wire (read_counter Scenario.resp_ok
                                         Scenario.sess1))) = 1%nat)
      by (vm_compute; reflexivity).
    intros E. rewrite E in Hl. discriminate Hl. }
  split; [exact Hne|].
  destruct (@ssm_cmd_full_apdu sim (fresh_wire [(SCARD_S_SUCCESS, Scenario.resp_ok)])
              Scenario.sess1 0xF6 [0x02] [] 16 0 Hne)
    as (ivc & enc & cmac & apdu & Hs & Ha & _ & Hl & _).
  cbn in Hl. destruct enc; [|discriminate Hl].
  exists (cmac_truncate_8 cmac). rewrite Hs, Ha. reflexivity.
Defined.

(** ** Secure messaging: the response *)

(** Case analysis on a call, with what the successful exit copies out. *)
Lemma ssm_cmd_full_cases_out `{Platform} (w : wire) (sess : ssm_session_t)
    (cmd : Z) (cmd_header cmd_data : list Z) (out_len : nat) (sw_out : Z)
    (P : ssm_result -> Prop) :
  (forall e w' sw', e <> X_ok ->
     P {| r_wire := w'; r_exit := e; r_sess := sess; r_out := [];
          r_out_len := out_len; r_sw_out := sw' |}) ->
  (forall w' dec n sw', (n <= out_len)%nat ->
     P {| r_wire := w'; r_exit := X_ok;
          r_sess := set_cmd_ctr sess (u16 (cmd_ctr sess + 1));
          r_out := bytes_at dec 0 n; r_out_len := n; r_sw_out := sw' |}) ->
  P (ssm_cmd_full w sess cmd cmd_header cmd_data out_len sw_out).
Proof.
  intros Hfail Hok. unfold ssm_cmd_full.
  repeat break_match; try (apply Hfail; discriminate).
  all: apply Hok.
  all: match goal with
       | Hc : (?a <? ?b)%nat = false |- (?b <= ?a)%nat =>
           apply Nat.ltb_ge in Hc; exact Hc
       end.
Qed.

(** X5: a wrap call never hands back more than the caller's buffer holds:
    the [*out_len] it leaves is at most the [*out_len] it was given; a
    successful call has copied exactly that many bytes to [out], a failing
    call has copied nothing and has left [*out_len] alone. *)
Theorem ssm_cmd_full_out_bounds `{Platform} (w : wire) (sess : ssm_session_t)
    (cmd : Z) (cmd_header cmd_data : list Z) (out_len : nat) (sw_out : Z) :
  let r := ssm_cmd_full w sess cmd cmd_header cmd_data out_len sw_out in
  (r_out_len r <= out_len)%nat /\
  (length (r_out r) <= out_len)%nat /\
  ((ssm_ret (r_exit r) = 1 /\ length (r_out r) = r_out_len r) \/
   (ssm_ret (r_exit r) = 0 /\ r_out r = [] /\ r_out_len r = out_len)).
Proof.
  cbv zeta. apply ssm_cmd_full_cases_out;
    cbn [r_out_len r_out r_exit ssm_ret length].
  - intros e _ _ He. split; [lia|]. split; [lia|]. right.
    destruct e; try contradiction; repeat split.
  - intros _ dec n _ Hn. rewrite length_bytes_at.
    split; [exact Hn|]. split; [exact Hn|]. left. split; reflexivity.
Qed.

Lemma u16_mod (x : Z) : u16 x = x mod 65536.
Proof. unfold u16. change 0xFFFF with (Z.ones 16). now rewrite Z.land_ones by lia. Qed.

(** X6: over any sequence of wrap calls on one session, CmdCtr ends at its
    initial value plus the number of calls that returned 1, modulo 2^16
    (after 65536 successful commands it is back where it started: the
    source has no upper limit); the keys, TI, KeyNo and the Authenticated
    flag are those of the handshake throughout, and each call has sent at
    most one APDU. *)
Theorem cmd_ctr_counts_successes `{Platform}
    (calls : list (Z * list Z * list Z * nat)) (w : wire) (sess : ssm_session_t) :
  0 <= cmd_ctr sess < 65536 ->
  let '(w', sess', n) := ssm_cmd_seq w sess calls in
  cmd_ctr sess' = (cmd_ctr sess + Z.of_nat n) mod 65536 /\
  (n <= length calls)%nat /\
  kenc sess' = kenc sess /\ kmac sess' = kmac sess /\ ti sess' = ti sess /\
  key_no sess' = key_no sess /\ authenticated sess' = authenticated sess /\
  (length (sent w') <= length (sent w) + length calls)%nat.
Proof.
  revert w sess. induction calls as [|[[[cmd hdr] data] olen] rest IH];
    intros w sess Hc.
  - cbn [ssm_cmd_seq length]. rewrite Z.add_0_r, Z.mod_small by lia.
    repeat split; lia.
  - cbn [ssm_cmd_seq length].
    pose proof (ssm_cmd_full_sess w sess cmd hdr data olen 0) as Hs.
    pose proof (ssm_cmd_full_sent w sess cmd hdr data olen 0) as Hw.
    cbv zeta in Hw.
    set (r := ssm_cmd_full w sess cmd hdr data olen 0) in *.
    assert (Hc' : 0 <= cmd_ctr (r_sess r) < 65536).
    { rewrite Hs. destruct (r_exit r); try exact Hc.
      cbn [set_cmd_ctr cmd_ctr]. rewrite u16_mod.
      apply Z.mod_pos_bound. lia. }
    specialize (IH (r_wire r) (r_sess r) Hc').
    destruct (ssm_cmd_seq (r_wire r) (r_sess r) rest) as [[w' s'] n].
    destruct IH as (Ic & In' & Ik & Im & It & Ino & Ia & Il).
    assert (Hlen : (length (sent (r_wire r)) <= length (sent w) + 1)%nat).
    { destruct Hw as [-> | (e & m & ->)]; [lia|].
      rewrite length_app. cbn [length]. lia. }
    rewrite Ic, Ik, Im, It, Ino, Ia, Hs.
    destruct (r_exit r); cbn [ssm_ret Z.eqb Pos.eqb set_cmd_ctr cmd_ctr kenc kmac ti
                              key_no authenticated];
      try (repeat split; try lia; f_equal; lia).
    rewrite u16_mod. repeat split; try lia.
    rewrite Zplus_mod_idemp_l. f_equal. lia.
Qed.

Lemma cmd_ctr_counts_successes_witness :
  let calls := [(0xF5, [0x02], [], 128%nat); (0xF6, [0x02], [], 16%nat)] in
  let run := @ssm_cmd_seq sim
               (fresh_wire [(SCARD_S_SUCCESS, resp_settings);
                            (SCARD_S_SUCCESS, resp_counter2)])
               Scenario.sess1 calls in
  0 <= cmd_ctr Scenario.sess1 < 65536 /\
  snd run = 2%nat /\ cmd_ctr (snd (fst run)) = 2.
Proof.
  cbv zeta.
  assert (Hc : 0 <= cmd_ctr Scenario.sess1 < 65536) by (cbn; lia).
  split; [exact Hc|].
  assert (Hn : snd (@ssm_cmd_seq sim
               (fresh_wire [(SCARD_S_SUCCESS, resp_settings);
                            (SCARD_S_SUCCESS, resp_counter2)])
               Scenario.sess1
               [(0xF5, [0x02], [], 128%nat); (0xF6, [0x02], [], 16%nat)])
             = 2%nat) by (vm_compute; reflexivity).
  split; [exact Hn|].
  pose proof (@cmd_ctr_counts_successes sim
                [(0xF5, [0x02], [], 128%nat); (0xF6, [0x02], [], 16%nat)]
                (fresh_wire [(SCARD_S_SUCCESS, resp_settings);
                             (SCARD_S_SUCCESS, resp_counter2)])
                Scenario.sess1 Hc) as T.
  destruct (@ssm_cmd_seq sim _ Scenario.sess1 _) as [[w' s'] n].
  cbn [snd fst] in *. destruct T as (T & _). rewrite T, Hn. reflexivity.
Defined.

(** ** Secure messaging: the APDUs of the three wrapped commands *)

Lemma length_upd (i : nat) (v : Z) (l : list Z) : length (upd i v l) = length l.
Proof.
  revert i. induction l as [|a l IH]; intros [|i]; cbn [upd length]; auto.
Qed.

Lemma length_change_key_data (old_key new_key : list Z) (key_ver : Z) :
  length (change_key_data old_key new_key key_ver) = 21%nat.
Proof.
  unfold change_key_data. rewrite !length_upd.
  assert (G : forall l init, length (fold_left
               (fun kd i => upd i (Z.lxor (rd new_key i) (rd old_key i)) kd)
               l init) = length init).
  { induction l as [|i l IH]; intros init; cbn [fold_left]; [reflexivity|].
    now rewrite IH, length_upd. }
  rewrite G. reflexivity.
Qed.

Lemma length_write_u24_le (v : Z) : length (write_u24_le v) = 3%nat.
Proof. reflexivity. Qed.

Lemma length_change_file_settings_sdm_data (comm_mode ar1 ar2 sdm_options
    sdm_meta sdm_file sdm_ctr uid_offset sdm_read_ctr_offset
    sdm_mac_input_offset sdm_mac_offset : Z) :
  length (change_file_settings_sdm_data comm_mode ar1 ar2 sdm_options
            sdm_meta sdm_file sdm_ctr uid_offset sdm_read_ctr_offset
            sdm_mac_input_offset sdm_mac_offset) =
  (6 + (if (negb (Z.land sdm_options 0x80 =? 0) && (sdm_meta =? 0x0E))%Z
        then 3 else 0)
     + (if (negb (Z.land sdm_options 0x40 =? 0) && (sdm_meta =? 0x0E))%Z
        then 3 else 0)
     + (if (negb (sdm_file =? 0x0F))%Z then 6 else 0))%nat.
Proof.
  unfold change_file_settings_sdm_data.
  destruct (negb (Z.land sdm_options 0x80 =? 0) && (sdm_meta =? 0x0E));
    destruct (negb (Z.land sdm_options 0x40 =? 0) && (sdm_meta =? 0x0E));
    destruct (negb (sdm_file =? 0x0F));
    rewrite ?length_app, ?length_write_u24_le; reflexivity.
Qed.

(** X7: [get_file_settings_secure] sends no encrypted field: the APDU it
    puts on the wire, when it sends one, is the 15 bytes
    90 F5 00 00 09 || FileNo || MACt(8) || 00, where MACt is the truncated
    CMAC, under KMAC, over F5 || CmdCtr (LE) || TI || FileNo. *)
Theorem get_file_settings_secure_apdu `{Platform} (w : wire)
    (sess : ssm_session_t) (file_no : Z) (out_len : nat) (sw_out : Z) :
  let r := get_file_settings_secure w sess file_no out_len sw_out in
  sent (r_wire r) <> sent w ->
  exists cmac,
    aes_cmac (kmac sess)
      ([0xF5; cmd_ctr sess mod 256; cmd_ctr sess / 256 mod 256]
       ++ bytes_at (ti sess) 0 4 ++ [file_no]) (zeros 16) = (true, cmac) /\
    sent (r_wire r) =
      sent w ++ [[0x90; 0xF5; 0x00; 0x00; 0x09; file_no]
                 ++ cmac_truncate_8 cmac ++ [0x00]] /\
    length ([0x90; 0xF5; 0x00; 0x00; 0x09; file_no]
            ++ cmac_truncate_8 cmac ++ [0x00]) = 15%nat.
Proof.
  cbv zeta. unfold get_file_settings_secure. intros Hsent.
  destruct (ssm_cmd_full_sends w sess 0xF5 [file_no] [] out_len sw_out Hsent)
    as (enc & cmac & Hl & _ & Hmac & Hs).
  cbn in Hl. destruct enc; [|discriminate Hl].
  rewrite !u8_land_255, Z.shiftr_div_pow2 in Hmac by lia.
  change (2 ^ 8) with 256 in Hmac.
  exists cmac. rewrite Hs. split; [exact Hmac|]. split; [reflexivity|].
  rewrite length_app, length_app, length_cmac_truncate_8. reflexivity.
Qed.

Lemma get_file_settings_secure_apdu_witness :
  let r := @get_file_settings_secure sim
             (fresh_wire [(SCARD_S_SUCCESS, resp_settings)])
             Scenario.sess1 0x02 128 0 in
  exists mact, sent (r_wire r) = [[0x90; 0xF5; 0x00; 0x00; 0x09; 0x02]
                                  ++ mact ++ [0x00]].
Proof.
  cbv zeta.
  assert (Hne : sent (r_wire (@get_file_settings_secure sim
             (fresh_wire [(SCARD_S_SUCCESS, resp_settings)])
             Scenario.sess1 0x02 128 0)) <> []).
  { assert (Hl : length (sent (r_wire (@get_file_settings_secure sim
             (fresh_wire [(SCARD_S_SUCCESS, resp_settings)])
             Scenario.sess1 0x02 128 0))) = 1%nat)
      by (vm_compute; reflexivity).
    intros E. rewrite E in Hl. discriminate Hl. }
  destruct (@get_file_settings_secure_apdu sim
              (fresh_wire [(SCARD_S_SUCCESS, resp_settings)])
              Scenario.sess1 0x02 128 0 Hne) as (cmac & _ & Hs & _).
  exists (cmac_truncate_8 cmac). exact Hs.
Defined.

(** X8: the ChangeKey APDU, for any two keys and key version: the 21-byte
    key data is padded to 32 bytes, so the APDU [change_key] sends, when it
    sends one, is the 47 bytes 90 C4 00 00 29 || KeyNo || E(32) || MACt(8)
    || 00. *)
Theorem change_key_apdu `{Platform} (w : wire) (sess : ssm_session_t)
    (key_no : Z) (old_key new_key : list Z) (key_ver : Z) (sw_out : Z) :
  let r := change_key w sess key_no old_key new_key key_ver sw_out in
  sent (r_wire r) <> sent w ->
  exists enc mact,
    length enc = 32%nat /\ length mact = 8%nat /\
    sent (r_wire r) =
      sent w ++ [[0x90; 0xC4; 0x00; 0x00; 0x29; key_no]
                 ++ enc ++ mact ++ [0x00]].
Proof.
  cbv zeta. unfold change_key. intros Hsent.
  destruct (ssm_cmd_full_sends w sess 0xC4 [key_no]
              (change_key_data old_key new_key key_ver) 16 sw_out Hsent)
    as (enc & cmac & Hl & _ & _ & Hs).
  rewrite length_change_key_data in Hl. cbn in Hl.
  exists enc, (cmac_truncate_8 cmac).
  split; [exact Hl|]. split; [apply length_cmac_truncate_8|].
  rewrite Hs, Hl. reflexivity.
Qed.

Lemma change_key_apdu_witness :
  let r := @change_key sim (fresh_wire []) Scenario.sess1 0x01 (zeros 16)
             Scenario.RndA 0x01 0 in
  exists enc mact,
    length enc = 32%nat /\ length mact = 8%nat /\
    sent (r_wire r) = [[0x90; 0xC4; 0x00; 0x00; 0x29; 0x01]
                       ++ enc ++ mact ++ [0x00]].
Proof.
  cbv zeta.
  assert (Hne : sent (r_wire (@change_key sim (fresh_wire []) Scenario.sess1
                                0x01 (zeros 16) Scenario.RndA 0x01 0)) <> []).
  { assert (Hl : length (sent (r_wire (@change_key sim (fresh_wire [])
                   Scenario.sess1 0x01 (zeros 16) Scenario.RndA 0x01 0)))
                 = 1%nat) by (vm_compute; reflexivity).
    intros E. rewrite E in Hl. discriminate Hl. }
  exact (@change_key_apdu sim (fresh_wire []) Scenario.sess1 0x01 (zeros 16)
           Scenario.RndA 0x01 0 Hne).
Defined.

(** X9: the ChangeFileSettings payload [change_file_settings_sdm] builds
    has 6 bytes plus 3 for each of the UID and counter offsets it includes
    and 6 for the two MAC offsets, 18 at most (it fits the 64-byte array of
    the source); the cryptogram is therefore one or two blocks and the
    APDU, when one is sent, is 90 5F 00 00 Lc || FileNo || E || MACt || 00
    with Lc = 25 or 41. *)
Theorem change_file_settings_sdm_apdu `{Platform} (w : wire)
    (sess : ssm_session_t) (file_no comm_mode ar1 ar2 sdm_options
    sdm_meta sdm_file sdm_ctr uid_offset sdm_read_ctr_offset
    sdm_mac_input_offset sdm_mac_offset : Z) (sw_out : Z) :
  let data := change_file_settings_sdm_data comm_mode ar1 ar2 sdm_options
                sdm_meta sdm_file sdm_ctr uid_offset sdm_read_ctr_offset
                sdm_mac_input_offset sdm_mac_offset in
  let r := change_file_settings_sdm w sess file_no comm_mode ar1 ar2
             sdm_options sdm_meta sdm_file sdm_ctr uid_offset
             sdm_read_ctr_offset sdm_mac_input_offset sdm_mac_offset sw_out in
  sent (r_wire r) <> sent w ->
  (6 <= length data <= 18)%nat /\
  exists enc mact,
    length enc = (if (length data <? 16)%nat then 16 else 32)%nat /\
    length mact = 8%nat /\
    sent (r_wire r) =
      sent w ++ [[0x90; 0x5F; 0x00; 0x00;
                  if (length data <? 16)%nat then 25 else 41; file_no]
                 ++ enc ++ mact ++ [0x00]].
Proof.
  cbv zeta. unfold change_file_settings_sdm. intros Hsent.
  pose proof (length_change_file_settings_sdm_data comm_mode ar1 ar2
                sdm_options sdm_meta sdm_file sdm_ctr uid_offset
                sdm_read_ctr_offset sdm_mac_input_offset sdm_mac_offset) as Hd.
  destruct (ssm_cmd_full_sends w sess 0x5F [file_no] _ 16 sw_out Hsent)
    as (enc & cmac & Hl & _ & _ & Hs).
  set (data := change_file_settings_sdm_data comm_mode ar1 ar2 sdm_options
                 sdm_meta sdm_file sdm_ctr uid_offset sdm_read_ctr_offset
                 sdm_mac_input_offset sdm_mac_offset) in *.
  assert (Hb : (6 <= length data <= 18)%nat).
  { rewrite Hd.
    destruct (negb (Z.land sdm_options 0x80 =? 0) && (sdm_meta =? 0x0E));
      destruct (negb (Z.land sdm_options 0x40 =? 0) && (sdm_meta =? 0x0E));
      destruct (negb (sdm_file =? 0x0F)); lia. }
  split; [exact Hb|].
  assert (Hpos : (0 <? length data)%nat = true) by (apply Nat.ltb_lt; lia).
  rewrite Hpos in Hl.
  assert (He : length enc = (if (length data <? 16)%nat then 16 else 32)%nat).
  { rewrite Hl. destruct (Nat.ltb_spec (length data) 16) as [Lt|Ge].
    - rewrite Nat.div_small by exact Lt. reflexivity.
    - replace (length data) with ((length data - 16) + 1 * 16)%nat by lia.
      rewrite Nat.div_add, Nat.div_small by lia. reflexivity. }
  exists enc, (cmac_truncate_8 cmac).
  split; [exact He|]. split; [apply length_cmac_truncate_8|].
  rewrite Hs, He. destruct (length data <? 16)%nat; reflexivity.
Qed.

Lemma change_file_settings_sdm_apdu_witness :
  let r := @change_file_settings_sdm sim (fresh_wire []) Scenario.sess1
             0x02 0x00 0xE0 0xEE 0xC1 0x0E 0x01 0x01 27 46 23 57 0 in
  exists enc mact,
    length enc = 32%nat /\ length mact = 8%nat /\
    sent (r_wire r) = [[0x90; 0x5F; 0x00; 0x00; 41; 0x02]
                       ++ enc ++ mact ++ [0x00]].
Proof.
  cbv zeta.
  assert (Hne : sent (r_wire (@change_file_settings_sdm sim (fresh_wire [])
             Scenario.sess1 0x02 0x00 0xE0 0xEE 0xC1 0x0E 0x01 0x01
             27 46 23 57 0)) <> []).
  { assert (Hl : length (sent (r_wire (@change_file_settings_sdm sim
             (fresh_wire []) Scenario.sess1 0x02 0x00 0xE0 0xEE 0xC1 0x0E
             0x01 0x01 27 46 23 57 0))) = 1%nat) by (vm_compute; reflexivity).
    intros E. rewrite E in Hl. discriminate Hl. }
  destruct (@change_file_settings_sdm_apdu sim (fresh_wire []) Scenario.sess1
              0x02 0x00 0xE0 0xEE 0xC1 0x0E 0x01 0x01 27 46 23 57 0 Hne)
    as (_ & enc & mact & He & Hm & Hs).
  exists enc, mact. exact (conj He (conj Hm Hs)).
Defined.

(** ** EV2-First: what the host checks, and what a failure leaves *)

Lemma memcmp_eq_true (a b : list Z) (n : nat) :
  length a = n -> length b = n -> memcmp_eq a b n = true -> a = b.
Proof.
  intros Ha Hb Hm. unfold memcmp_eq in Hm.
  rewrite forallb_forall in Hm.
  apply nth_ext with (d := 0) (d' := 0); [congruence|].
  intros i Hi. apply Z.eqb_eq. apply (Hm i). apply in_seq. lia.
Qed.

Lemma length_rotate_left_1 (x : list Z) (n : nat) : length (rotate_left_1 x n) = n.
Proof.
  unfold rotate_left_1. destruct (Nat.eqb_spec n 0) as [->|N]; [reflexivity|].
  rewrite length_app, length_bytes_at. cbn [length]. lia.
Qed.

Lemma length_rotate_right_1 (x : list Z) (n : nat) : length (rotate_right_1 x n) = n.
Proof.
  unfold rotate_right_1. destruct (Nat.eqb_spec n 0) as [->|N]; [reflexivity|].
  cbn [length]. rewrite length_bytes_at. lia.
Qed.

Lemma rotate_left_of_right (x : list Z) (n : nat) :
  length x = n -> rotate_left_1 (rotate_right_1 x n) n = x.
Proof.
  intros <-. destruct x as [|a t]; [reflexivity|].
  destruct (exists_last (l := a :: t) ltac:(discriminate)) as (f & l & E).
  assert (Lf : length (a :: t) = S (length f)).
  { rewrite E, length_app. simpl. lia. }
  rewrite Lf, E, rotate_right_1_snoc. apply rotate_left_1_cons.
Qed.

(** X10: a handshake returns 1 only if the card has proved that it holds
    the key: the host has sent 90 AF 00 00 20 || E(K, RndA || RndB') || 00,
    with RndB' the decrypted card nonce rotated left by one byte, and the
    32-byte answer (status 0x9100) decrypts, under K with a zero IV, to
    TI || RndA' || ... with RndA' equal to RndA rotated left by one byte.
    The session then holds that TI, CmdCtr = 0, the key number and
    Authenticated = 1, and exactly two APDUs have been sent. *)
Theorem ev2_first_checks_card `{Platform} (w : wire) (key : list Z) (kno : Z)
    (rndA : list Z) (s0 : ssm_session_t) (w' : wire) (sess : ssm_session_t) :
  length rndA = 16%nat ->
  authenticate_ev2_first w key kno rndA s0 = (w', (1, sess)) ->
  exists w1 body1 rndB enc body2 dec,
    transmit w [0x90; 0x71; 0x00; 0x00; 0x02; kno; 0x00; 0x00] MAX_APDU 0
      = (w1, (SCARD_S_SUCCESS, body1, 0x91AF)) /\
    aes_cbc_crypt false key (zeros 16) body1 = (true, rndB) /\
    aes_cbc_crypt true key (zeros 16) (rndA ++ rotate_left_1 rndB 16)
      = (true, enc) /\
    transmit w1 ([0x90; 0xAF; 0x00; 0x00; 0x20] ++ enc ++ [0x00]) MAX_APDU 0x91AF
      = (w', (SCARD_S_SUCCESS, body2, 0x9100)) /\
    length body2 = 32%nat /\
    aes_cbc_crypt false key (zeros 16) body2 = (true, dec) /\
    bytes_at dec 4 16 = rotate_left_1 rndA 16 /\
    ti sess = bytes_at dec 0 4 /\ cmd_ctr sess = 0 /\ key_no sess = kno /\
    authenticated sess = 1 /\
    sent w' = sent w ++ [[0x90; 0x71; 0x00; 0x00; 0x02; kno; 0x00; 0x00];
                         [0x90; 0xAF; 0x00; 0x00; 0x20] ++ enc ++ [0x00]].
Proof.
  intros HA. unfold authenticate_ev2_first.
  repeat break_match; try (intros [= ? ?]; discriminate).
  intros [= <- <-].
  repeat match goal with
         | Hn : negb _ = true |- _ => apply negb_true_iff in Hn
         | Hn : negb _ = false |- _ => apply negb_false_iff in Hn
         | Hn : _ || _ = false |- _ => apply orb_false_iff in Hn as [? ?]
         end.
  repeat match goal with
         | Hb : ?b = true |- _ => is_var b; subst b
         | Hz : (_ =? _) = true |- _ => apply Z.eqb_eq in Hz
         | Hz : (_ =? _)%nat = true |- _ => apply Nat.eqb_eq in Hz
         end.
  subst.
  lazymatch goal with
  | Ht1 : transmit w ?a1 _ _ = (?w1, (_, ?b1, _)),
    Hl1 : length ?b1 = 16%nat,
    Hd1 : aes_cbc_crypt false key _ (bytes_at ?b1 0 16) = (true, ?rb),
    He : aes_cbc_crypt true key _ _ = (true, ?enc),
    Ht2 : transmit ?w1 _ _ _ = (?w2, (_, ?b2, _)),
    Hl2 : length ?b2 = 32%nat,
    Hd2 : aes_cbc_crypt false key _ (bytes_at ?b2 0 32) = (true, ?dec),
    Hm : memcmp_eq _ rndA 16 = true |- _ =>
      rewrite (bytes_at_all _ _ Hl1) in Hd1;
      rewrite (bytes_at_all _ _ Hl2) in Hd2;
      rewrite (bytes_at_all _ _ HA) in He;
      rewrite (bytes_at_all _ _ (length_rotate_left_1 rb 16)) in He;
      pose proof (aes_cbc_crypt_length _ _ _ _ _ He) as Hle;
      rewrite length_app, HA, length_rotate_left_1 in Hle;
      change (16 + 16)%nat with 32%nat in Hle;
      rewrite (bytes_at_all _ _ Hle) in Ht2;
      apply memcmp_eq_true in Hm;
        [|apply length_rotate_right_1 | exact HA];
      pose proof (transmit_sent w a1 MAX_APDU 0) as Hs1;
      rewrite Ht1 in Hs1; cbn [fst] in Hs1;
      pose proof (transmit_sent w1
                    ([0x90; 0xAF; 0x00; 0x00; 0x20] ++ enc ++ [0x00])
                    MAX_APDU 0x91AF) as Hs2;
      rewrite Ht2 in Hs2; cbn [fst] in Hs2;
      exists w1, b1, rb, enc, b2, dec;
      split; [reflexivity|]; split; [exact Hd1|]; split; [exact He|];
      split; [exact Ht2|]; split; [exact Hl2|]; split; [exact Hd2|];
      split; [rewrite <- Hm; symmetry; apply rotate_left_of_right;
              apply length_bytes_at|];
      cbn [ti cmd_ctr key_no authenticated];
      split; [reflexivity|]; split; [reflexivity|]; split; [reflexivity|];
      split; [reflexivity|];
      rewrite Hs2, Hs1, <- app_assoc; reflexivity
  end.
Qed.

Lemma ev2_first_checks_card_witness :
  length Scenario.RndA = 16%nat /\
  ev2_run = (fst ev2_run, (1, Scenario.sess1)) /\
  length (sent (fst ev2_run)) = 2%nat /\
  ti Scenario.sess1 = Scenario.TI.
Proof.
  assert (Hrun : ev2_run = (fst ev2_run, (1, Scenario.sess1))).
  { transitivity (fst ev2_run, snd ev2_run); [apply surjective_pairing|].
    apply f_equal. vm_compute. reflexivity. }
  split; [reflexivity|]. split; [exact Hrun|].
  destruct (@ev2_first_checks_card sim (fresh_wire Scenario.ev2_script)
              Scenario.K 0x00 Scenario.RndA sess_zero
              (fst ev2_run) Scenario.sess1 eq_refl Hrun)
    as (w1 & b1 & rb & enc & b2 & dec & _ & _ & _ & _ & _ & _ & _ & _ & _ & _
        & _ & Hs).
  split; [rewrite Hs; reflexivity | reflexivity].
Defined.

(** X11: a handshake that returns 0 never opens the session: the
    Authenticated flag, TI, CmdCtr and KeyNo of [*sess] are as before the
    call, so on the zeroed session [main] starts from, every later wrap
    call returns 0 and sends nothing. *)
Theorem ev2_first_failure_keeps_session_closed `{Platform} (w : wire)
    (key : list Z) (kno : Z) (rndA : list Z) (s0 : ssm_session_t) (w' : wire)
    (sess : ssm_session_t) (cmd : Z) (cmd_header cmd_data : list Z)
    (out_len : nat) (sw_out : Z) :
  authenticated s0 = 0 ->
  authenticate_ev2_first w key kno rndA s0 = (w', (0, sess)) ->
  authenticated sess = 0 /\ ti sess = ti s0 /\ cmd_ctr sess = cmd_ctr s0 /\
  key_no sess = key_no s0 /\
  let r := ssm_cmd_full w' sess cmd cmd_header cmd_data out_len sw_out in
  ssm_ret (r_exit r) = 0 /\ r_wire r = w' /\ r_sess r = sess.
Proof.
  intros H0 Hrun.
  assert (Hf : authenticated sess = authenticated s0 /\ ti sess = ti s0 /\
               cmd_ctr sess = cmd_ctr s0 /\ key_no sess = key_no s0).
  { revert Hrun. unfold authenticate_ev2_first.
    repeat break_match; intros [= <- <-]; repeat split. }
  destruct Hf as (Ha & Ht & Hc & Hk). rewrite H0 in Ha.
  refine (conj Ha (conj Ht (conj Hc (conj Hk _)))). cbv zeta.
  pose proof (proj2 (ssm_cmd_full_not_authenticated w' sess cmd cmd_header
                       cmd_data out_len sw_out) Ha) as Hx.
  pose proof (ssm_cmd_full_sess w' sess cmd cmd_header cmd_data out_len sw_out)
    as Hs.
  destruct (ssm_cmd_full_request w' sess cmd cmd_header cmd_data out_len sw_out)
    as [(_ & Hw & _) | (Hsend & _)].
  - rewrite Hx in *. exact (conj eq_refl (conj Hw Hs)).
  - rewrite Hx in Hsend. discriminate Hsend.
Qed.

Lemma ev2_first_failure_keeps_session_closed_witness :
  let run := @authenticate_ev2_first sim (fresh_wire []) Scenario.K 0x00
               Scenario.RndA sess_zero in
  fst (snd run) = 0 /\
  ssm_ret (r_exit (@ssm_cmd_full sim (fst run) (snd (snd run))
                     0xF6 [0x02] [] 16 0)) = 0.
Proof.
  cbv zeta.
  assert (Hret : fst (snd (@authenticate_ev2_first sim (fresh_wire [])
                             Scenario.K 0x00 Scenario.RndA sess_zero)) = 0)
    by (vm_compute; reflexivity).
  split; [exact Hret|].
  assert (Hrun : @authenticate_ev2_first sim (fresh_wire []) Scenario.K 0x00
                   Scenario.RndA sess_zero
                 = (fst (@authenticate_ev2_first sim (fresh_wire [])
                           Scenario.K 0x00 Scenario.RndA sess_zero),
                    (0, snd (snd (@authenticate_ev2_first sim (fresh_wire [])
                                    Scenario.K 0x00 Scenario.RndA sess_zero))))).
  { rewrite <- Hret at 3. rewrite <- !surjective_pairing. reflexivity. }
  exact (proj1 (proj2 (proj2 (proj2 (proj2
           (@ev2_first_failure_keeps_session_closed sim (fresh_wire [])
              Scenario.K 0x00 Scenario.RndA sess_zero _ _
              0xF6 [0x02] [] 16%nat 0 eq_refl Hrun)))))).
Defined.

(** ** The SDM NDEF template: search, prefix, layout *)

Lemma memcmp_eq_iff (a b : list Z) (n : nat) :
  length a = n -> length b = n -> memcmp_eq a b n = true <-> a = b.
Proof.
  intros Ha Hb. split; [now apply memcmp_eq_true|].
  intros <-. unfold memcmp_eq. apply forallb_forall.
  intros i _. apply Z.eqb_refl.
Qed.

Lemma find_from_spec (buf needle : list Z) (cnt i : nat) :
  match find_from buf needle cnt i with
  | Some p =>
      (i <= p < i + cnt)%nat /\ bytes_at buf p (length needle) = needle /\
      forall q, (i <= q < p)%nat -> bytes_at buf q (length needle) <> needle
  | None =>
      forall q, (i <= q < i + cnt)%nat -> bytes_at buf q (length needle) <> needle
  end.
Proof.
  revert i. induction cnt as [|cnt IH]; intros i; cbn [find_from].
  - intros q Hq. lia.
  - destruct (memcmp_eq (bytes_at buf i (length needle)) needle (length needle))
      eqn:Em.
    + apply memcmp_eq_iff in Em; [|apply length_bytes_at | reflexivity].
      split; [lia|]. split; [exact Em|]. intros q Hq. lia.
    + assert (Hne : bytes_at buf i (length needle) <> needle).
      { intros E. apply (memcmp_eq_iff _ _ (length needle)) in E;
          [congruence | apply length_bytes_at | reflexivity]. }
      specialize (IH (S i)). destruct (find_from buf needle cnt (S i)) as [p|].
      * destruct IH as (Hp & Hm & Hfirst). split; [lia|]. split; [exact Hm|].
        intros q Hq. destruct (Nat.eq_dec q i) as [->|N]; [exact Hne|].
        apply Hfirst. lia.
      * intros q Hq. destruct (Nat.eq_dec q i) as [->|N]; [exact Hne|].
        apply IH. lia.
Qed.

(** X12: [find_substr] returns the first position at which the needle
    occurs inside the first [len] bytes of the buffer, and fails exactly
    when the needle is empty or occurs at no position that leaves room for
    it. *)
Theorem find_substr_first_match (buf : list Z) (len : nat) (needle : list Z) :
  match find_substr buf len needle with
  | Some p =>
      needle <> [] /\ (p + length needle <= len)%nat /\
      bytes_at buf p (length needle) = needle /\
      forall q, (q < p)%nat -> bytes_at buf q (length needle) <> needle
  | None =>
      needle = [] \/
      forall q, (q + length needle <= len)%nat ->
                bytes_at buf q (length needle) <> needle
  end.
Proof.
  unfold find_substr.
  destruct (Nat.eqb_spec (length needle) 0) as [E0|N0]; cbn [orb].
  { left. now apply length_zero_iff_nil. }
  destruct (Nat.ltb_spec len (length needle)) as [Lt|Ge].
  { right. intros q Hq. lia. }
  pose proof (find_from_spec buf needle (len - length needle + 1) 0) as Hf.
  destruct (find_from buf needle (len - length needle + 1) 0) as [p|].
  - destruct Hf as (Hp & Hm & Hfirst).
    split; [intros ->; apply N0; reflexivity|]. split; [lia|].
    split; [exact Hm|]. intros q Hq. apply Hfirst. lia.
  - right. intros q Hq. apply Hf. lia.
Qed.

(** The test of the prefix loop, [strncmp(url, prefix, plen) == 0] on a
    URL of at least [plen] characters: the prefix is at the head of the
    URL. *)
Lemma memcmp_prefix (url p : list Z) :
  ((length p <=? length url)%nat && memcmp_eq url p (length p)) = true <->
  firstn (length p) url = p.
Proof.
  rewrite andb_true_iff, Nat.leb_le. unfold memcmp_eq.
  rewrite forallb_forall. split.
  - intros [Hl Hm]. apply nth_ext with (d := 0) (d' := 0).
    + rewrite length_firstn. lia.
    + intros i Hi. rewrite length_firstn in Hi. rewrite nth_firstn.
      destruct (Nat.ltb_spec i (length p)) as [Lt|Ge]; [|lia].
      apply Z.eqb_eq. apply (Hm i). apply in_seq. lia.
  - intros E. assert (Hl : (length p <= length url)%nat).
    { apply (f_equal (@length Z)) in E. rewrite length_firstn in E. lia. }
    split; [exact Hl|]. intros i Hi. apply in_seq in Hi. apply Z.eqb_eq.
    unfold rd. rewrite <- E at 1. rewrite nth_firstn.
    destruct (Nat.ltb_spec i (length p)) as [Lt|Ge]; [reflexivity|lia].
Qed.

Lemma strip_prefix_table (table : list (list Z * Z)) (url : list Z) :
  (exists pre p post,
     table = pre ++ (p, fst (strip_prefix table url)) :: post /\
     url = p ++ snd (strip_prefix table url) /\
     forall p' c', In (p', c') pre -> firstn (length p') url <> p') \/
  (strip_prefix table url = (0x00, url) /\
   forall p' c', In (p', c') table -> firstn (length p') url <> p').
Proof.
  induction table as [|[p c] rest IH]; cbn [strip_prefix].
  - right. split; [reflexivity|]. intros p' c' [].
  - destruct ((length p <=? length url)%nat && memcmp_eq url p (length p))
      eqn:Em.
    + apply memcmp_prefix in Em. left. exists [], p, rest. cbn [fst snd app].
      split; [reflexivity|]. split; [|intros p' c' []].
      rewrite <- Em at 1. symmetry. apply firstn_skipn.
    + assert (Hne : firstn (length p) url <> p).
      { intros E. apply memcmp_prefix in E. congruence. }
      destruct IH as [(pre & q & post & Ht & Hu & Hpre) | (Hs & Hall)].
      * left. exists ((p, c) :: pre), q, post. rewrite Ht at 1.
        split; [reflexivity|]. split; [exact Hu|].
        intros p' c' [[= <- <-] | Hin]; [exact Hne | exact (Hpre _ _ Hin)].
      * right. split; [exact Hs|].
        intros p' c' [[= <- <-] | Hin]; [exact Hne | exact (Hall _ _ Hin)].
Qed.

(** X13: the prefix loop of [build_sdm_ndef] abbreviates the longest of
    the four prefixes "https://www." (code 2), "http://www." (1),
    "https://" (4), "http://" (3) that the URL starts with, and the URL is
    that prefix followed by the characters it keeps (nothing is lost); a
    URL that starts with none of them is kept whole with code 0. *)
Theorem strip_prefix_longest (url : list Z) :
  let code := fst (strip_prefix prefixes url) in
  let uri := snd (strip_prefix prefixes url) in
  (code = 0x00 /\ uri = url /\
   forall p c, In (p, c) prefixes -> firstn (length p) url <> p) \/
  (exists p, In (p, code) prefixes /\ url = p ++ uri /\
     forall p' c', In (p', c') prefixes -> firstn (length p') url = p' ->
                   (length p' <= length p)%nat).
Proof.
  cbv zeta. pose proof (strip_prefix_table prefixes url) as T.
  set (code := fst (strip_prefix prefixes url)) in *.
  set (uri := snd (strip_prefix prefixes url)) in *.
  destruct T as [(pre & p & post & Ht & Hu & Hpre) | (Hs & Hall)].
  - clearbody code uri. right. exists p.
    split; [rewrite Ht; apply in_elt|]. split; [exact Hu|].
    intros p' c' Hin Hm. rewrite Ht in Hin. apply in_app_or in Hin.
    destruct Hin as [Hin | [[= <- _] | Hin]];
      [exfalso; exact (Hpre _ _ Hin Hm) | lia |].
    unfold prefixes in Ht.
    destruct pre as [|x1 [|x2 [|x3 [|x4 pre]]]]; cbn [app] in Ht;
      injection Ht as; subst; cbn [In] in Hin;
      repeat match goal with
        | Hor : _ \/ _ |- _ => destruct Hor as [[= <- <-] | Hor]
        | Hf : False |- _ => destruct Hf
        | Hnil : [] = _ :: _ |- _ => discriminate Hnil
        | Hnil : [] = _ ++ _ :: _ |- _ =>
            apply app_cons_not_nil in Hnil; destruct Hnil
        end; cbn; lia.
  - left. subst code uri. rewrite Hs. cbn [fst snd]. repeat split. exact Hall.
Qed.

Lemma find_substr_spec_some (buf : list Z) (len : nat) (needle : list Z) (p : nat) :
  find_substr buf len needle = Some p ->
  bytes_at buf p (length needle) = needle.
Proof.
  unfold find_substr.
  destruct ((length needle =? 0)%nat || (len <? length needle)%nat);
    [discriminate|].
  pose proof (find_from_spec buf needle (len - length needle + 1) 0) as Hf.
  destruct (find_from buf needle (len - length needle + 1) 0) as [q|];
    [|discriminate].
  intros [= <-]. exact (proj1 (proj2 Hf)).
Qed.

Lemma all_ascii_zero_spec (buf : list Z) (off n : nat) :
  all_ascii_zero buf off n = true -> bytes_at buf off n = repeat 0x30 n.
Proof.
  unfold all_ascii_zero. rewrite forallb_forall. intros Ha.
  apply nth_ext with (d := 0) (d' := 0).
  - now rewrite length_bytes_at, repeat_length.
  - intros i Hi. rewrite length_bytes_at in Hi. unfold bytes_at.
    rewrite (nth_indep _ 0 (rd buf 0)) by now rewrite length_map, length_seq.
    rewrite map_nth, seq_nth by exact Hi.
    rewrite nth_repeat_lt by exact Hi.
    apply Z.eqb_eq. apply (Ha i). apply in_seq. lia.
Qed.

Lemma u32_of_nat_small (n : nat) : (n <= 512)%nat -> u32 (Z.of_nat n) = Z.of_nat n.
Proof.
  intros Hn. unfold u32. change 0xFFFFFFFF with (Z.ones 32).
  rewrite Z.land_ones by lia. apply Z.mod_small. lia.
Qed.

(** X14: whatever the base URL, an NDEF template that [build_sdm_ndef]
    returns is well formed: the URL is the base URL followed by
    "?uid=" 14 zeros "&ctr=" 6 zeros "&mac=" 16 zeros; the file has at most
    256 bytes and is NLEN (2 bytes, big endian) || D1 01 PLEN 55 || prefix
    code || abbreviated URL; and the offsets returned point, inside the
    file, at 14, 6 and 16 ASCII zeros that follow the first "uid=", "ctr="
    and "mac=" of the file, the MAC input starting at that "uid=". *)
Theorem build_sdm_ndef_layout (base_url : list Z) (t : sdm_ndef_t) :
  build_sdm_ndef base_url = Some t ->
  let code := fst (strip_prefix prefixes (url t)) in
  let uri := snd (strip_prefix prefixes (url t)) in
  url t = base_url
          ++ cstr "?uid=00000000000000&ctr=000000&mac=0000000000000000"%string /\
  ndef_len t = length (ndef t) /\ (ndef_len t <= 256)%nat /\
  ndef t = [0x00; Z.of_nat (ndef_len t - 2); 0xD1; 0x01;
            Z.of_nat (ndef_len t - 6); 0x55; code] ++ uri /\
  exists ku kc km : nat,
    find_substr (ndef t) (ndef_len t) (cstr "uid="%string) = Some ku /\
    find_substr (ndef t) (ndef_len t) (cstr "ctr="%string) = Some kc /\
    find_substr (ndef t) (ndef_len t) (cstr "mac="%string) = Some km /\
    mac_input_offset t = Z.of_nat ku /\
    uid_offset t = Z.of_nat (ku + 4) /\
    ctr_offset t = Z.of_nat (kc + 4) /\
    mac_offset t = Z.of_nat (km + 4) /\
    (ku + 4 + 14 <= ndef_len t)%nat /\ (kc + 4 + 6 <= ndef_len t)%nat /\
    (km + 4 + 16 <= ndef_len t)%nat /\
    bytes_at (ndef t) ku 18 = cstr "uid=00000000000000"%string /\
    bytes_at (ndef t) kc 10 = cstr "ctr=000000"%string /\
    bytes_at (ndef t) km 20 = cstr "mac=0000000000000000"%string.
Proof.
  intros Hb. cbv zeta. unfold build_sdm_ndef in Hb. cbv zeta in Hb.
  set (u := base_url ++ _) in Hb.
  assert (Hu : u = base_url
          ++ cstr "?uid=00000000000000&ctr=000000&mac=0000000000000000"%string)
    by reflexivity.
  clearbody u.
  destruct ((length u <=? 0)%nat || (512 <=? length u)%nat); [discriminate Hb|].
  destruct (strip_prefix prefixes u) as [code uri] eqn:Es.
  destruct (255 <? length uri)%nat eqn:E1; [discriminate Hb|].
  destruct (255 <? 1 + length uri)%nat eqn:E2; [discriminate Hb|].
  destruct (256 <? 2 + (4 + (1 + length uri)))%nat eqn:E3; [discriminate Hb|].
  apply Nat.ltb_ge in E1, E2, E3.
  set (total := (2 + (4 + (1 + length uri)))%nat) in *.
  set (nd := memcpy _ 7 uri) in Hb.
  assert (Hnd : nd = [0x00; Z.of_nat (total - 2); 0xD1; 0x01;
                      Z.of_nat (total - 6); 0x55; code] ++ uri).
  { subst nd total. unfold memcpy, zeros.
    cbn [Nat.add repeat upd firstn skipn app length].
    change (repeat 0 (length uri)) with (zeros (length uri)).
    rewrite skipn_zeros, Nat.sub_diag. cbn [zeros repeat]. rewrite app_nil_r.
    rewrite !u8_land_255, u8_of_nat_small by lia.
    rewrite Z.shiftr_div_pow2 by lia. change (2 ^ 8) with 256.
    rewrite (Z.div_small (Z.of_nat _) 256) by lia.
    rewrite (Z.mod_small (Z.of_nat _) 256) by lia.
    replace (S (S (S (S (S (S (S (length uri))))))) - 2)%nat
      with (S (S (S (S (S (length uri)))))) by lia.
    replace (S (S (S (S (S (S (S (length uri))))))) - 6)%nat
      with (S (length uri)) by lia.
    reflexivity. }
  assert (Hlen : length nd = total).
  { rewrite Hnd, length_app. subst total. cbn [length]. lia. }
  clearbody nd.
  pose proof (find_substr_spec_some nd total) as Hfs.
  destruct (find_substr nd total (cstr "uid="%string)) as [ku|] eqn:Fu;
    [|discriminate Hb].
  destruct (find_substr nd total (cstr "ctr="%string)) as [kc|] eqn:Fc;
    [|discriminate Hb].
  destruct (find_substr nd total (cstr "mac="%string)) as [km|] eqn:Fm;
    [|discriminate Hb].
  destruct ((total <? ku + 4 + SDM_UID_LEN_ASCII)%nat
            || (total <? kc + 4 + SDM_CTR_LEN_ASCII)%nat
            || (total <? km + 4 + SDM_MAC_LEN_ASCII)%nat) eqn:Eb;
    [discriminate Hb|].
  apply orb_false_iff in Eb as [Eb Eb3]. apply orb_false_iff in Eb as [Eb1 Eb2].
  apply Nat.ltb_ge in Eb1, Eb2, Eb3.
  unfold SDM_UID_LEN_ASCII, SDM_CTR_LEN_ASCII, SDM_MAC_LEN_ASCII in *.
  destruct (all_ascii_zero nd (ku + 4) 14) eqn:Zu; cbn [negb] in Hb;
    [|discriminate Hb].
  destruct (all_ascii_zero nd (kc + 4) 6) eqn:Zc; cbn [negb] in Hb;
    [|discriminate Hb].
  destruct (all_ascii_zero nd (km + 4) 16) eqn:Zm; cbn [negb] in Hb;
    [|discriminate Hb].
  revert Hb.
  intros [= <-]. cbn [url ndef ndef_len uid_offset ctr_offset mac_offset
                         mac_input_offset].
  rewrite Es. cbn [fst snd].
  split; [exact Hu|]. split; [now symmetry|]. split; [exact E3|].
  split; [exact Hnd|].
  apply all_ascii_zero_spec in Zu, Zc, Zm.
  exists ku, kc, km.
  rewrite !u32_of_nat_small by lia.
  pose proof (Hfs _ _ Fu) as Ku. pose proof (Hfs _ _ Fc) as Kc.
  pose proof (Hfs _ _ Fm) as Km.
  change (length (cstr "uid="%string)) with 4%nat in Ku.
  change (length (cstr "ctr="%string)) with 4%nat in Kc.
  change (length (cstr "mac="%string)) with 4%nat in Km.
  repeat (split; [first [reflexivity | assumption]|]).
  assert (Hsplit : forall k a b, bytes_at nd k (a + b)
                     = bytes_at nd k a ++ bytes_at nd (k + a) b).
  { intros k a b. unfold bytes_at. now rewrite seq_app, map_app. }
  split; [|split].
  - change 18%nat with (4 + 14)%nat.
    rewrite (Hsplit ku 4%nat 14%nat), Ku, Zu. reflexivity.
  - change 10%nat with (4 + 6)%nat.
    rewrite (Hsplit kc 4%nat 6%nat), Kc, Zc. reflexivity.
  - change 20%nat with (4 + 16)%nat.
    rewrite (Hsplit km 4%nat 16%nat), Km, Zm. reflexivity.
Qed.

Lemma build_sdm_ndef_layout_witness :
  exists t,
    build_sdm_ndef (cstr "http://www.tags.example/t"%string) = Some t /\
    ndef_len t = length (ndef t) /\ (ndef_len t <= 256)%nat /\
    rd (ndef t) 6 = 0x01.
Proof.
  destruct (build_sdm_ndef (cstr "http://www.tags.example/t"%string))
    as [t|] eqn:E.
  - exists t.
    destruct (build_sdm_ndef_layout _ t E) as (_ & Hl & Hb & Hn & _).
    refine (conj eq_refl (conj Hl (conj Hb _))).
    rewrite Hn. cbn [app rd nth].
    revert E. vm_compute. intros [= <-]. reflexivity.
  - vm_compute in E. discriminate E.
Defined.

(** ** File settings: short and over-long answers *)

(** X15: [parse_file_settings] on fewer than 7 bytes returns 0, prints
    nothing and leaves [*info] zeroed.  From 7 bytes on it marks [*info]
    valid and fills FileOption, AR1, AR2 and FileSize from the fixed
    header whether or not it goes on to return 1 (a truncated SDM section
    makes it return 0 with these fields set); without the SDM bit 0x40 in
    FileOption it returns 1 after the four header lines, whatever
    follows. *)
Theorem parse_file_settings_header (data : list Z) :
  let ret := fst (fst (parse_file_settings data)) in
  let info := snd (fst (parse_file_settings data)) in
  let out := snd (parse_file_settings data) in
  if (length data <? 7)%nat then ret = 0 /\ info = info_zero /\ out = []
  else
    (ret = 0 \/ ret = 1) /\
    valid info = 1 /\ file_option info = rd data 1 /\ ar1 info = rd data 2 /\
    ar2 info = rd data 3 /\ file_size info = read_u24_le data 4 /\
    (if Z.land (rd data 1) 0x40 =? 0
     then ret = 1 /\ sdm_enabled info = 0 /\ sdm_options info = 0 /\
          sdm_read_ctr_enabled info = 0 /\
          out = [L_FileType (rd data 0); L_FileOption (rd data 1);
                 L_AccessRights (rd data 2) (rd data 3);
                 L_FileSize (read_u24_le data 4)]
     else sdm_enabled info = 1 /\
          ((length data < 10)%nat -> ret = 0 /\ length out = 4%nat)).
Proof.
  cbv zeta. unfold parse_file_settings.
  destruct (length data <? 7)%nat eqn:E7; [repeat split|].
  destruct (Z.land (rd data 1) 0x40 =? 0) eqn:Esdm.
  { cbn [fst snd valid file_option ar1 ar2 file_size sdm_enabled sdm_options
         sdm_read_ctr_enabled].
    repeat split. right. reflexivity. }
  destruct (length data <? 7 + 3)%nat eqn:E10.
  { cbn [fst snd valid file_option ar1 ar2 file_size sdm_enabled sdm_options
         sdm_read_ctr_enabled length].
    repeat split. left. reflexivity. }
  apply Nat.ltb_ge in E10.
  match goal with
  | |- context [match ?t with inl _ => _ | inr _ => _ end] =>
      destruct t as [[i o]|o]
  end;
    cbn [fst snd valid file_option ar1 ar2 file_size sdm_enabled sdm_options
         sdm_read_ctr_enabled];
    (split; [auto|]); do 5 (split; [reflexivity|]);
    (split; [reflexivity|]); intros Hlt; lia.
Qed.

Lemma parse_file_settings_header_witness :
  let data := [0x00; 0x40; 0xE0; 0xEE; 0x00; 0x01; 0x00; 0xC1] in
  fst (fst (parse_file_settings data)) = 0 /\
  valid (snd (fst (parse_file_settings data))) = 1 /\
  ar1 (snd (fst (parse_file_settings data))) = 0xE0.
Proof.
  cbv zeta.
  pose proof (parse_file_settings_header
                [0x00; 0x40; 0xE0; 0xEE; 0x00; 0x01; 0x00; 0xC1]) as T.
  cbv zeta in T. cbn [length Nat.ltb Nat.leb] in T.
  destruct T as (_ & Hv & _ & Ha & _ & _ & T).
  change (Z.land (rd [0x00; 0x40; 0xE0; 0xEE; 0x00; 0x01; 0x00; 0xC1] 1) 0x40
          =? 0) with false in T.
  destruct T as (_ & T).
  exact (conj (proj1 (T ltac:(cbn; lia))) (conj Hv Ha)).
Defined.

(** A truncated optional field: the answer ends inside the counter offset,
    and the call returns 0 at line 865 after the UID offset line has been
    printed at line 861. *)
Example parse_file_settings_truncated :
  let data := [0x00; 0x40; 0xE0; 0xEE; 0x00; 0x01; 0x00; 0xC1; 0xF1; 0xE1;
               0x1B; 0x00; 0x00; 0x2E; 0x00] in
  fst (fst (parse_file_settings data)) = 0 /\
  snd (parse_file_settings data) =
    [L_FileType 0x00; L_FileOption 0x40; L_AccessRights 0xE0 0xEE;
     L_FileSize 256; L_SDMOptions 0xC1;
     L_SDMAccessRights 0xE1F1 0x0E 0x01 0x01 0x0F; L_UIDOffset 0x1B].
Proof. vm_compute. split; reflexivity. Qed.

Lemma fs_field_app (data extra : list Z) (present : bool) (k : nat)
    (print print' : nat -> list fs_line) (st st' : fs_tail) :
  fs_field data present k print st = inl st' ->
  (forall i, (i + k <= length data)%nat -> print' i = print i) ->
  fs_field (data ++ extra) present k print' st = inl st'.
Proof.
  unfold fs_field. destruct st as [idx out]. destruct present; [|auto].
  destruct (length data <? idx + k)%nat eqn:E; [discriminate|].
  intros [= <-] Hp. apply Nat.ltb_ge in E. rewrite length_app.
  destruct (Nat.ltb_spec (length data + length extra) (idx + k)); [lia|].
  rewrite Hp by lia. reflexivity.
Qed.

(** X16: bytes that follow complete file settings are ignored: when
    [parse_file_settings] returns 1 on an answer, it returns 1 with the
    same [*info] and the same printed lines on that answer followed by
    any further bytes. *)
Theorem parse_file_settings_trailing_bytes (data extra : list Z)
    (info : file_settings_info_t) (out : list fs_line) :
  parse_file_settings data = (1, info, out) ->
  parse_file_settings (data ++ extra) = (1, info, out).
Proof.
  assert (Hrd : forall i, (i < length data)%nat ->
                          rd (data ++ extra) i = rd data i)
    by (intros i Hi; now apply rd_app_l).
  unfold parse_file_settings. cbv zeta. unfold read_u24_le.
  rewrite length_app.
  destruct (length data <? 7)%nat eqn:E7; [discriminate|].
  apply Nat.ltb_ge in E7.
  destruct (Nat.ltb_spec (length data + length extra) 7) as [Lt|_]; [lia|].
  rewrite (Hrd 0%nat), (Hrd 1%nat), (Hrd 2%nat), (Hrd 3%nat), (Hrd 4%nat),
    (Hrd (4 + 1)%nat), (Hrd (4 + 2)%nat) by lia.
  destruct (Z.land (rd data 1) 0x40 =? 0); [exact (fun x => x)|].
  destruct (length data <? 7 + 3)%nat eqn:E10; [discriminate|].
  apply Nat.ltb_ge in E10.
  destruct (Nat.ltb_spec (length data + length extra) (7 + 3)) as [Lt|_]; [lia|].
  rewrite (Hrd 7%nat), (Hrd (7 + 1)%nat), (Hrd (7 + 2)%nat) by lia.
  match goal with
  | |- match ?t with inl _ => _ | inr _ => _ end = _ ->
       match ?t' with inl _ => _ | inr _ => _ end = _ =>
      assert (Ht : forall st, t = inl st -> t' = inl st)
  end.
  { intros st Hst.
    repeat match goal with
    | Hs : match fs_field ?d ?b ?k ?p ?s with inl _ => _ | inr o => inr o end
           = inl _ |- _ =>
        let F := fresh "F" in
        destruct (fs_field d b k p s) as [?|?] eqn:F; [|discriminate Hs];
        erewrite (fs_field_app d extra b k p _ s _ F);
        [|intros i Hi; rewrite ?Hrd by lia; reflexivity]
    end.
    eapply fs_field_app; [exact Hst|].
    intros i Hi; rewrite ?Hrd by lia; reflexivity. }
  match goal with
  | |- match ?t with inl _ => _ | inr _ => _ end = _ -> _ =>
      destruct t as [[i o]|o]; [|discriminate]
  end.
  rewrite (Ht _ eq_refl). exact (fun x => x).
Qed.

Lemma parse_file_settings_trailing_bytes_witness :
  let data := [0x00; 0x40; 0xE0; 0xEE; 0x00; 0x01; 0x00; 0xC1; 0xF1; 0xE1;
               0x1B; 0x00; 0x00; 0x2E; 0x00; 0x00; 0x17; 0x00; 0x00;
               0x39; 0x00; 0x00] in
  fst (fst (parse_file_settings data)) = 1 /\
  parse_file_settings (data ++ [0xAA; 0xBB]) = parse_file_settings data.
Proof.
  cbv zeta. split; [reflexivity|].
  apply (parse_file_settings_trailing_bytes
           [0x00; 0x40; 0xE0; 0xEE; 0x00; 0x01; 0x00; 0xC1; 0xF1; 0xE1;
            0x1B; 0x00; 0x00; 0x2E; 0x00; 0x00; 0x17; 0x00; 0x00;
            0x39; 0x00; 0x00] [0xAA; 0xBB]).
  reflexivity.
Defined.

(** ** The transport and the plain commands *)

Lemma sw_split (hi lo : Z) :
  is_byte hi -> is_byte lo ->
  let sw := u16 (Z.lor (Z.shiftl hi 8) lo) in
  sw = hi * 256 + lo /\ Z.shiftr sw 8 = hi /\ Z.land sw 0xFF = lo.
Proof.
  unfold is_byte. intros Hh Hl. cbv zeta.
  assert (E : Z.lor (Z.shiftl hi 8) lo = hi * 256 + lo).
  { rewrite Z.lor_comm, Z.shiftl_mul_pow2 by lia.
    rewrite (Z.add_comm (hi * 256)). change (2 ^ 8) with 256.
    apply (lor_disjoint lo hi 8); lia. }
  rewrite E, u16_mod, Z.mod_small by lia.
  split; [reflexivity|]. rewrite Z.shiftr_div_pow2 by lia.
  change 0xFF with (Z.ones 8). rewrite Z.land_ones by lia.
  change (2 ^ 8) with 256. split; Z.div_mod_to_equations; lia.
Qed.

Lemma last_two (resp : list Z) :
  (2 <= length resp)%nat ->
  resp = firstn (length resp - 2) resp
         ++ [rd resp (length resp - 2); rd resp (length resp - 1)].
Proof.
  intros Hn. set (n := length resp) in *.
  pose proof (firstn_skipn (n - 2) resp) as Hs.
  pose proof (length_skipn (n - 2) resp) as Hl. fold n in Hl.
  assert (Hf : length (firstn (n - 2) resp) = (n - 2)%nat)
    by (rewrite length_firstn; lia).
  clearbody n. remember (firstn (n - 2) resp) as f eqn:Ef. clear Ef.
  destruct (skipn (n - 2) resp) as [|a [|b [|c t]]];
    cbn [length] in Hl; try lia.
  assert (Ha : rd resp (n - 2) = a).
  { rewrite <- Hs, <- Hf. rewrite <- (Nat.add_0_r (length f)).
    rewrite rd_app_plus. reflexivity. }
  assert (Hb : rd resp (n - 1) = b).
  { rewrite <- Hs. replace (n - 1)%nat with (length f + 1)%nat by lia.
    rewrite rd_app_plus. reflexivity. }
  rewrite Ha, Hb. symmetry. exact Hs.
Qed.

(** X17: [transmit] sends the APDU once and splits what the card
    returned, losing nothing: on success the body followed by the two
    bytes of the status word (high byte first) is the response received;
    a reader error, or a response of fewer than 2 bytes (which becomes
    SCARD_E_PROTO_MISMATCH), leaves [*sw] as the caller had it. *)
Theorem transmit_splits_response `{Platform} (w : wire) (apdu : list Z)
    (cap : nat) (sw0 : Z) (c' : Card) (rc0 : Z) (resp : list Z) :
  SCardTransmit (card w) apdu cap = (c', (rc0, resp)) ->
  let w' := fst (transmit w apdu cap sw0) in
  let rc := fst (fst (snd (transmit w apdu cap sw0))) in
  let body := snd (fst (snd (transmit w apdu cap sw0))) in
  let sw := snd (snd (transmit w apdu cap sw0)) in
  card w' = c' /\ sent w' = sent w ++ [apdu] /\
  if (rc0 =? SCARD_S_SUCCESS) && (2 <=? length resp)%nat
  then rc = SCARD_S_SUCCESS /\
       (bytes resp ->
        resp = body ++ [Z.shiftr sw 8; Z.land sw 0xFF] /\ 0 <= sw < 65536)
  else rc <> SCARD_S_SUCCESS /\ body = [] /\ sw = sw0 /\
       (rc = rc0 \/ (rc0 = SCARD_S_SUCCESS /\ rc = SCARD_E_PROTO_MISMATCH)).
Proof.
  intros Hsc. cbv zeta. unfold transmit. rewrite Hsc.
  destruct (rc0 =? SCARD_S_SUCCESS) eqn:Erc; cbn [negb andb].
  - apply Z.eqb_eq in Erc.
    destruct (Nat.ltb_spec (length resp) 2) as [Lt|Ge].
    + destruct (Nat.leb_spec 2 (length resp)) as [Le|_]; [lia|].
      cbn [fst snd card sent]. repeat split; try discriminate. right.
      split; [exact Erc | reflexivity].
    + destruct (Nat.leb_spec 2 (length resp)) as [_|Gt]; [|lia].
      cbn [fst snd card sent].
      split; [reflexivity|]. split; [reflexivity|]. split; [reflexivity|].
      intros Hby. split; [|rewrite u16_mod; apply Z.mod_pos_bound; lia].
      pose proof (last_two resp Ge) as Hl.
      assert (Hb : is_byte (rd resp (length resp - 2)) /\
                   is_byte (rd resp (length resp - 1))).
      { unfold bytes in Hby. rewrite Hl in Hby.
        apply Forall_app in Hby as [_ Hby].
        inversion Hby as [|? ? Ha H1]; subst.
        inversion H1 as [|? ? Hb _]; subst. split; assumption. }
      destruct (sw_split _ _ (proj1 Hb) (proj2 Hb)) as (_ & Hhi & Hlo).
      rewrite Hhi, Hlo. exact Hl.
  - apply Z.eqb_neq in Erc. cbn [fst snd card sent]. repeat split; auto.
Qed.

Lemma transmit_splits_response_witness :
  let w := fresh_wire [(SCARD_S_SUCCESS, [0x04; 0xA1; 0xB2; 0x91; 0x00])] in
  snd (@transmit sim w [0xFF; 0xCA; 0x00; 0x00; 0x00] MAX_APDU 0)
  = (SCARD_S_SUCCESS, [0x04; 0xA1; 0xB2], 0x9100) /\
  [0x04; 0xA1; 0xB2; 0x91; 0x00] = [0x04; 0xA1; 0xB2] ++ [0x91; 0x00].
Proof.
  cbv zeta.
  assert (Hr : snd (@transmit sim
                      (fresh_wire [(SCARD_S_SUCCESS, [0x04; 0xA1; 0xB2; 0x91; 0x00])])
                      [0xFF; 0xCA; 0x00; 0x00; 0x00] MAX_APDU 0)
               = (SCARD_S_SUCCESS, [0x04; 0xA1; 0xB2], 0x9100))
    by reflexivity.
  split; [exact Hr|].
  destruct (@transmit_splits_response sim
              (fresh_wire [(SCARD_S_SUCCESS, [0x04; 0xA1; 0xB2; 0x91; 0x00])])
              [0xFF; 0xCA; 0x00; 0x00; 0x00] MAX_APDU 0
              [] SCARD_S_SUCCESS [0x04; 0xA1; 0xB2; 0x91; 0x00] eq_refl)
    as (_ & _ & T).
  cbn [Z.eqb SCARD_S_SUCCESS andb length Nat.leb] in T.
  destruct T as (_ & T).
  rewrite Hr in T. cbn [fst snd] in T.
  apply T. repeat constructor; unfold is_byte; lia.
Defined.

Lemma transmit_failure `{Platform} (w : wire) (apdu : list Z) (cap : nat) (sw0 : Z) :
  fst (snd (SCardTransmit (card w) apdu cap)) <> SCARD_S_SUCCESS ->
  exists w' rc,
    transmit w apdu cap sw0 = (w', (rc, [], sw0)) /\ rc <> SCARD_S_SUCCESS /\
    sent w' = sent w ++ [apdu].
Proof.
  intros Hrc. unfold transmit.
  destruct (SCardTransmit (card w) apdu cap) as [c' [rc resp]].
  cbn [fst snd] in Hrc. apply Z.eqb_neq in Hrc. rewrite Hrc. cbn [negb].
  eexists _, rc. split; [reflexivity|]. split; [now apply Z.eqb_neq | reflexivity].
Qed.

(** X18: when the reader fails the exchange, each plain command returns
    0 after the one APDU it tried, and none retries.  The status word
    reported is 0 for [select_ndef_app], [select_file],
    [get_file_settings_plain], [get_sdm_read_counter] and
    [write_ndef_file_plain] (they store their local [sw], initialised to
    0), while [read_binary] leaves the caller's [*sw_out] as it was;
    [*out_len] and [*counter] are not touched. *)
Theorem plain_commands_on_reader_failure `{Platform} (w : wire)
    (file_id file_no offset le counter sw_out : Z) (out_len : nat)
    (data : list Z) (len : nat) :
  (forall apdu, fst (snd (SCardTransmit (card w) apdu MAX_APDU))
                <> SCARD_S_SUCCESS) ->
  snd (select_ndef_app w) = (0, 0) /\
  snd (select_file w file_id) = (0, 0) /\
  snd (get_file_settings_plain w file_no out_len) = (0, [], out_len, 0) /\
  snd (get_sdm_read_counter w file_no counter) = (0, counter, 0) /\
  snd (get_uid w) = (0, []) /\ snd (get_ats w) = (0, []) /\
  snd (read_binary w offset le out_len sw_out) = (0, [], out_len, sw_out) /\
  option_map snd (write_ndef_file_plain w data len) = Some (0, 0) /\
  length (sent (fst (select_ndef_app w))) = S (length (sent w)) /\
  length (sent (fst (read_binary w offset le out_len sw_out)))
    = S (length (sent w)).
Proof.
  intros Hf.
  assert (T : forall apdu, exists w' rc,
             transmit w apdu MAX_APDU 0 = (w', (rc, [], 0)) /\
             (rc =? SCARD_S_SUCCESS) = false /\
             length (sent w') = S (length (sent w))).
  { intros apdu.
    destruct (transmit_failure w apdu MAX_APDU 0 (Hf apdu))
      as (w' & rc & Ht & Hrc & Hs).
    exists w', rc. split; [exact Ht|]. split; [now apply Z.eqb_neq|].
    rewrite Hs, length_app. cbn [length]. lia. }
  assert (Hsel : snd (select_ndef_app w) = (0, 0) /\
                 length (sent (fst (select_ndef_app w))) = S (length (sent w))).
  { unfold select_ndef_app.
    match goal with
    | |- context [transmit w ?a MAX_APDU 0] =>
        destruct (T a) as (w' & rc & -> & -> & Hl)
    end. cbn [negb fst snd]. split; [reflexivity | exact Hl]. }
  destruct Hsel as (Hsel & Hsel_len).
  split; [exact Hsel|].
  split.
  { unfold select_file.
    match goal with
    | |- context [transmit w ?a MAX_APDU 0] =>
        destruct (T a) as (w' & rc & -> & -> & _)
    end. reflexivity. }
  split.
  { unfold get_file_settings_plain.
    match goal with
    | |- context [transmit w ?a MAX_APDU 0] =>
        destruct (T a) as (w' & rc & -> & -> & _)
    end. reflexivity. }
  split.
  { unfold get_sdm_read_counter.
    match goal with
    | |- context [transmit w ?a MAX_APDU 0] =>
        destruct (T a) as (w' & rc & -> & -> & _)
    end. reflexivity. }
  split.
  { unfold get_uid, get_data.
    match goal with
    | |- context [transmit w ?a MAX_APDU 0] =>
        destruct (T a) as (w' & rc & -> & -> & _)
    end. reflexivity. }
  split.
  { unfold get_ats, get_data.
    match goal with
    | |- context [transmit w ?a MAX_APDU 0] =>
        destruct (T a) as (w' & rc & -> & -> & _)
    end. reflexivity. }
  assert (Hrb : snd (read_binary w offset le out_len sw_out)
                = (0, [], out_len, sw_out) /\
                length (sent (fst (read_binary w offset le out_len sw_out)))
                = S (length (sent w))).
  { unfold read_binary.
    match goal with
    | |- context [transmit w ?a MAX_APDU 0] =>
        destruct (T a) as (w' & rc & -> & -> & Hl)
    end. cbn [negb fst snd]. split; [reflexivity | exact Hl]. }
  destruct Hrb as (Hrb & Hrb_len).
  split; [exact Hrb|]. split; [|split; [exact Hsel_len | exact Hrb_len]].
  unfold write_ndef_file_plain.
  destruct (select_ndef_app w) as [w1 [ok sw]]. cbn [snd] in Hsel.
  injection Hsel as -> ->. reflexivity.
Qed.

Lemma plain_commands_on_reader_failure_witness :
  snd (@select_ndef_app sim (fresh_wire [])) = (0, 0) /\
  snd (@read_binary sim (fresh_wire []) 0 15 64 0x6A82) = (0, [], 64%nat, 0x6A82).
Proof.
  destruct (@plain_commands_on_reader_failure sim (fresh_wire [])
              0xE104 0x02 0 15 0 0x6A82 64 [0x00; 0x00] 2
              ltac:(intros apdu; cbn; discriminate))
    as (Hs & _ & _ & _ & _ & _ & Hr & _).
  exact (conj Hs Hr).
Defined.

(** ** 24-bit little-endian fields *)

Lemma u24_of_bytes (a b c : Z) :
  is_byte a -> is_byte b -> is_byte c ->
  Z.lor (Z.lor a (Z.shiftl b 8)) (Z.shiftl c 16) = a + 256 * b + 65536 * c.
Proof.
  unfold is_byte. intros Ha Hb Hc. rewrite !Z.shiftl_mul_pow2 by lia.
  rewrite (lor_disjoint a b 8) by lia.
  rewrite (lor_disjoint _ c 16) by (change (2 ^ 8) with 256;
                                    change (2 ^ 16) with 65536; lia).
  change (2 ^ 8) with 256. change (2 ^ 16) with 65536. lia.
Qed.

Lemma write_u24_le_mod (v : Z) :
  write_u24_le v = [v mod 256; v / 256 mod 256; v / 65536 mod 256].
Proof.
  unfold write_u24_le. rewrite !u8_land_255, !Z.shiftr_div_pow2 by lia.
  reflexivity.
Qed.

(** X19: a 24-bit field written by [write_u24_le] and read back by
    [read_u24_le] holds the value modulo 2^24: it is the value itself
    below 2^24, and anything above is cut off without notice.  In the
    other direction, three bytes read as a number (below 2^24) and
    written back are the same three bytes. *)
Theorem u24_le_roundtrip (v a b c : Z) (pre post : list Z) :
  read_u24_le (pre ++ write_u24_le v ++ post) (length pre) = v mod 2 ^ 24 /\
  (is_byte a -> is_byte b -> is_byte c ->
   0 <= read_u24_le [a; b; c] 0 < 2 ^ 24 /\
   write_u24_le (read_u24_le [a; b; c] 0) = [a; b; c]).
Proof.
  split.
  - unfold read_u24_le.
    rewrite <- (Nat.add_0_r (length pre)) at 1. rewrite !rd_app_plus.
    rewrite write_u24_le_mod. cbn [rd nth app].
    rewrite u24_of_bytes by (unfold is_byte; apply Z.mod_pos_bound; lia).
    change (2 ^ 24) with 16777216. Z.div_mod_to_equations. lia.
  - intros Ha Hb Hc. unfold read_u24_le. cbn [rd nth Nat.add].
    rewrite u24_of_bytes by assumption. unfold is_byte in *.
    change (2 ^ 24) with 16777216. split; [lia|].
    rewrite write_u24_le_mod.
    repeat f_equal; Z.div_mod_to_equations; lia.
Qed.

Lemma u24_le_roundtrip_witness :
  read_u24_le (write_u24_le 0x01000039) 0 = 0x39 /\
  write_u24_le (read_u24_le [0x39; 0x00; 0x00] 0) = [0x39; 0x00; 0x00].
Proof.
  destruct (u24_le_roundtrip 0x01000039 0x39 0x00 0x00 [] []) as (Hr & Hw).
  split.
  - rewrite app_nil_r in Hr. exact Hr.
  - apply Hw; unfold is_byte; lia.
Defined.

(** X20: [get_sdm_read_counter] returns 1 only for a status 0x9000 or
    0x9100 with at least three bytes of data, and the counter it stores is
    the first three bytes read little-endian: a value below 2^24 from
    which [write_u24_le] gives these three bytes back. *)
Theorem get_sdm_read_counter_value `{Platform} (w : wire) (file_no c0 : Z)
    (w' : wire) (ctr sw : Z) :
  get_sdm_read_counter w file_no c0 = (w', (1, ctr, sw)) ->
  exists body,
    transmit w [0x90; 0xF6; 0x00; 0x00; 0x01; file_no; 0x00] MAX_APDU 0
      = (w', (SCARD_S_SUCCESS, body, sw)) /\
    (sw = 0x9000 \/ sw = 0x9100) /\ (3 <= length body)%nat /\
    (bytes body ->
     ctr = rd body 0 + 256 * rd body 1 + 65536 * rd body 2 /\
     0 <= ctr < 2 ^ 24 /\ write_u24_le ctr = firstn 3 body).
Proof.
  unfold get_sdm_read_counter.
  destruct (transmit w _ MAX_APDU 0) as [w1 [[rc body] sw1]].
  destruct (rc =? SCARD_S_SUCCESS) eqn:Erc; cbn [negb orb]; [|discriminate].
  destruct (sw_ok sw1) eqn:Esw; cbn [negb orb]; [|discriminate].
  destruct (Nat.ltb_spec (length body) 3) as [Lt|Ge]; [discriminate|].
  change (Z.lor (Z.lor (rd body 0) (Z.shiftl (rd body 1) 8))
                (Z.shiftl (rd body 2) 16)) with (read_u24_le body 0).
  intros [= <- <- <-]. apply Z.eqb_eq in Erc. subst rc.
  exists body. split; [reflexivity|]. split.
  { unfold sw_ok in Esw. apply orb_true_iff in Esw as [E|E];
      apply Z.eqb_eq in E; auto. }
  split; [exact Ge|]. intros Hb.
  destruct body as [|a [|b [|c t]]]; cbn [length] in Ge; try lia.
  inversion Hb as [|? ? Ha H1]; subst. inversion H1 as [|? ? Hb' H2]; subst.
  inversion H2 as [|? ? Hc _]; subst.
  unfold read_u24_le. cbn [rd nth firstn Nat.add].
  rewrite u24_of_bytes by assumption. unfold is_byte in *.
  change (2 ^ 24) with 16777216.
  split; [reflexivity|]. split; [lia|].
  rewrite write_u24_le_mod. repeat f_equal; Z.div_mod_to_equations; lia.
Qed.

Lemma get_sdm_read_counter_value_witness :
  snd (@get_sdm_read_counter sim
         (fresh_wire [(SCARD_S_SUCCESS, [0x05; 0x01; 0x00; 0x91; 0x00])])
         0x02 0) = (1, 261, 0x9100).
Proof.
  assert (Hrun : @get_sdm_read_counter sim
            (fresh_wire [(SCARD_S_SUCCESS, [0x05; 0x01; 0x00; 0x91; 0x00])])
            0x02 0
          = (fst (@get_sdm_read_counter sim
                    (fresh_wire [(SCARD_S_SUCCESS,
                                  [0x05; 0x01; 0x00; 0x91; 0x00])]) 0x02 0),
             (1, 261, 0x9100))) by reflexivity.
  destruct (@get_sdm_read_counter_value sim _ _ _ _ _ _ Hrun)
    as (body & _ & _ & _ & _).
  rewrite Hrun. reflexivity.
Defined.

(** ** Writing the NDEF file *)

Lemma ceil255_step (n : nat) :
  (1 <= n)%nat ->
  ((n + 254) / 255 = S ((n - Nat.min 255 n + 254) / 255))%nat.
Proof.
  intros Hn. destruct (Nat.le_gt_cases 255 n) as [Ge|Lt].
  - rewrite Nat.min_l by exact Ge.
    replace (n + 254)%nat with ((n - 255 + 254) + 1 * 255)%nat by lia.
    rewrite Nat.div_add by lia. lia.
  - rewrite Nat.min_r by lia. rewrite Nat.sub_diag.
    replace (n + 254)%nat with ((n - 1) + 1 * 255)%nat by lia.
    rewrite Nat.div_add by lia.
    rewrite !Nat.div_small by lia. reflexivity.
Qed.

Lemma update_binary_apdus_step (data : list Z) (len offset : nat) :
  (offset < len)%nat ->
  update_binary_apdus data len offset =
  update_binary_apdu data offset (Nat.min 255 (len - offset))
  :: update_binary_apdus data len (offset + Nat.min 255 (len - offset)).
Proof.
  intros Hlt. unfold update_binary_apdus.
  rewrite (ceil255_step (len - offset)) by lia.
  cbn [seq map]. rewrite Nat.mul_0_r, Nat.add_0_r. f_equal.
  rewrite <- seq_shift, map_map.
  replace (len - (offset + Nat.min 255 (len - offset)))%nat
    with (len - offset - Nat.min 255 (len - offset))%nat by lia.
  apply map_ext_in. intros i Hi. apply in_seq in Hi.
  destruct (Nat.le_gt_cases 255 (len - offset)) as [Ge|Lt].
  - rewrite (Nat.min_l 255 (len - offset)) by exact Ge.
    replace (offset + 255 * S i)%nat with (offset + 255 + 255 * i)%nat by lia.
    reflexivity.
  - rewrite (Nat.min_r 255 (len - offset)) in Hi by lia.
    rewrite Nat.sub_diag in Hi. rewrite Nat.div_small in Hi by lia. lia.
Qed.

Lemma update_binary_apdus_done (data : list Z) (len offset : nat) :
  (len <= offset)%nat -> update_binary_apdus data len offset = [].
Proof.
  intros Hge. unfold update_binary_apdus.
  replace (len - offset)%nat with 0%nat by lia. reflexivity.
Qed.

Lemma bytes_at_add (d : list Z) (o a b : nat) :
  bytes_at d o (a + b) = bytes_at d o a ++ bytes_at d (o + a) b.
Proof. unfold bytes_at. now rewrite seq_app, map_app. Qed.

Lemma update_binary_apdus_payload (data : list Z) (len : nat) (n offset : nat) :
  (len - offset <= n)%nat ->
  concat (map (skipn 5) (update_binary_apdus data len offset))
  = bytes_at data offset (len - offset) /\
  Forall (fun a => (6 <= length a <= 260)%nat /\ firstn 2 a = [0x00; 0xD6])
         (update_binary_apdus data len offset).
Proof.
  revert offset. induction n as [|n IH]; intros offset Hn.
  - rewrite update_binary_apdus_done by lia.
    replace (len - offset)%nat with 0%nat by lia. split; [reflexivity|constructor].
  - destruct (Nat.le_gt_cases len offset) as [Ge|Lt].
    + rewrite update_binary_apdus_done by lia.
      replace (len - offset)%nat with 0%nat by lia.
      split; [reflexivity|constructor].
    + rewrite update_binary_apdus_step by exact Lt.
      set (chunk := Nat.min 255 (len - offset)).
      assert (Hc : (1 <= chunk <= 255)%nat /\ (chunk <= len - offset)%nat)
        by (subst chunk; lia).
      destruct (IH (offset + chunk)%nat ltac:(lia)) as (Hp & Hall).
      cbn [map concat]. rewrite Hp. split.
      * unfold update_binary_apdu. cbn [app skipn].
        rewrite <- bytes_at_add. f_equal. lia.
      * constructor; [|exact Hall]. unfold update_binary_apdu.
        cbn [app firstn length]. rewrite length_bytes_at.
        split; [lia | reflexivity].
Qed.

Lemma write_ndef_loop_spec `{Platform} (data : list Z) (len : nat) (fuel : nat)
    (w : wire) (offset : nat) (sw : Z) :
  (len - offset <= fuel)%nat ->
  exists w' ret sw' m,
    write_ndef_loop fuel w data len offset sw = Some (w', (ret, sw')) /\
    (ret = 0 \/ ret = 1) /\
    (m <= length (update_binary_apdus data len offset))%nat /\
    sent w' = sent w ++ firstn m (update_binary_apdus data len offset) /\
    (ret = 1 -> sw' = 0x9000 /\
                m = length (update_binary_apdus data len offset)).
Proof.
  revert w offset sw. induction fuel as [|fuel IH]; intros w offset sw Hf.
  - cbn [write_ndef_loop].
    destruct (Nat.ltb_spec offset len) as [Lt|Ge]; [lia|].
    rewrite update_binary_apdus_done by exact Ge.
    exists w, 1, 0x9000, 0%nat. cbn [length firstn]. rewrite app_nil_r.
    repeat split; auto.
  - cbn [write_ndef_loop].
    destruct (Nat.ltb_spec offset len) as [Lt|Ge].
    + rewrite update_binary_apdus_step by exact Lt.
      assert (Hchunk : (if (255 <? len - offset)%nat then 255%nat
                        else (len - offset)%nat) = Nat.min 255 (len - offset)).
      { destruct (Nat.ltb_spec 255 (len - offset)); lia. }
      rewrite Hchunk. set (chunk := Nat.min 255 (len - offset)).
      pose proof (transmit_sent w (update_binary_apdu data offset chunk)
                    MAX_APDU sw) as Hs.
      destruct (transmit w (update_binary_apdu data offset chunk) MAX_APDU sw)
        as [w1 [[rc resp] sw1]]. cbn [fst] in Hs.
      destruct (negb (rc =? SCARD_S_SUCCESS) || negb (sw_ok sw1)).
      * exists w1, 0, sw1, 1%nat. cbn [length firstn].
        split; [reflexivity|]. split; [auto|]. split; [lia|].
        split; [exact Hs | discriminate].
      * destruct (IH w1 (offset + chunk)%nat sw1 ltac:(subst chunk; lia))
          as (w' & ret & sw' & m & Hrun & Hret & Hm & Hsent & Hok).
        exists w', ret, sw', (S m). cbn [length firstn].
        split; [exact Hrun|]. split; [exact Hret|]. split; [lia|].
        split; [rewrite Hsent, Hs, <- app_assoc; reflexivity|].
        intros Hr. destruct (Hok Hr) as (-> & ->). split; reflexivity.
    + rewrite update_binary_apdus_done by exact Ge.
      exists w, 1, 0x9000, 0%nat. cbn [length firstn]. rewrite app_nil_r.
      repeat split; auto.
Qed.

Lemma select_ndef_app_sent `{Platform} (w : wire) :
  sent (fst (select_ndef_app w)) =
  sent w ++ [[0x00; 0xA4; 0x04; 0x00; 0x07;
              0xD2; 0x76; 0x00; 0x00; 0x85; 0x01; 0x01; 0x00]].
Proof.
  unfold select_ndef_app.
  match goal with
  | |- context [transmit w ?a MAX_APDU 0] =>
      pose proof (transmit_sent w a MAX_APDU 0) as Hs;
      destruct (transmit w a MAX_APDU 0) as [w1 [[rc resp] sw]]
  end.
  cbn [fst] in Hs. destruct (negb (rc =? SCARD_S_SUCCESS)); exact Hs.
Qed.

Lemma select_file_sent `{Platform} (w : wire) :
  sent (fst (select_file w 0xE104)) =
  sent w ++ [[0x00; 0xA4; 0x00; 0x0C; 0x02; 0xE1; 0x04]].
Proof.
  unfold select_file.
  match goal with
  | |- context [transmit w ?a MAX_APDU 0] =>
      pose proof (transmit_sent w a MAX_APDU 0) as Hs;
      destruct (transmit w a MAX_APDU 0) as [w1 [[rc resp] sw]]
  end.
  cbn [fst] in Hs. destruct (negb (rc =? SCARD_S_SUCCESS)); exact Hs.
Qed.

(** X21: [write_ndef_file_plain] always terminates, and when it returns
    1 (with [*sw_out] = 0x9000) it has sent SELECT of the NDEF application,
    SELECT of file E104 and then the UPDATE BINARY APDUs
    00 D6 offHi offLo Lc || chunk for the offsets 0, 255, 510, ...:
    (len + 254) / 255 APDUs of at most 255 data bytes each, whose data
    fields put end to end are exactly the [len] bytes given.  When it
    returns 0 it has stopped at the first command that failed: what it
    sent is a prefix of that sequence. *)
Theorem write_ndef_file_plain_chunks `{Platform} (w : wire) (data : list Z)
    (len : nat) :
  let select_app := [0x00; 0xA4; 0x04; 0x00; 0x07;
                     0xD2; 0x76; 0x00; 0x00; 0x85; 0x01; 0x01; 0x00] in
  let select_ndef := [0x00; 0xA4; 0x00; 0x0C; 0x02; 0xE1; 0x04] in
  let apdus := update_binary_apdus data len 0 in
  length apdus = ((len + 254) / 255)%nat /\
  concat (map (skipn 5) apdus) = bytes_at data 0 len /\
  Forall (fun a => (6 <= length a <= 260)%nat /\ firstn 2 a = [0x00; 0xD6])
         apdus /\
  exists w' ret sw m,
    write_ndef_file_plain w data len = Some (w', (ret, sw)) /\
    (ret = 0 \/ ret = 1) /\
    sent w' = sent w ++ firstn m (select_app :: select_ndef :: apdus) /\
    (ret = 1 -> sw = 0x9000 /\
                sent w' = sent w ++ select_app :: select_ndef :: apdus).
Proof.
  cbv zeta.
  destruct (update_binary_apdus_payload data len len 0 ltac:(lia)) as (Hp & Hall).
  rewrite Nat.sub_0_r in Hp.
  split.
  { unfold update_binary_apdus. rewrite length_map, length_seq.
    now rewrite Nat.sub_0_r. }
  split; [exact Hp|]. split; [exact Hall|].
  unfold write_ndef_file_plain.
  pose proof (select_ndef_app_sent w) as Hs1.
  destruct (select_ndef_app w) as [w1 [ok1 sw1]] eqn:E1. cbn [fst] in Hs1.
  assert (Hok1 : ok1 = 0 \/ ok1 = 1).
  { revert E1. unfold select_ndef_app.
    destruct (transmit w _ MAX_APDU 0) as [w0 [[rc resp] sw0]].
    destruct (negb (rc =? SCARD_S_SUCCESS)); [intros [= _ <- _]; auto|].
    destruct (sw_ok sw0); intros [= _ <- _]; auto. }
  destruct Hok1 as [-> | ->]; cbn [Z.eqb].
  { exists w1, 0, sw1, 1%nat. cbn [firstn].
    split; [reflexivity|]. split; [auto|]. split; [exact Hs1 | discriminate]. }
  pose proof (select_file_sent w1) as Hs2.
  destruct (select_file w1 0xE104) as [w2 [ok2 sw2]] eqn:E2. cbn [fst] in Hs2.
  assert (Hok2 : ok2 = 0 \/ ok2 = 1).
  { revert E2. unfold select_file.
    destruct (transmit w1 _ MAX_APDU 0) as [w0 [[rc resp] sw0]].
    destruct (negb (rc =? SCARD_S_SUCCESS)); [intros [= _ <- _]; auto|].
    destruct (sw_ok sw0); intros [= _ <- _]; auto. }
  destruct Hok2 as [-> | ->]; cbn [Z.eqb].
  { exists w2, 0, sw2, 2%nat. cbn [firstn].
    split; [reflexivity|]. split; [auto|].
    split; [rewrite Hs2, Hs1, <- app_assoc; reflexivity | discriminate]. }
  destruct (write_ndef_loop_spec data len len w2 0 sw2 ltac:(lia))
    as (w' & ret & sw' & m & Hrun & Hret & Hm & Hsent & Hok).
  exists w', ret, sw', (S (S m)). cbn [firstn].
  split; [exact Hrun|]. split; [exact Hret|].
  split; [rewrite Hsent, Hs2, Hs1, <- !app_assoc; reflexivity|].
  intros Hr. destruct (Hok Hr) as (-> & ->). split; [reflexivity|].
  rewrite Hsent, Hs2, Hs1, <- !app_assoc, firstn_all. reflexivity.
Qed.

Lemma write_ndef_file_plain_chunks_witness :
  let ok := (SCARD_S_SUCCESS, [0x90; 0x00]) in
  let data := repeat 0x41 300 in
  option_map snd (@write_ndef_file_plain sim (fresh_wire [ok; ok; ok; ok])
                    data 300) = Some (1, 0x9000) /\
  length (update_binary_apdus data 300 0) = 2%nat /\
  concat (map (skipn 5) (update_binary_apdus data 300 0)) = data.
Proof.
  cbv zeta. split; [vm_compute; reflexivity|].
  destruct (@write_ndef_file_plain_chunks sim
              (fresh_wire [(SCARD_S_SUCCESS, [0x90; 0x00]);
                           (SCARD_S_SUCCESS, [0x90; 0x00]);
                           (SCARD_S_SUCCESS, [0x90; 0x00]);
                           (SCARD_S_SUCCESS, [0x90; 0x00])])
              (repeat 0x41 300) 300) as (Hl & Hc & _).
  split; [exact Hl|]. rewrite Hc. apply bytes_at_all. apply repeat_length.
Defined.

(** ** Key files: trimming a line *)

Lemma trim_end_spec (s : list Z) (len : nat) :
  (trim_end s len <= len)%nat /\
  (forall j, (trim_end s len <= j < len)%nat -> isspace (rd s j) = true) /\
  (trim_end s len = 0%nat \/ isspace (rd s (trim_end s len - 1)) = false).
Proof.
  induction len as [|len (IHle & IHsp & IHlast)]; cbn [trim_end].
  - split; [lia|]. split; [intros j Hj; lia | left; reflexivity].
  - destruct (isspace (rd s len)) eqn:E.
    + split; [lia|]. split; [|exact IHlast].
      intros j Hj. destruct (Nat.eq_dec j len) as [->|N]; [exact E|].
      apply IHsp. lia.
    + split; [lia|]. split; [intros j Hj; lia|]. right.
      cbn [Nat.sub]. rewrite Nat.sub_0_r. exact E.
Qed.

Lemma trim_start_spec (s : list Z) (cnt start : nat) :
  (start <= trim_start s cnt start <= start + cnt)%nat /\
  (forall j, (start <= j < trim_start s cnt start)%nat ->
             isspace (rd s j) = true) /\
  (trim_start s cnt start = (start + cnt)%nat \/
   isspace (rd s (trim_start s cnt start)) = false).
Proof.
  revert start. induction cnt as [|cnt IH]; intros start; cbn [trim_start].
  - split; [lia|]. split; [intros j Hj; lia | left; lia].
  - destruct (isspace (rd s start)) eqn:E.
    + destruct (IH (S start)) as (Hr & Hsp & Hstop).
      split; [lia|]. split.
      * intros j Hj. destruct (Nat.eq_dec j start) as [->|N]; [exact E|].
        apply Hsp. lia.
      * destruct Hstop as [-> | Hstop]; [left; lia | right; exact Hstop].
    + split; [lia|]. split; [intros j Hj; lia | right; exact E].
Qed.

Lemma forallb_nth (f : Z -> bool) (l : list Z) :
  (forall j, (j < length l)%nat -> f (nth j l 0) = true) -> forallb f l = true.
Proof.
  intros Hf. apply forallb_forall. intros x Hx.
  destruct (In_nth l x 0 Hx) as (j & Hj & <-). now apply Hf.
Qed.

(** X22: [trim_whitespace] keeps a contiguous part of the line and drops
    only white space (space, \t, \n, \v, \f, \r) around it: the line is
    white space, then the result, then white space; the result, unless
    empty, begins and ends with a character that is not white space, so
    trimming it again changes nothing. *)
Theorem trim_whitespace_spec (s : list Z) :
  Forall (fun c => 0 < c < 256) s ->
  (exists pre post,
     s = pre ++ trim_whitespace s ++ post /\
     forallb isspace pre = true /\ forallb isspace post = true) /\
  (forall c t, trim_whitespace s = c :: t -> isspace c = false) /\
  (forall t c, trim_whitespace s = t ++ [c] -> isspace c = false) /\
  trim_whitespace (trim_whitespace s) = trim_whitespace s.
Proof.
  intros _.
  assert (Core : forall s : list Z,
    (exists pre post,
       s = pre ++ trim_whitespace s ++ post /\
       forallb isspace pre = true /\ forallb isspace post = true) /\
    (forall c t, trim_whitespace s = c :: t -> isspace c = false) /\
    (forall t c, trim_whitespace s = t ++ [c] -> isspace c = false)).
  { clear s. intros s. unfold trim_whitespace.
    destruct (trim_end_spec s (length s)) as (He & Hpost & Hlast).
    set (e := trim_end s (length s)) in *.
    destruct (trim_start_spec s e 0) as (Hb & Hpre & Hfirst).
    set (b := trim_start s e 0) in *. cbn [Nat.add] in Hb, Hfirst.
    assert (Hmid : bytes_at s b (e - b) = firstn (e - b) (skipn b s))
      by (apply bytes_at_skipn; lia).
    split; [|split].
    - exists (firstn b s), (skipn e s). split; [|split].
      + rewrite Hmid. rewrite <- (firstn_skipn b s) at 1. f_equal.
        rewrite <- (firstn_skipn (e - b) (skipn b s)) at 1. f_equal.
        rewrite skipn_skipn. f_equal. lia.
      + apply forallb_nth. intros j Hj. rewrite length_firstn in Hj.
        rewrite nth_firstn.
        destruct (Nat.ltb_spec j b) as [Lt|Ge]; [|lia].
        apply (Hpre j). lia.
      + apply forallb_nth. intros j Hj. rewrite length_skipn in Hj.
        rewrite nth_skipn. apply (Hpost (e + j)%nat). lia.
    - intros c t Ht.
      assert (Hl : (1 <= e - b)%nat).
      { apply (f_equal (@length Z)) in Ht. rewrite length_bytes_at in Ht.
        cbn [length] in Ht. lia. }
      assert (Hc : c = rd s b).
      { unfold bytes_at in Ht. destruct (e - b)%nat; [lia|].
        cbn [seq map] in Ht. now injection Ht as <- _. }
      destruct Hfirst as [Hfirst | Hfirst]; [lia|]. now rewrite Hc.
    - intros t c Ht.
      assert (Hl : (1 <= e - b)%nat).
      { apply (f_equal (@length Z)) in Ht. rewrite length_bytes_at in Ht.
        rewrite length_app in Ht. cbn [length] in Ht. lia. }
      assert (Hc : c = rd s (e - 1)).
      { replace (e - b)%nat with ((e - b - 1) + 1)%nat in Ht by lia.
        rewrite bytes_at_add in Ht. cbn [bytes_at seq map] in Ht.
        apply app_inj_tail in Ht as [_ Hc]. rewrite <- Hc. f_equal. lia. }
      destruct Hlast as [Hlast | Hlast]; [lia|]. now rewrite Hc. }
  destruct (Core s) as (Hdec & Hfirst & Hlast).
  split; [exact Hdec|]. split; [exact Hfirst|]. split; [exact Hlast|].
  set (t := trim_whitespace s) in *. clearbody t.
  unfold trim_whitespace.
  assert (He : trim_end t (length t) = length t).
  { clear Hdec Hfirst. induction t as [|c t' _] using rev_ind; [reflexivity|].
    rewrite length_app. cbn [length].
    replace (length t' + 1)%nat with (S (length t')) by lia.
    cbn [trim_end]. rewrite rd_app_r, Nat.sub_diag by lia. cbn [rd nth].
    now rewrite (Hlast t' c eq_refl). }
  rewrite He.
  assert (Hb : trim_start t (length t) 0 = 0%nat).
  { destruct t as [|c t']; [reflexivity|]. cbn [length trim_start rd nth].
    now rewrite (Hfirst c t' eq_refl). }
  rewrite Hb, Nat.sub_0_r. now apply bytes_at_all.
Qed.

Lemma trim_whitespace_spec_witness :
  let s := [0x20; 0x09; 0x41; 0x20; 0x42; 0x0A; 0x0D] in
  Forall (fun c => 0 < c < 256) s /\
  trim_whitespace s = [0x41; 0x20; 0x42] /\
  trim_whitespace (trim_whitespace s) = trim_whitespace s.
Proof.
  cbv zeta.
  assert (Hs : Forall (fun c => 0 < c < 256)
                 [0x20; 0x09; 0x41; 0x20; 0x42; 0x0A; 0x0D])
    by (repeat constructor; lia).
  split; [exact Hs|]. split; [reflexivity|].
  exact (proj2 (proj2 (proj2 (trim_whitespace_spec _ Hs)))).
Defined.

(** ** The CRC of ChangeKey: range and residue *)

Lemma lxor_lt_pow2 (a b n : Z) :
  0 <= n -> 0 <= a < 2 ^ n -> 0 <= b < 2 ^ n -> 0 <= Z.lxor a b < 2 ^ n.
Proof.
  intros Hn Ha Hb.
  assert (E : Z.lxor a b = Z.lxor a b mod 2 ^ n).
  { apply Z.bits_inj'. intros i Hi.
    destruct (Z.lt_ge_cases i n) as [Lt|Ge].
    - now rewrite Z.mod_pow2_bits_low by lia.
    - rewrite Z.mod_pow2_bits_high by lia. rewrite Z.lxor_spec.
      rewrite <- (Z.mod_small a (2 ^ n)), <- (Z.mod_small b (2 ^ n)) by lia.
      now rewrite !Z.mod_pow2_bits_high by lia. }
  rewrite E. apply Z.mod_pos_bound. lia.
Qed.

Lemma crc32_shift_range (c : Z) :
  0 <= c < 2 ^ 32 -> 0 <= crc32_shift c < 2 ^ 32.
Proof.
  intros Hc. unfold crc32_shift.
  assert (Hs : 0 <= Z.shiftr c 1 < 2 ^ 32).
  { rewrite Z.shiftr_div_pow2 by lia. change (2 ^ 1) with 2.
    change (2 ^ 32) with 4294967296 in *. Z.div_mod_to_equations. lia. }
  destruct (negb (Z.land c 1 =? 0)); [|exact Hs].
  apply lxor_lt_pow2; [lia | exact Hs |]. change (2 ^ 32) with 4294967296. lia.
Qed.

Lemma crc32_byte_range (c b : Z) :
  0 <= c < 2 ^ 32 -> is_byte b -> 0 <= crc32_byte c b < 2 ^ 32.
Proof.
  intros Hc Hb. unfold crc32_byte.
  assert (Hx : 0 <= Z.lxor c b < 2 ^ 32).
  { apply lxor_lt_pow2; [lia | exact Hc |]. unfold is_byte in Hb.
    change (2 ^ 32) with 4294967296. lia. }
  revert Hx. generalize (Z.lxor c b) as x. generalize (seq 0 8) as l.
  induction l as [|i l IH]; intros x Hx; cbn [fold_left]; [exact Hx|].
  apply IH. now apply crc32_shift_range.
Qed.

Lemma crc32_ieee_range (data : list Z) :
  bytes data -> 0 <= crc32_ieee data < 2 ^ 32.
Proof.
  unfold crc32_ieee.
  assert (H0 : 0 <= 0xFFFFFFFF < 2 ^ 32) by (change (2 ^ 32) with 4294967296; lia).
  revert H0. generalize 0xFFFFFFFF as c.
  induction data as [|b data IH]; intros c Hc Hd; cbn [fold_left]; [exact Hc|].
  inversion Hd as [|? ? Hb Hd']; subst.
  apply IH; [now apply crc32_byte_range | exact Hd'].
Qed.

Lemma crc32_shift_even (k : Z) : crc32_shift (2 * k) = k.
Proof.
  unfold crc32_shift. rewrite land_1_odd, Z.odd_mul. cbn [Z.odd andb negb].
  rewrite Z.shiftr_div_pow2 by lia. change (2 ^ 1) with 2.
  rewrite Z.mul_comm. apply Z.div_mul. lia.
Qed.

(** Feeding the register its own low byte shifts it right by 8 bits. *)
Lemma crc32_byte_own_low (c : Z) : crc32_byte c (c mod 256) = c / 256.
Proof.
  unfold crc32_byte.
  assert (E : Z.lxor c (c mod 256) = 2 * (2 * (2 * (2 * (2 * (2 * (2 * (2 *
               (c / 256))))))))).
  { replace (2 * (2 * (2 * (2 * (2 * (2 * (2 * (2 * (c / 256)))))))))
      with ((c / 2 ^ 8) * 2 ^ 8) by (change (2 ^ 8) with 256; lia).
    change 256 with (2 ^ 8).
    apply Z.bits_inj'. intros i Hi. rewrite Z.lxor_spec.
    destruct (Z.lt_ge_cases i 8) as [Lt|Ge].
    - rewrite Z.mod_pow2_bits_low, Z.mul_pow2_bits_low by lia.
      apply xorb_nilpotent.
    - rewrite Z.mod_pow2_bits_high, Z.mul_pow2_bits by lia.
      rewrite Z.div_pow2_bits by lia. rewrite xorb_false_r. f_equal. lia. }
  rewrite E. cbn [seq fold_left]. now rewrite !crc32_shift_even.
Qed.

(** X23: the CRC register of [crc32_ieee] stays within 32 bits, and the
    four bytes [change_key] appends after the key version (the CRC of the
    new key, low byte first) are a check value in the usual sense: the CRC
    of the data followed by these four bytes is 0. *)
Theorem crc32_ieee_residue (data : list Z) :
  bytes data ->
  let crc := crc32_ieee data in
  0 <= crc < 2 ^ 32 /\
  crc32_ieee (data ++ [u8 (Z.land crc 0xFF);
                       u8 (Z.land (Z.shiftr crc 8) 0xFF);
                       u8 (Z.land (Z.shiftr crc 16) 0xFF);
                       u8 (Z.land (Z.shiftr crc 24) 0xFF)]) = 0.
Proof.
  intros Hd. cbv zeta. pose proof (crc32_ieee_range data Hd) as Hr.
  split; [exact Hr|].
  unfold crc32_ieee at 1. rewrite fold_left_app.
  fold (crc32_ieee data). set (c := crc32_ieee data) in *. clearbody c.
  rewrite !u8_land_255, !Z.shiftr_div_pow2 by lia.
  cbn [fold_left]. rewrite crc32_byte_own_low.
  change (2 ^ 8) with 256. rewrite crc32_byte_own_low.
  replace (c / 2 ^ 16) with (c / 256 / 256)
    by (rewrite Z.div_div by lia; reflexivity).
  rewrite crc32_byte_own_low.
  replace (c / 2 ^ 24) with (c / 256 / 256 / 256)
    by (rewrite !Z.div_div by lia; reflexivity).
  rewrite crc32_byte_own_low. rewrite !Z.div_div by lia.
  apply Z.div_small. change (2 ^ 32) with 4294967296 in Hr. lia.
Qed.

Lemma crc32_ieee_residue_witness :
  bytes Scenario.RndA /\
  crc32_ieee (Scenario.RndA
              ++ skipn 17 (change_key_data (zeros 16) Scenario.RndA 0x01)) = 0.
Proof.
  assert (Hb : bytes Scenario.RndA)
    by (repeat constructor; unfold is_byte; lia).
  split; [exact Hb|].
  exact (proj2 (crc32_ieee_residue Scenario.RndA Hb)).
Defined.

(** X24: [get_file_settings_plain] never writes past the caller's
    buffer: it returns 1 only when the status is 0x9000 or 0x9100 and the
    answer fits, handing back exactly the body received with its length;
    an answer longer than [*out_len] makes it return 0 under a successful
    status word, with [*out_len] unchanged. *)
Theorem get_file_settings_plain_bounds `{Platform} (w : wire) (file_no : Z)
    (out_len : nat) :
  let apdu := [0x90; 0xF5; 0x00; 0x00; 0x01; file_no; 0x00] in
  let w1 := fst (transmit w apdu MAX_APDU 0) in
  let rc := fst (fst (snd (transmit w apdu MAX_APDU 0))) in
  let body := snd (fst (snd (transmit w apdu MAX_APDU 0))) in
  let sw := snd (snd (transmit w apdu MAX_APDU 0)) in
  let good := (rc =? SCARD_S_SUCCESS) && sw_ok sw in
  get_file_settings_plain w file_no out_len =
    (if good && (length body <=? out_len)%nat
     then (w1, (1, body, length body, sw))
     else (w1, (0, [], out_len, sw))) /\
  (snd (fst (snd (get_file_settings_plain w file_no out_len)))
   <= out_len)%nat /\
  sent w1 = sent w ++ [apdu].
Proof.
  cbv zeta. split; [|split].
  - unfold get_file_settings_plain.
    destruct (transmit w _ MAX_APDU 0) as [w1 [[rc body] sw]]. cbn [fst snd].
    destruct (rc =? SCARD_S_SUCCESS); destruct (sw_ok sw);
      cbn [negb orb andb]; try reflexivity.
    destruct (Nat.ltb_spec out_len (length body));
      destruct (Nat.leb_spec (length body) out_len); try lia; reflexivity.
  - unfold get_file_settings_plain.
    destruct (transmit w _ MAX_APDU 0) as [w1 [[rc body] sw]].
    destruct (negb (rc =? SCARD_S_SUCCESS) || negb (sw_ok sw));
      cbn [fst snd]; [lia|].
    destruct (Nat.ltb_spec out_len (length body)); cbn [fst snd]; lia.
  - apply transmit_sent.
Qed.

(** ** The subkey shift *)

(** X25: on 16 bytes, [left_shift_1bit] is the doubling of the 128-bit
    number the block denotes (most significant byte first), modulo
    2^128: the bit shifted out of the top is dropped, and the result is
    again 16 bytes. *)
Theorem left_shift_1bit_doubles (l : list Z) :
  length l = 16%nat -> bytes l ->
  RFC4493.be_to_Z (left_shift_1bit l) = (2 * RFC4493.be_to_Z l) mod 2 ^ 128 /\
  bytes (left_shift_1bit l) /\ length (left_shift_1bit l) = 16%nat.
Proof.
  intros Hl Hb. rewrite (left_shift_1bit_shl1 l Hl Hb).
  pose proof (shl1_facts l Hb) as (Hc & Ht & Htl & Hr & He).
  pose proof (shl1_facts _ Ht) as (_ & _ & _ & Hrt & _).
  cbv zeta in *. rewrite Htl in Hrt. rewrite Hl in *.
  change (256 ^ Z.of_nat 16) with (2 ^ 128) in *.
  split; [|split; [exact Ht | exact Htl]].
  apply Z.mod_unique with (q := fst (shl1 l)); [left; exact Hrt|].
  lia.
Qed.

Lemma left_shift_1bit_doubles_witness :
  let l := 0x80 :: zeros 14 ++ [0x81] in
  length l = 16%nat /\ bytes l /\
  RFC4493.be_to_Z (left_shift_1bit l) = 0x0102.
Proof.
  cbv zeta.
  assert (Hb : bytes (0x80 :: zeros 14 ++ [0x81]))
    by (repeat constructor; unfold is_byte; lia).
  split; [reflexivity|]. split; [exact Hb|].
  rewrite (proj1 (left_shift_1bit_doubles (0x80 :: zeros 14 ++ [0x81])
                    eq_refl Hb)).
  vm_compute. reflexivity.
Defined.

(** ** READ BINARY and the NDEF read loop of [main] *)

(** X26: [read_binary] does not look at the capacity [*out_len] of the
    caller's buffer: when it returns 1 the bytes it copies and the length
    it stores are the whole body received (status 0x9000 or 0x9100), the
    same for every capacity, so they can exceed it. *)
Theorem read_binary_ignores_capacity `{Platform} (w : wire) (offset le : Z)
    (out_len : nat) (sw_out : Z) (w' : wire) (out : list Z) (n : nat) (sw : Z) :
  read_binary w offset le out_len sw_out = (w', (1, out, n, sw)) ->
  n = length out /\ (sw = 0x9000 \/ sw = 0x9100) /\
  forall out_len' : nat,
    read_binary w offset le out_len' sw_out = (w', (1, out, n, sw)).
Proof.
  unfold read_binary.
  destruct (transmit w _ MAX_APDU 0) as [w1 [[rc resp] sw1]].
  destruct (negb (rc =? SCARD_S_SUCCESS)); [discriminate|].
  assert (Hok : forall s, sw_ok s = true -> s = 0x9000 \/ s = 0x9100).
  { intros s Hs. unfold sw_ok in Hs.
    apply orb_true_iff in Hs as [E|E]; apply Z.eqb_eq in E; auto. }
  destruct (Z.land sw1 0xFF00 =? 0x6C00).
  - destruct (transmit w1 _ MAX_APDU sw1) as [w2 [[rc2 resp2] sw2]].
    destruct (negb (rc2 =? SCARD_S_SUCCESS)); [discriminate|].
    destruct (sw_ok sw2) eqn:Esw; cbn [negb]; [|discriminate].
    intros [= <- <- <- <-]. split; [reflexivity|]. split; [now apply Hok|].
    reflexivity.
  - destruct (sw_ok sw1) eqn:Esw; cbn [negb]; [|discriminate].
    intros [= <- <- <- <-]. split; [reflexivity|]. split; [now apply Hok|].
    reflexivity.
Qed.

Lemma read_binary_ignores_capacity_witness :
  snd (@read_binary sim
         (fresh_wire [(SCARD_S_SUCCESS, [0x01; 0x02; 0x03; 0x04; 0x05; 0x90; 0x00])])
         0 2 4 0)
  = (1, [0x01; 0x02; 0x03; 0x04; 0x05], 5%nat, 0x9000).
Proof.
  assert (Hrun : @read_binary sim
            (fresh_wire [(SCARD_S_SUCCESS,
                          [0x01; 0x02; 0x03; 0x04; 0x05; 0x90; 0x00])]) 0 2 4 0
          = (fst (@read_binary sim
                    (fresh_wire [(SCARD_S_SUCCESS,
                                  [0x01; 0x02; 0x03; 0x04; 0x05; 0x90; 0x00])])
                    0 2 4 0),
             (1, [0x01; 0x02; 0x03; 0x04; 0x05], 5%nat, 0x9000)))
    by reflexivity.
  destruct (@read_binary_ignores_capacity sim _ _ _ _ _ _ _ _ _ Hrun)
    as (_ & _ & Hany).
  rewrite (Hany 4%nat). reflexivity.
Defined.

(** A READ BINARY answered with the bare status 90 00 succeeds with no
    data; [good] is a set of card states that such answers do not leave. *)
Lemma read_binary_empty `{Platform} (good : Card -> Prop) (w : wire)
    (offset le : Z) (out_len : nat) (sw_out : Z) :
  (forall c apdu cap, good c ->
     good (fst (SCardTransmit c apdu cap)) /\
     snd (SCardTransmit c apdu cap) = (SCARD_S_SUCCESS, [0x90; 0x00])) ->
  good (card w) ->
  exists w',
    read_binary w offset le out_len sw_out = (w', (1, [], 0%nat, 0x9000)) /\
    good (card w').
Proof.
  intros Hc Hg. unfold read_binary, transmit.
  match goal with
  | |- context [SCardTransmit (card w) ?a MAX_APDU] =>
      destruct (Hc (card w) a MAX_APDU Hg) as (Hg' & Hr);
      destruct (SCardTransmit (card w) a MAX_APDU) as [c' r]
  end.
  cbn [fst snd] in Hg', Hr. subst r. cbn. eexists. split; [reflexivity|].
  exact Hg'.
Qed.

(** X27: the loop of [main] that reads the NDEF message has no guard
    against a card that returns no data: once the card answers every
    command with the bare status 90 00 (the states [good], which it does
    not leave), [read_binary] succeeds with 0 bytes, [remaining] never
    decreases, and for a non-zero NLEN the loop does not end, whatever the
    number of iterations allowed. *)
Theorem main_ndef_read_never_ends `{Platform} (good : Card -> Prop)
    (fuel : nat) (w : wire) (nlen sw : Z) :
  (forall c apdu cap, good c ->
     good (fst (SCardTransmit c apdu cap)) /\
     snd (SCardTransmit c apdu cap) = (SCARD_S_SUCCESS, [0x90; 0x00])) ->
  good (card w) ->
  0 < nlen < 65536 ->
  main_ndef_read fuel w nlen sw = None.
Proof.
  intros Hc Hg Hn. unfold main_ndef_read.
  generalize (zeros (Z.to_nat (if nlen =? 0 then 1 else nlen))) as ndef.
  generalize (Z.to_nat (if nlen =? 0 then 1 else nlen)) as alloc.
  generalize 2 as offset. revert w Hg sw.
  induction fuel as [|fuel IH]; intros w Hg sw offset alloc ndef;
    cbn [main_ndef_read_loop];
    destruct (Z.ltb_spec 0 nlen) as [_|Hle]; try lia; [reflexivity|].
  destruct (read_binary_empty good w offset
              (if 0xFF <? nlen then 0xFF else u8 nlen) 256 sw Hc Hg)
    as (w' & -> & Hg').
  cbn [Z.eqb length Nat.add Nat.ltb Nat.leb orb].
  destruct (Nat.ltb_spec alloc 0) as [Lt|_]; [lia|].
  replace (u16 (nlen - u16 (Z.of_nat 0))) with nlen.
  - apply IH. exact Hg'.
  - change (u16 (Z.of_nat 0)) with 0. rewrite Z.sub_0_r, u16_mod.
    symmetry. apply Z.mod_small. lia.
Qed.

Lemma main_ndef_read_never_ends_witness :
  @main_ndef_read mute_card 1000 (@Build_wire mute_card tt []) 5 0 = None.
Proof.
  apply (@main_ndef_read_never_ends mute_card (fun _ => True) 1000
           (@Build_wire mute_card tt []) 5 0).
  - intros c apdu cap _. split; [exact I | reflexivity].
  - exact I.
  - lia.
Defined.

Lemma length_memcpy (dst src : list Z) (off : nat) :
  (off + length src <= length dst)%nat ->
  length (memcpy dst off src) = length dst.
Proof.
  intros Hl. unfold memcpy.
  rewrite !length_app, length_firstn, length_skipn. lia.
Qed.

(** A READ BINARY answered with exactly [Le] bytes and 90 00, by a card
    in one of the states [good], which such answers do not leave. *)
Lemma read_binary_exact `{Platform} (good : Card -> Prop) (w : wire) (offset le : Z) (out_len : nat)
    (sw_out : Z) :
  (forall c apdu cap, good c ->
     good (fst (SCardTransmit c apdu cap)) /\
     exists body,
       snd (SCardTransmit c apdu cap) = (SCARD_S_SUCCESS, body ++ [0x90; 0x00]) /\
       length body = Z.to_nat (rd apdu 4)) ->
  good (card w) ->
  exists w' body,
    read_binary w offset le out_len sw_out = (w', (1, body, length body, 0x9000)) /\
    length body = Z.to_nat le /\
    length (sent w') = S (length (sent w)) /\ good (card w').
Proof.
  intros Hc Hg. unfold read_binary.
  match goal with
  | |- context [transmit w ?a MAX_APDU 0] =>
      pose proof (transmit_sent w a MAX_APDU 0) as Hs;
      destruct (Hc (card w) a MAX_APDU Hg) as (Hg' & body & Hr & Hl);
      unfold transmit in *;
      destruct (SCardTransmit (card w) a MAX_APDU) as [c' r]
  end.
  cbn [fst snd] in Hg', Hr. subst r. cbn [rd nth] in Hl.
  cbn [SCARD_S_SUCCESS Z.eqb negb] in *.
  rewrite length_app in *. cbn [length] in *.
  destruct (Nat.ltb_spec (length body + 2) 2) as [Lt|_]; [lia|].
  replace (length body + 2 - 2)%nat with (length body + 0)%nat in * by lia.
  replace (length body + 2 - 1)%nat with (length body + 1)%nat in * by lia.
  rewrite !rd_app_plus in *. cbn [rd nth] in *.
  change (u16 (Z.lor (Z.shiftl 0x90 8) 0x00)) with 0x9000 in *.
  change (Z.land 0x9000 0xFF00 =? 0x6C00) with false. cbn iota.
  change (sw_ok 0x9000) with true. cbn [negb fst] in *.
  rewrite Nat.add_0_r, firstn_app, Nat.sub_diag, firstn_all in *.
  cbn [firstn] in *. rewrite app_nil_r in *.
  eexists _, body. split; [reflexivity|]. split; [exact Hl|].
  cbn [sent card]. split; [|exact Hg']. rewrite length_app. cbn [length]. lia.
Qed.

Lemma main_ndef_read_loop_complete `{Platform} (good : Card -> Prop)
    (fuel : nat) (w : wire)
    (alloc : nat) (ndef : list Z) (offset remaining : Z) (total : nat) (sw : Z) :
  (forall c apdu cap, good c ->
     good (fst (SCardTransmit c apdu cap)) /\
     exists body,
       snd (SCardTransmit c apdu cap) = (SCARD_S_SUCCESS, body ++ [0x90; 0x00]) /\
       length body = Z.to_nat (rd apdu 4)) ->
  good (card w) ->
  0 <= remaining < 65536 -> (Z.to_nat remaining <= fuel)%nat ->
  (total + Z.to_nat remaining <= alloc)%nat -> length ndef = alloc ->
  exists w' ndef' sw',
    main_ndef_read_loop fuel w alloc ndef offset remaining total sw
    = Some (w', (NR_done, ndef', (total + Z.to_nat remaining)%nat, sw')) /\
    length ndef' = alloc /\
    (0 < remaining -> sw' = 0x9000) /\
    length (sent w')
    = (length (sent w) + (Z.to_nat remaining + 254) / 255)%nat.
Proof.
  intros Hc. revert w ndef offset remaining total sw.
  induction fuel as [|fuel IH]; intros w ndef offset remaining total sw
    Hg Hr Hf Ha Hn; cbn [main_ndef_read_loop].
  - destruct (Z.ltb_spec 0 remaining) as [Lt|Ge]; [lia|].
    assert (remaining = 0) as -> by lia. exists w, ndef, sw.
    cbn. rewrite !Nat.add_0_r. repeat split; auto. lia.
  - destruct (Z.ltb_spec 0 remaining) as [Lt|Ge].
    2:{ assert (remaining = 0) as -> by lia. exists w, ndef, sw.
        cbn. rewrite !Nat.add_0_r. repeat split; auto. lia. }
    set (chunk := if 0xFF <? remaining then 0xFF else u8 remaining).
    assert (Hchunk : 1 <= chunk <= 255 /\ chunk <= remaining /\
                     Z.to_nat chunk = Nat.min 255 (Z.to_nat remaining)).
    { subst chunk. destruct (Z.ltb_spec 0xFF remaining) as [G|L]; [lia|].
      assert (u8 remaining = remaining) as ->; [|lia].
      unfold u8. change 0xFF with (Z.ones 8). rewrite Z.land_ones by lia.
      apply Z.mod_small. lia. }
    destruct (read_binary_exact good w offset chunk 256 sw Hc Hg)
      as (w1 & body & -> & Hbl & Hs1 & Hg1).
    cbn [Z.eqb]. rewrite Hbl.
    destruct (Nat.ltb_spec 256 (Z.to_nat chunk)) as [G|_]; [lia|].
    destruct (Nat.ltb_spec alloc (total + Z.to_nat chunk)) as [G|_]; [lia|].
    cbn [orb].
    assert (Hrem : u16 (remaining - u16 (Z.of_nat (Z.to_nat chunk)))
                   = remaining - chunk).
    { rewrite Z2Nat.id by lia. rewrite (u16_mod chunk), (Z.mod_small chunk) by lia.
      rewrite u16_mod. apply Z.mod_small. lia. }
    rewrite Hrem.
    destruct (IH w1 (memcpy ndef total body)
                (u16 (offset + u16 (Z.of_nat (Z.to_nat chunk))))
                (remaining - chunk) (total + Z.to_nat chunk)%nat 0x9000
                Hg1 ltac:(lia) ltac:(lia) ltac:(lia)
                ltac:(rewrite length_memcpy; lia))
      as (w' & ndef' & sw' & Hrun & Hlen & Hsw & Hsent).
    exists w', ndef', (if 0 <? remaining - chunk then sw' else 0x9000).
    assert (Hsw' : sw' = if 0 <? remaining - chunk then sw' else 0x9000).
    { destruct (Z.ltb_spec 0 (remaining - chunk)) as [G|L]; [reflexivity|].
      revert Hrun. assert (remaining - chunk = 0) as -> by lia.
      destruct fuel; cbn [main_ndef_read_loop Z.ltb Z.compare];
        intros [= _ _ _ ->]; reflexivity. }
    rewrite <- Hsw'. rewrite Hrun.
    replace (total + Z.to_nat chunk + Z.to_nat (remaining - chunk))%nat
      with (total + Z.to_nat remaining)%nat by lia.
    split; [reflexivity|]. split; [exact Hlen|].
    split.
    { intros _. destruct (Z.ltb_spec 0 (remaining - chunk)) as [G|L];
        [now apply Hsw|].
      revert Hrun. assert (remaining - chunk = 0) as -> by lia.
      destruct fuel; cbn [main_ndef_read_loop Z.ltb Z.compare];
        intros [= _ _ _ ->]; reflexivity. }
    rewrite Hsent, Hs1.
    rewrite (ceil255_step (Z.to_nat remaining)) by lia.
    replace (Z.to_nat (remaining - chunk))
      with (Z.to_nat remaining - Nat.min 255 (Z.to_nat remaining))%nat by lia.
    lia.
Qed.

(** X28: with a card that, from the state it is in, answers each
    command with status 90 00 and exactly as many bytes as the fifth byte
    of the APDU, the [Le] of a READ BINARY, asks for (the states [good],
    which it does not leave), the NDEF read loop of [main] ends
    normally for every NLEN: it has collected NLEN bytes into the
    [max(NLEN, 1)]-byte array after (NLEN + 254) / 255 READ BINARY
    commands, and as many iterations as NLEN are always enough. *)
Theorem main_ndef_read_complete `{Platform} (good : Card -> Prop) (w : wire)
    (nlen sw : Z) :
  (forall c apdu cap, good c ->
     good (fst (SCardTransmit c apdu cap)) /\
     exists body,
       snd (SCardTransmit c apdu cap) = (SCARD_S_SUCCESS, body ++ [0x90; 0x00]) /\
       length body = Z.to_nat (rd apdu 4)) ->
  good (card w) ->
  0 <= nlen < 65536 ->
  exists w' ndef sw',
    main_ndef_read (Z.to_nat nlen) w nlen sw
    = Some (w', (NR_done, ndef, Z.to_nat nlen, sw')) /\
    length ndef = Z.to_nat (Z.max nlen 1) /\
    length (sent w') = (length (sent w) + (Z.to_nat nlen + 254) / 255)%nat.
Proof.
  intros Hc Hg Hn. unfold main_ndef_read.
  assert (Ha : Z.to_nat (if nlen =? 0 then 1 else nlen) = Z.to_nat (Z.max nlen 1)).
  { destruct (Z.eqb_spec nlen 0); f_equal; lia. }
  rewrite Ha.
  destruct (main_ndef_read_loop_complete good (Z.to_nat nlen) w
              (Z.to_nat (Z.max nlen 1)) (zeros (Z.to_nat (Z.max nlen 1)))
              2 nlen 0 sw Hc Hg Hn ltac:(lia) ltac:(lia)
              ltac:(apply repeat_length))
    as (w' & ndef' & sw' & Hrun & Hlen & _ & Hsent).
  exists w', ndef', sw'. cbn [Nat.add] in Hrun.
  split; [exact Hrun|]. split; [exact Hlen | exact Hsent].
Qed.

Lemma main_ndef_read_complete_witness :
  option_map (fun r => snd (fst (snd r)))
    (@main_ndef_read blank_card 300 (@Build_wire blank_card tt []) 300 0)
  = Some 300%nat.
Proof.
  destruct (@main_ndef_read_complete blank_card (fun _ => True)
              (@Build_wire blank_card tt []) 300 0)
    as (w' & ndef & sw' & Hrun & _).
  - intros c apdu cap _. split; [exact I|]. eexists. split; [reflexivity|].
    unfold zeros. apply repeat_length.
  - exact I.
  - lia.
  - change (Z.to_nat 300) with 300%nat in Hrun. rewrite Hrun. reflexivity.
Defined.
